(** * Contacts backend: accounts, tokens, session cache and contact queries

    A shallow embedding of the request handlers of the contacts service
    ([src/routes], [src/repository], [src/services/auth.py]) and the
    properties of its specification.

    The handlers are Python coroutines that read and write a relational
    store through an ORM session, a Redis cache, the system clock and a few
    libraries.  They are embedded as computations of a state-and-exception
    monad over a [World]; the libraries (python-jose, passlib, cloudinary)
    are an interface, [Services], of which the handlers are clients. *)

From Stdlib Require Import ZArith String List Lia.
From Stdlib Require Import PrimFloat FloatOps SpecFloat.
From stdpp Require Import base option list gmap strings fin_maps.

Local Open Scope string_scope.
Local Open Scope Z_scope.

(** ** Calendar dates ([datetime.date], [timedelta(days=n)]) *)

Module Calendar.

Record date := Date { year : Z; month : Z; day : Z }.

Definition is_leap (y : Z) : bool :=
  ((y mod 4 =? 0) && negb (y mod 100 =? 0)) || (y mod 400 =? 0).

Definition days_in_month (y m : Z) : Z :=
  if m =? 2 then (if is_leap y then 29 else 28)
  else if (m =? 4) || (m =? 6) || (m =? 9) || (m =? 11) then 30
  else 31.

(** [d + timedelta(days=1)] *)
Definition next_day (d : date) : date :=
  if day d <? days_in_month (year d) (month d)
  then Date (year d) (month d) (day d + 1)
  else if month d <? 12 then Date (year d) (month d + 1) 1
  else Date (year d + 1) 1 1.

(** [d + timedelta(days=n)] for a natural [n] *)
Fixpoint add_days (n : nat) (d : date) : date :=
  match n with
  | O => d
  | S k => add_days k (next_day d)
  end.

(** Days since 1970-01-01 to a civil date (proleptic Gregorian), the
    conversion behind [datetime.date()]. *)
Definition civil_from_days (z0 : Z) : date :=
  let z := z0 + 719468 in
  let era := z / 146097 in
  let doe := z - era * 146097 in
  let yoe := (doe - doe / 1460 + doe / 36524 - doe / 146096) / 365 in
  let doy := doe - (365 * yoe + yoe / 4 - yoe / 100) in
  let mp := (5 * doy + 2) / 153 in
  let d := doy - (153 * mp + 2) / 5 + 1 in
  let m := if mp <? 10 then mp + 3 else mp - 9 in
  let y := yoe + era * 400 in
  Date (if m <=? 2 then y + 1 else y) m d.

End Calendar.
Export Calendar.

(** ** Instants and durations ([datetime.datetime], [timedelta])

    Instants are microseconds since the epoch, the resolution of
    [datetime.utcnow()]. *)

Abbreviation datetime := Z.

Definition microseconds_per_second : Z := 1000000.

(** [timedelta(seconds=s)], [timedelta(minutes=m)], [timedelta(days=d)] *)
Definition timedelta_seconds (s : Z) : Z := s * microseconds_per_second.
Definition timedelta_minutes (m : Z) : Z := timedelta_seconds (m * 60).
Definition timedelta_days (d : Z) : Z := timedelta_seconds (d * 86400).

(** [timegm(t.utctimetuple())]: the instant in whole seconds. *)
Definition epoch_seconds (t : datetime) : Z := t / microseconds_per_second.

(** ** Rows of the two tables ([src/database/models.py])

    [created_at] and [updated_at] are filled in by the database server and
    read by no handler; they are left out of the rows.  [User] follows the
    collaborators below, a stored refresh token being one of their tokens. *)

Record Contact := mkContact {
  contact_id : Z;
  name : string;
  last_name : string;
  contact_email : option string;
  phone : string;
  born_date : option date;
  user_id : option Z
}.

(** ** Upcoming birthdays ([src/repository/contacts.py], get_contacts_birthdays) *)

(** SQL three-valued comparison on a nullable column: a NULL operand
    never satisfies the predicate. *)
Definition sql_extract {A} (f : date -> A) (d : option date) : option A :=
  f <$> d.

Definition sql_holds {A} (p : A -> bool) (x : option A) : bool :=
  match x with Some a => p a | None => false end.

(** The filter of the birthday query, evaluated on one row. *)
Definition birthday_filter (today last_day : date) (uid : Z) (c : Contact) : bool :=
  (sql_holds (Z.eqb (month last_day)) (sql_extract month (born_date c))
   && sql_holds (fun d => d <=? day last_day) (sql_extract day (born_date c))
   && sql_holds (Z.eqb uid) (user_id c))
  ||
  (sql_holds (Z.eqb (month today)) (sql_extract month (born_date c))
   && sql_holds (fun d => d >=? day today) (sql_extract day (born_date c))
   && sql_holds (Z.eqb uid) (user_id c)).

(** The query at a given [today]: [last_day = today + timedelta(days=7)]. *)
Definition birthdays_on (today : date) (uid : Z) (rows : list Contact) : list Contact :=
  let last_day := add_days 7 today in
  List.filter (birthday_filter today last_day uid) rows.

(** ** Claim sets, exceptions and the libraries the handlers call *)

(** A value of a claims dictionary: a JSON string or number, or a Python
    [datetime] not yet converted by [jwt.encode]. *)
Inductive jvalue :=
| JStr (s : string)
| JNum (n : Z)
| JDatetime (t : datetime).

#[global] Instance jvalue_eq_dec : EqDecision jvalue.
Proof. solve_decision. Defined.

Abbreviation claims := (gmap string jvalue).

(** The exceptions a handler can end with.  [HTTPException] is what the
    framework turns into an error response; the others are Python's own
    and reach the client as an unhandled server error. *)
Inductive exn :=
| HTTPException (status_code : Z) (detail : string)
| AttributeError (attribute : string)
| KeyError (key : string)
| OverflowError
| ValueError.

#[global] Instance exn_eq_dec : EqDecision exn.
Proof. solve_decision. Defined.

(** ** A number of seconds given by a caller ([Optional[float]])

    The annotation is not enforced: the argument is an [int] or a [float],
    a [float] being an IEEE 754 double.  What follows is the arithmetic
    of Python's [datetime] module on such a number, as CPython has it. *)
Inductive number :=
| PyInt (n : Z)
| PyFloat (x : float).

(** [bool(x)]: zero of either kind is false; NaN is true. *)
Definition number_truth (x : number) : bool :=
  match x with
  | PyInt n => negb (n =? 0)
  | PyFloat f => negb (PrimFloat.eqb f PrimFloat.zero)
  end.

Definition apply_sign (negative : bool) (n : Z) : Z := if negative then - n else n.

(** The integer part of [m * 2^e], as [modf] gives it. *)
Definition integer_part (m : positive) (e : Z) : Z :=
  if 0 <=? e then Z.shiftl (Z.pos m) e else Z.shiftr (Z.pos m) (- e).

(** [float(n)] for an integer below 2^53 in magnitude. *)
Definition float_of_Z (n : Z) : float :=
  let f := PrimFloat.of_uint63 (Uint63Axioms.of_Z (Z.abs n)) in
  if n <? 0 then PrimFloat.opp f else f.

(** A double to the nearest integer, a tie going to the even one. *)
Definition round_half_even (x : spec_float) : Z :=
  match x with
  | S754_finite s m e =>
      if 0 <=? e then apply_sign s (Z.shiftl (Z.pos m) e)
      else
        let q := Z.shiftr (Z.pos m) (- e) in
        let r := Z.land (Z.pos m) (Z.ones (- e)) in
        let h := Z.shiftl 1 (- e - 1) in
        apply_sign s (if r <? h then q
                      else if h <? r then q + 1
                      else if Z.even q then q else q + 1)
  | _ => 0
  end.

(** The microseconds of [timedelta(seconds=x)] for a double [x], before
    the range check: the integer part is taken exactly; the fractional
    part, if there is one, is multiplied by 1e6 in double arithmetic and
    rounded half to even.  NaN and the infinities fail in the conversion
    to [int]. *)
Definition float_microseconds (x : float) : exn + Z :=
  match Prim2SF x with
  | S754_nan => inl ValueError
  | S754_infinity _ => inl OverflowError
  | S754_zero _ => inr 0
  | S754_finite s m e =>
      let intpart := apply_sign s (integer_part m e) in
      if 0 <=? e then inr (intpart * microseconds_per_second)
      else
        let fracpart := PrimFloat.sub x (float_of_Z intpart) in
        inr (intpart * microseconds_per_second
             + round_half_even
                 (Prim2SF (PrimFloat.mul (float_of_Z microseconds_per_second) fracpart)))
  end.

(** [timedelta.min.days] and [timedelta.max.days] in magnitude. *)
Definition timedelta_max_days : Z := 999999999.

Definition timedelta_in_range (delta : Z) : bool :=
  let days := delta / (86400 * microseconds_per_second) in
  (- timedelta_max_days <=? days) && (days <=? timedelta_max_days).

(** [timedelta(seconds=x)]: the duration in microseconds, or the
    exception of the constructor. *)
Definition timedelta_of_seconds (x : number) : exn + Z :=
  match (match x with
         | PyInt n => inr (timedelta_seconds n)
         | PyFloat f => float_microseconds f
         end) with
  | inl e => inl e
  | inr delta => if timedelta_in_range delta then inr delta else inl OverflowError
  end.

(** [datetime.min] (0001-01-01) and [datetime.max]
    (9999-12-31T23:59:59.999999). *)
Definition datetime_min : datetime := -62135596800000000.
Definition datetime_max : datetime := 253402300799999999.

Definition datetime_in_range (t : datetime) : bool :=
  (datetime_min <=? t) && (t <=? datetime_max).

(** [t + delta] for a [timedelta] built from a caller's number: outside
    the years 1 to 9999 the sum raises [OverflowError]. *)
Definition datetime_add (t : datetime) (delta : Z) : exn + datetime :=
  if datetime_in_range (t + delta) then inr (t + delta) else inl OverflowError.

Definition HTTP_400_BAD_REQUEST : Z := 400.
Definition HTTP_401_UNAUTHORIZED : Z := 401.
Definition HTTP_404_NOT_FOUND : Z := 404.
Definition HTTP_422_UNPROCESSABLE_ENTITY : Z := 422.

(** The collaborators of the service.  A token is an opaque bearer string:
    the handlers only pass it to [jwt.decode] and compare it for equality. *)
Class Services := {
  token : Type;
  token_eq_dec :: EqDecision token;
  (** [jose.jwt.encode(claims, key, algorithm)] *)
  jwt_encode : claims -> string -> string -> token;
  (** [jose.jwt.decode(token, key, algorithms)] at the instant it runs;
      [None] stands for a raised [JWTError]. *)
  jwt_decode : token -> string -> list string -> datetime -> option claims;
  (** [CryptContext.verify(plain, hashed)] *)
  pwd_context_verify : string -> string -> bool;
  (** [settings.secret_key_jwt], [settings.algorithm] *)
  SECRET_KEY : string;
  ALGORITHM : string;
  (** the [n]-th reading of the clock: an instant of the present, so
      that a reading and a reading plus one of the service's own
      lifetimes (minutes or days) are instants of [datetime] *)
  clock : nat -> datetime;
  (** the local calendar date of an instant, [datetime.now().date()] *)
  local_date : datetime -> date;
  (** [cloudinary.uploader.upload] followed by [build_url]: the URL of the
      uploaded image for a file and a public id *)
  cloudinary_url : string -> string -> string
}.

Module models.
Section models.
Context `{Sv : Services}.

Record User := mkUser {
  id : Z;
  username : string;
  email : string;
  password : string;
  avatar : option string;
  refresh_token : option token;
  (** [Column(Boolean, default=False)]; the handlers only test its truth
      value, for which NULL reads as [False]. *)
  confirmed : bool
}.

Definition set_refresh_token (tok : option token) (u : User) : User :=
  mkUser (id u) (username u) (email u) (password u) (avatar u) tok (confirmed u).

Definition set_confirmed (b : bool) (u : User) : User :=
  mkUser (id u) (username u) (email u) (password u) (avatar u) (refresh_token u) b.

Definition set_avatar (url : option string) (u : User) : User :=
  mkUser (id u) (username u) (email u) (password u) url (refresh_token u) (confirmed u).

#[global] Instance User_eq_dec : EqDecision User.
Proof. solve_decision. Defined.

End models.
End models.
Export models.

(** ** The world a request runs in *)

(** What a request leaves behind besides its writes: password
    verifications performed and confirmation e-mails scheduled with
    [BackgroundTasks.add_task(send_email, ...)]. *)
Inductive Event :=
| EvVerifyPassword (plain hashed : string)
| EvSendEmail (to username base_url : string).

Section World.
Context `{Sv : Services}.

(** A Redis entry: the pickled user and its expiry instant, if any. *)
Record CacheEntry := mkEntry {
  pickled : User;
  expires_at : option datetime
}.

Record World := mkWorld {
  users : list User;               (* table [users], in row order *)
  contacts : list Contact;         (* table [contacts] *)
  cache : gmap string CacheEntry;  (* Redis db 0 *)
  ticks : nat;                     (* clock readings made so far *)
  events : list Event              (* oldest first *)
}.

Definition with_users (us : list User) (w : World) : World :=
  mkWorld us (contacts w) (cache w) (ticks w) (events w).
Definition with_contacts (cs : list Contact) (w : World) : World :=
  mkWorld (users w) cs (cache w) (ticks w) (events w).
Definition with_cache (c : gmap string CacheEntry) (w : World) : World :=
  mkWorld (users w) (contacts w) c (ticks w) (events w).
Definition with_ticks (n : nat) (w : World) : World :=
  mkWorld (users w) (contacts w) (cache w) n (events w).
Definition with_events (es : list Event) (w : World) : World :=
  mkWorld (users w) (contacts w) (cache w) (ticks w) es.

(** How a call ends. *)
Inductive outcome (A : Type) :=
| Returned (a : A)
| Raised (e : exn).
#[global] Arguments Returned {A} a.
#[global] Arguments Raised {A} e.

(** A handler: from the world before to its outcome and the world
    after.  Every write of the source is followed by [db.commit()], so a
    raised exception keeps the writes made before it. *)
Definition M (A : Type) : Type := World -> outcome A * World.

Definition ret {A} (a : A) : M A := fun w => (Returned a, w).

Definition bind {A B} (m : M A) (f : A -> M B) : M B :=
  fun w =>
    match m w with
    | (Returned a, w') => f a w'
    | (Raised e, w') => (Raised e, w')
    end.

Definition raise {A} (e : exn) : M A := fun w => (Raised e, w).

(** A pure computation that returns or raises. *)
Definition attempt {A} (r : exn + A) : M A :=
  match r with
  | inl e => raise e
  | inr a => ret a
  end.

(** [datetime.utcnow()] *)
Definition utcnow : M datetime :=
  fun w => (Returned (clock (ticks w)), with_ticks (S (ticks w)) w).

Definition record (e : Event) : M unit :=
  fun w => (Returned tt, with_events (events w ++ [e]) w).

(** [UPDATE users SET ... WHERE users.id = :id], the flush of a mutated
    ORM object at [db.commit()]. *)
Definition commit_user (u : User) : M unit :=
  fun w => (Returned tt,
            with_users (map (fun r => if bool_decide (id r = id u) then u else r) (users w)) w).

(** Redis [SET key value]: a plain [SET] drops any expiry of the key. *)
Definition cache_set (key : string) (u : User) : M unit :=
  fun w => (Returned tt, with_cache (<[key := mkEntry u None]> (cache w)) w).

(** Redis [EXPIRE key seconds] *)
Definition cache_expire (key : string) (seconds : Z) : M unit :=
  bind utcnow (fun now w =>
    (Returned tt,
     with_cache (alter (fun e => mkEntry (pickled e) (Some (now + timedelta_seconds seconds)))
                       key (cache w)) w)).

(** What Redis answers to [GET key] at instant [now]. *)
Definition cache_lookup (key : string) (now : datetime) (c : gmap string CacheEntry) : option User :=
  match c !! key with
  | Some e =>
      match expires_at e with
      | Some t => if t <=? now then None else Some (pickled e)
      | None => Some (pickled e)
      end
  | None => None
  end.

Definition cache_get (key : string) : M (option User) :=
  bind utcnow (fun now w => (Returned (cache_lookup key now (cache w)), w)).

End World.

Notation "'let*' x ':=' m 'in' k" := (bind m (fun x => k))
  (at level 10, x name, m at level 100, k at level 200).

(** ** src/repository/users.py *)

Module repository_users.
Section repository_users.
Context `{Sv : Services}.

(** The first row of [users] whose e-mail is [addr]. *)
Definition first_by_email (addr : string) (rows : list User) : option User :=
  List.find (fun u => bool_decide (email u = addr)) rows.

(** [db.query(User).filter(User.email == email).first()] *)
Definition get_user_by_email (addr : string) : M (option User) :=
  fun w => (Returned (first_by_email addr (users w)), w).

(** [user.refresh_token = token; db.commit()] *)
Definition update_token (user : User) (tok : option token) : M unit :=
  commit_user (set_refresh_token tok user).

(** [user = get_user_by_email(..); user.confirmed = True; db.commit()] *)
Definition confirmed_email (addr : string) : M unit :=
  let* user := get_user_by_email addr in
  match user with
  | None => raise (AttributeError "confirmed")
  | Some u => commit_user (set_confirmed true u)
  end.

(** [user.avatar = url; db.commit(); return user] *)
Definition update_avatar_url (addr : string) (url : option string) : M User :=
  let* user := get_user_by_email addr in
  match user with
  | None => raise (AttributeError "avatar")
  | Some u =>
      let u' := set_avatar url u in
      let* _ := commit_user u' in
      ret u'
  end.

End repository_users.
End repository_users.

(** ** src/services/auth.py (class Auth) *)

Module auth_service.
Section auth_service.
Context `{Sv : Services}.

(** [self.pwd_context.verify(plain_password, hashed_password)] *)
Definition verify_password (plain hashed : string) : M bool :=
  let* _ := record (EvVerifyPassword plain hashed) in
  ret (pwd_context_verify plain hashed).

(** Truth value of [expires_delta]: [None], [0] and [0.0] are false. *)
Definition truthy (expires_delta : option number) : bool :=
  match expires_delta with
  | Some x => number_truth x
  | None => false
  end.

(** [if expires_delta: expire = now + timedelta(seconds=expires_delta)
     else: expire = now + default], [now] being the first clock reading:
    the instant of expiry, or the exception of the arithmetic on the
    caller's number.  The default lifetimes are added to a reading of the
    clock, which stays within [datetime]. *)
Definition expiry (default : Z) (expires_delta : option number) (now : datetime)
  : exn + datetime :=
  match expires_delta with
  | Some x =>
      if truthy expires_delta
      then match timedelta_of_seconds x with
           | inl e => inl e
           | inr delta => datetime_add now delta
           end
      else inr (now + default)
  | None => inr (now + default)
  end.

(** [to_encode = data.copy();
     to_encode.update({'iat': .., 'exp': .., 'scope': ..})] *)
Definition access_claims (data : claims) (expire now2 : datetime) : claims :=
  <["scope" := JStr "access_token"]>
    (<["exp" := JDatetime expire]>
       (<["iat" := JDatetime now2]> data)).

Definition refresh_claims (data : claims) (expire now2 : datetime) : claims :=
  <["scope" := JStr "refresh_token"]>
    (<["exp" := JDatetime expire]>
       (<["iat" := JDatetime now2]> data)).

Definition email_claims (data : claims) (now1 now2 : datetime) : claims :=
  <["exp" := JDatetime (now1 + timedelta_days 7)]>
    (<["iat" := JDatetime now2]> data).

(** The clock is read twice: for the expiry, then for [iat].  An
    exception of the expiry's arithmetic ends the call in between. *)
Definition create_access_token (data : claims) (expires_delta : option number) : M token :=
  let* now1 := utcnow in
  let* expire := attempt (expiry (timedelta_minutes 15) expires_delta now1) in
  let* now2 := utcnow in
  ret (jwt_encode (access_claims data expire now2) SECRET_KEY ALGORITHM).

Definition create_refresh_token (data : claims) (expires_delta : option number) : M token :=
  let* now1 := utcnow in
  let* expire := attempt (expiry (timedelta_days 7) expires_delta now1) in
  let* now2 := utcnow in
  ret (jwt_encode (refresh_claims data expire now2) SECRET_KEY ALGORITHM).

Definition create_email_token (data : claims) : M token :=
  let* now1 := utcnow in
  let* now2 := utcnow in
  ret (jwt_encode (email_claims data now1 now2) SECRET_KEY ALGORITHM).

Definition credentials_exception : exn :=
  HTTPException HTTP_401_UNAUTHORIZED "Could not validate credentials".

(** [payload['sub']] of a decoded payload.  python-jose rejects a subject
    that is not a string while decoding, so the last case is never
    reached; it is given the outcome of that rejection. *)
Definition subject (payload : claims) (on_jwt_error : exn) : M string :=
  match payload !! "sub" with
  | None => raise (KeyError "sub")
  | Some (JStr addr) => ret addr
  | Some _ => raise on_jwt_error
  end.

Definition decode_refresh_token (refresh_token : token) : M string :=
  let* now := utcnow in
  match jwt_decode refresh_token SECRET_KEY [ALGORITHM] now with
  | None => raise credentials_exception
  | Some payload =>
      match payload !! "scope" with
      | None => raise (KeyError "scope")
      | Some sc =>
          if bool_decide (sc = JStr "refresh_token")
          then subject payload credentials_exception
          else raise (HTTPException HTTP_401_UNAUTHORIZED "Invalid scope for token")
      end
  end.

Definition get_current_user (tok : token) : M User :=
  let* now := utcnow in
  match jwt_decode tok SECRET_KEY [ALGORITHM] now with
  | None => raise credentials_exception
  | Some payload =>
      match payload !! "scope" with
      | None => raise (KeyError "scope")
      | Some sc =>
          if bool_decide (sc = JStr "access_token")
          then
            let* addr := subject payload credentials_exception in
            let* cached := cache_get addr in
            match cached with
            | None =>
                let* user := repository_users.get_user_by_email addr in
                match user with
                | None => raise credentials_exception
                | Some u =>
                    let* _ := cache_set addr u in
                    let* _ := cache_expire addr 300 in
                    ret u
                end
            | Some u => ret u
            end
          else raise credentials_exception
      end
  end.

Definition get_email_from_token (tok : token) : M string :=
  let invalid := HTTPException HTTP_422_UNPROCESSABLE_ENTITY
                   "Invalid token for email verification" in
  let* now := utcnow in
  match jwt_decode tok SECRET_KEY [ALGORITHM] now with
  | None => raise invalid
  | Some payload => subject payload invalid
  end.

End auth_service.
End auth_service.

(** ** src/routes/auth.py *)

Module routes_auth.
Section routes_auth.
Context `{Sv : Services}.

(** The body of a token response. *)
Record TokenModel := mkTokenModel {
  access_token : token;
  refresh_token_ : token;
  token_type : string
}.

(** [{'sub': email}] *)
Definition sub_only (addr : string) : claims := {[ "sub" := JStr addr ]}.

(** POST /auth/login, with the form's [username] and [password]. *)
Definition login (form_username form_password : string) : M TokenModel :=
  let* user := repository_users.get_user_by_email form_username in
  match user with
  | None => raise (HTTPException HTTP_401_UNAUTHORIZED "Invalid email")
  | Some u =>
      if negb (confirmed u)
      then raise (HTTPException HTTP_401_UNAUTHORIZED "Email is not confirmed")
      else
        let* ok := auth_service.verify_password form_password (password u) in
        if negb ok
        then raise (HTTPException HTTP_401_UNAUTHORIZED "Invalid password")
        else
          let* access := auth_service.create_access_token (sub_only (email u)) None in
          let* refresh := auth_service.create_refresh_token (sub_only (email u)) None in
          let* _ := repository_users.update_token u (Some refresh) in
          ret (mkTokenModel access refresh "bearer")
  end.

(** GET /auth/refresh_token, with the bearer credentials. *)
Definition refresh_token (credentials : token) : M TokenModel :=
  let tok := credentials in
  let* addr := auth_service.decode_refresh_token tok in
  let* user := repository_users.get_user_by_email addr in
  match user with
  | None => raise (AttributeError "refresh_token")
  | Some u =>
      if bool_decide (models.refresh_token u <> Some tok)
      then
        let* _ := repository_users.update_token u None in
        raise (HTTPException HTTP_401_UNAUTHORIZED "Invalid refresh token")
      else
        let* access := auth_service.create_access_token (sub_only addr) None in
        let* refresh := auth_service.create_refresh_token (sub_only addr) None in
        let* _ := repository_users.update_token u (Some refresh) in
        ret (mkTokenModel access refresh "bearer")
  end.

(** GET /auth/confirmed_email/{token} *)
Definition confirmed_email (tok : token) : M string :=
  let* addr := auth_service.get_email_from_token tok in
  let* user := repository_users.get_user_by_email addr in
  match user with
  | None => raise (HTTPException HTTP_400_BAD_REQUEST "Verification error")
  | Some u =>
      if confirmed u
      then ret "Your email is already confirmed"
      else
        let* _ := repository_users.confirmed_email addr in
        ret "Email confirmed"
  end.

(** [user.confirmed] on the result of a lookup: an attribute read, which
    raises on [None]. *)
Definition getattr_confirmed (user : option User) : M bool :=
  match user with
  | None => raise (AttributeError "confirmed")
  | Some u => ret (confirmed u)
  end.

(** POST /auth/request_email, with the body's [email] and the request's
    base URL.  [if user:] is the test of the inner match. *)
Definition request_email (body_email base_url : string) : M string :=
  let* user := repository_users.get_user_by_email body_email in
  let* is_confirmed := getattr_confirmed user in
  if is_confirmed
  then ret "Your email is already confirmed"
  else
    let* _ :=
      match user with
      | Some u => record (EvSendEmail (email u) (username u) base_url)
      | None => ret tt
      end in
    ret "Check your email for confirmation.".

End routes_auth.
End routes_auth.

(** ** src/routes/users.py *)

Module routes_users.
Section routes_users.
Context `{Sv : Services}.

(** PATCH /users/avatar, with the uploaded file and the current user as
    resolved by [auth_service.get_current_user]. *)
Definition update_avatar_user (file : string) (user : User) : M User :=
  let public_id := "FastApiApp/" +:+ email user in
  let res_url := cloudinary_url file public_id in
  let* user' := repository_users.update_avatar_url (email user) (Some res_url) in
  let* _ := cache_set (email user') user' in
  let* _ := cache_expire (email user') 300 in
  ret user'.

End routes_users.
End routes_users.

(** ** src/repository/contacts.py *)

(** The fields of a request body ([ContactModel]). *)
Record ContactModel := mkContactModel {
  body_name : string;
  body_last_name : string;
  body_email : option string;
  body_phone : string;
  body_born_date : date
}.

Module repository_contacts.
Section repository_contacts.
Context `{Sv : Services}.

(** [and_(Contact.id == contact_id, Contact.user_id == user.id)] on a row *)
Definition owned_with_id (cid : Z) (user : User) (c : Contact) : bool :=
  (contact_id c =? cid) && sql_holds (Z.eqb (id user)) (user_id c).

(** [today = datetime.now().date()], then the query. *)
Definition get_contacts_birthdays (user : User) : M (list Contact) :=
  let* now := utcnow in
  let today := local_date now in
  fun w => (Returned (birthdays_on today (id user) (contacts w)), w).

Definition get_contact (cid : Z) (user : User) : M (option Contact) :=
  fun w => (Returned (List.find (owned_with_id cid user) (contacts w)), w).

Definition apply_body (body : ContactModel) (c : Contact) : Contact :=
  mkContact (contact_id c) (body_name body) (body_last_name body) (body_email body)
    (body_phone body) (Some (body_born_date body)) (user_id c).

(** The flush of a mutated contact: an UPDATE by primary key. *)
Definition commit_contact (c : Contact) : M unit :=
  fun w =>
    (Returned tt,
     with_contacts
       (map (fun r => if contact_id r =? contact_id c then c else r) (contacts w)) w).

(** [db.delete(contact); db.commit()]: a DELETE by primary key. *)
Definition delete_contact (c : Contact) : M unit :=
  fun w =>
    (Returned tt,
     with_contacts
       (List.filter (fun r => negb (contact_id r =? contact_id c)) (contacts w)) w).

Definition update_contact (cid : Z) (body : ContactModel) (user : User)
  : M (option Contact) :=
  let* contact := get_contact cid user in
  match contact with
  | Some c =>
      let c' := apply_body body c in
      let* _ := commit_contact c' in
      ret (Some c')
  | None => ret None
  end.

Definition remove_contact (cid : Z) (user : User) : M (option Contact) :=
  let* contact := get_contact cid user in
  match contact with
  | Some c =>
      let* _ := delete_contact c in
      ret (Some c)
  | None => ret None
  end.

End repository_contacts.
End repository_contacts.

(** ** src/routes/contacts.py

    The rate limiter of these routes runs before the handler and is not
    part of it. *)

Module routes_contacts.
Section routes_contacts.
Context `{Sv : Services}.

Definition not_found : exn := HTTPException HTTP_404_NOT_FOUND "Contact not found".

(** [if contact is None: raise HTTPException(404, ...)] *)
Definition or_404 (contact : option Contact) : M Contact :=
  match contact with
  | None => raise not_found
  | Some c => ret c
  end.

(** GET /contacts/{contact_id} *)
Definition read_contact (cid : Z) (user : User) : M Contact :=
  let* contact := repository_contacts.get_contact cid user in
  or_404 contact.

(** PUT /contacts/{contact_id} *)
Definition update_contact (body : ContactModel) (cid : Z) (user : User) : M Contact :=
  let* contact := repository_contacts.update_contact cid body user in
  or_404 contact.

(** DELETE /contacts/{contact_id} *)
Definition remove_contact (cid : Z) (user : User) : M Contact :=
  let* contact := repository_contacts.remove_contact cid user in
  or_404 contact.

End routes_contacts.
End routes_contacts.

(** ** What the handlers rely on from python-jose *)

(** [jwt.encode] turns a [datetime] under a registered time claim into
    whole seconds since the epoch before signing. *)
Definition intdate (v : jvalue) : jvalue :=
  match v with
  | JDatetime t => JNum (epoch_seconds t)
  | _ => v
  end.

Definition jose_claims (c : claims) : claims :=
  alter intdate "exp" (alter intdate "iat" (alter intdate "nbf" c)).

Definition token_keys : list string := ["sub"; "iat"; "exp"; "scope"].

(** A claim set of the shape the service issues: a string subject, issue and
    expiry instants, possibly a string scope, and nothing else. *)
Definition issued_shape (c : claims) (addr : string) (exp : datetime) : Prop :=
  c !! "sub" = Some (JStr addr) /\
  (exists iat, c !! "iat" = Some (JDatetime iat)) /\
  c !! "exp" = Some (JDatetime exp) /\
  (forall v, c !! "scope" = Some v -> exists s, v = JStr s) /\
  (forall k, is_Some (c !! k) -> k ∈ token_keys).

(** Signing then verifying under the configured key and algorithm, at an
    instant whose second is not past the expiry's, gives back the claims
    with their instants in seconds. *)
Definition jose_roundtrip `{Sv : Services} : Prop :=
  forall (c : claims) (addr : string) (exp now : datetime),
    issued_shape c addr exp ->
    epoch_seconds now <= epoch_seconds exp ->
    jwt_decode (jwt_encode c SECRET_KEY ALGORITHM) SECRET_KEY [ALGORITHM] now
    = Some (jose_claims c).

(** ** A reference implementation of the collaborators

    Tokens are kept symbolic: a signed token is its payload together with
    the key and algorithm it was signed with.  It serves to run the
    handlers on concrete requests. *)

Module Reference.

Inductive signed :=
| Signed (payload : claims) (key alg : string)
| Malformed (text : string).

#[global] Instance signed_eq_dec : EqDecision signed.
Proof. solve_decision. Defined.

Definition not_expired (payload : claims) (now : datetime) : bool :=
  match payload !! "exp" with
  | Some (JNum e) => epoch_seconds now <=? e
  | Some _ => false
  | None => true
  end.

Definition encode (c : claims) (key alg : string) : signed :=
  Signed (jose_claims c) key alg.

Definition decode (t : signed) (key : string) (algs : list string) (now : datetime)
  : option claims :=
  match t with
  | Signed payload k a =>
      if bool_decide (k = key) && bool_decide (a ∈ algs) && not_expired payload now
      then Some payload else None
  | Malformed _ => None
  end.

(** One second passes between two readings of the clock, which starts at
    2023-11-14 22:13:20 UTC. *)
Definition start : datetime := 1700000000 * microseconds_per_second.

Definition services : Services := {|
  token := signed;
  jwt_encode := encode;
  jwt_decode := decode;
  pwd_context_verify := fun plain hashed => bool_decide (hashed = "hash:" +:+ plain);
  SECRET_KEY := "secret";
  ALGORITHM := "HS256";
  clock := fun n => start + timedelta_seconds (Z.of_nat n);
  local_date := fun t => civil_from_days (epoch_seconds t / 86400);
  cloudinary_url := fun file public_id => "https://res.cloudinary.com/" +:+ public_id
|}.

End Reference.

(** ** A small deployment

    Two accounts, Ann (confirmed, logged in) and Bob (signed up, not yet
    confirmed), their contacts, and tokens issued to them, on the
    reference services.  The clock's first reading falls on 2023-11-14. *)

Module Scenario.
#[local] Existing Instance Reference.services.

Definition ann_mail : string := "ann@example.com".
Definition bob_mail : string := "bob@example.com".
Definition ghost_mail : string := "ghost@example.com".

(** A refresh token issued [age] before the clock starts. *)
Definition refresh_issued (addr : string) (age : Z) : token :=
  jwt_encode
    (auth_service.refresh_claims (routes_auth.sub_only addr)
       (Reference.start - age + timedelta_days 7) (Reference.start - age))
    SECRET_KEY ALGORITHM.

(** A confirmation token issued [age] before the clock starts. *)
Definition confirmation_issued (addr : string) (age : Z) : token :=
  jwt_encode
    (auth_service.email_claims (routes_auth.sub_only addr)
       (Reference.start - age) (Reference.start - age))
    SECRET_KEY ALGORITHM.

(** Ann's refresh token of yesterday, rotated out since, and today's. *)
Definition stale_refresh : token := refresh_issued ann_mail (timedelta_days 1).
Definition current_refresh : token := refresh_issued ann_mail (timedelta_minutes 5).
(** A refresh token for an account whose row is gone. *)
Definition ghost_refresh : token := refresh_issued ghost_mail (timedelta_minutes 5).

Definition ann : User :=
  mkUser 1 "ann" ann_mail "hash:pw1234" None (Some current_refresh) true.
Definition bob : User :=
  mkUser 2 "bob" bob_mail "hash:secret" None None false.

Definition born (cid : Z) (first : string) (d : date) (owner : Z) : Contact :=
  mkContact cid first "Doe" None ("+100" +:+ first) (Some d) (Some owner).

(** Ann's contacts, by birthday relative to 2023-11-14: that day, seven
    days later, eight days later, twelve days earlier, and in December. *)
Definition on_the_day : Contact := born 1 "Today" (Date 1990 11 14) 1.
Definition in_seven_days : Contact := born 2 "Seven" (Date 1985 11 21) 1.
Definition in_eight_days : Contact := born 3 "Eight" (Date 1992 11 22) 1.
Definition twelve_days_ago : Contact := born 4 "Past" (Date 1988 11 2) 1.
Definition at_christmas : Contact := born 5 "Xmas" (Date 2000 12 25) 1.
(** A contact of Bob. *)
Definition bobs_contact : Contact := born 7 "Carol" (Date 1970 6 1) 2.

Definition world0 : World :=
  mkWorld [ann; bob]
    [on_the_day; in_seven_days; in_eight_days; twelve_days_ago; at_christmas; bobs_contact]
    ∅ 0 [].

(** The same deployment with a snapshot of Bob's row in the cache, due to
    expire five minutes after the clock starts. *)
Definition world_cached : World :=
  with_cache
    {[ bob_mail := mkEntry bob (Some (Reference.start + timedelta_seconds 300)) ]}
    world0.

Definition new_contact : ContactModel :=
  mkContactModel "Jane" "Doe" None "+1000" (Date 2000 1 1).

(** The [exp] claim of a stored refresh token. *)
Definition exp_of (t : option token) : option jvalue :=
  match t with
  | Some (Reference.Signed payload _ _) => payload !! "exp"
  | _ => None
  end.

(** Ann logs in, calls a protected endpoint (which caches her row),
    refreshes her tokens, and calls a protected endpoint again with the
    access token of the login.  The result is the [exp] of the refresh
    token in the user the last call resolved, and that of the refresh token
    on her row. *)
Definition rotation_run : option (option jvalue * option jvalue) :=
  match routes_auth.login ann_mail "pw1234" world0 with
  | (Returned t1, w1) =>
      match auth_service.get_current_user (routes_auth.access_token t1) w1 with
      | (Returned _, w2) =>
          match routes_auth.refresh_token (routes_auth.refresh_token_ t1) w2 with
          | (Returned _, w3) =>
              match auth_service.get_current_user (routes_auth.access_token t1) w3 with
              | (Returned resolved, w4) =>
                  match repository_users.first_by_email ann_mail (users w4) with
                  | Some stored =>
                      Some (exp_of (models.refresh_token resolved),
                            exp_of (models.refresh_token stored))
                  | None => None
                  end
              | _ => None
              end
          | _ => None
          end
      | _ => None
      end
  | _ => None
  end.

(** In the same run, when the last call is made: the expiry of the cache
    entry under Ann's e-mail, and the instant at which that call reads the
    cache (its second clock reading, the first being the decoder's). *)
Definition rotation_cache_read : option (option datetime * datetime) :=
  match routes_auth.login ann_mail "pw1234" world0 with
  | (Returned t1, w1) =>
      match auth_service.get_current_user (routes_auth.access_token t1) w1 with
      | (Returned _, w2) =>
          match routes_auth.refresh_token (routes_auth.refresh_token_ t1) w2 with
          | (Returned _, w3) =>
              match cache w3 !! ann_mail with
              | Some e => Some (expires_at e, clock (S (ticks w3)))
              | None => None
              end
          | _ => None
          end
      | _ => None
      end
  | _ => None
  end.

End Scenario.

(** ** Vocabulary for the properties of the contact queries *)

(** A date of the calendar. *)
Definition valid_date (d : date) : Prop :=
  1 <= month d <= 12 /\ 1 <= day d <= days_in_month (year d) (month d).

(** The date [k] days after [d], for [k] of at most four weeks: the same
    month while the days last, the next month (of the next year after
    December) from then on. *)
Definition days_later (k : Z) (d : date) : date :=
  let dim := days_in_month (year d) (month d) in
  if day d + k <=? dim then Date (year d) (month d) (day d + k)
  else if month d <? 12 then Date (year d) (month d + 1) (day d + k - dim)
  else Date (year d + 1) 1 (day d + k - dim).

(** The month and day of [b] are those of one of the eight days from
    [today] to [today + timedelta(days=7)]. *)
Definition in_birthday_window (today b : date) : Prop :=
  exists k : nat,
    (k <= 7)%nat /\
    month (add_days k today) = month b /\ day (add_days k today) = day b.

Section ContactVocabulary.
Context `{Sv : Services}.

(** The UPDATE of a contact violates no UNIQUE constraint: no other row
    has the new phone number or the new e-mail address. *)
Definition update_keeps_unique (cid : Z) (body : ContactModel) (rows : list Contact) : Prop :=
  forall r, In r rows -> contact_id r <> cid ->
    phone r <> body_phone body /\
    (forall e, body_email body = Some e -> contact_email r <> Some e).

(** The rows a user does not own. *)
Definition of_others (user : User) (rows : list Contact) : list Contact :=
  List.filter (fun r => negb (sql_holds (Z.eqb (id user)) (user_id r))) rows.

End ContactVocabulary.

(** ** Inserts: what the database refuses *)

(** [sqlalchemy.exc.IntegrityError], raised by [db.commit()] when an
    INSERT breaks the primary key or a UNIQUE constraint.  No handler
    catches it; a handler that can meet it returns either it or its
    result. *)
Inductive IntegrityError := UniqueViolation.

Definition HTTP_409_CONFLICT : Z := 409.

(** ** Sign-up ([src/schemas.py] UserModel, [src/repository/users.py]
    create_user, [src/services/auth.py] get_password_hash,
    [src/routes/auth.py] signup) *)

(** What sign-up calls besides the [Services]. *)
Class Enrolment := {
  (** [CryptContext.hash(password)] *)
  pwd_context_hash : string -> string;
  (** [Gravatar(email).get_image()], [None] when it raises *)
  gravatar_image : string -> option string
}.

(** The body of a sign-up request. *)
Record UserModel := mkUserModel {
  signup_username : string;
  signup_email : string;
  signup_password : string
}.

Module accounts.
Section accounts.
Context `{Sv : Services} `{En : Enrolment}.

(** [self.pwd_context.hash(password)] *)
Definition get_password_hash (plain : string) : string := pwd_context_hash plain.

(** The INSERT of a user row is refused when its primary key or its
    e-mail (a UNIQUE column) is already in the table. *)
Definition user_insert_refused (new_user : User) (rows : list User) : bool :=
  existsb (fun r => bool_decide (id r = id new_user)
                    || bool_decide (email r = email new_user)) rows.

(** [new_user = User( **body.model_dump(), avatar=avatar); db.add(new_user);
     db.commit(); db.refresh(new_user)].  [new_id] is the primary key the
    database assigns; [refresh_token] and [confirmed] take their column
    defaults. *)
Definition create_user (new_id : Z) (body : UserModel) : M (IntegrityError + User) :=
  let avatar := gravatar_image (signup_email body) in
  let new_user :=
    mkUser new_id (signup_username body) (signup_email body) (signup_password body)
      avatar None false in
  fun w =>
    if user_insert_refused new_user (users w)
    then (Returned (inl UniqueViolation), w)
    else (Returned (inr new_user), with_users (users w ++ [new_user])%list w).

(** POST /auth/signup, with the request's base URL. *)
Definition signup (new_id : Z) (body : UserModel) (base_url : string)
  : M (IntegrityError + User * string) :=
  let* exist_user := repository_users.get_user_by_email (signup_email body) in
  match exist_user with
  | Some _ => raise (HTTPException HTTP_409_CONFLICT "Account already exists")
  | None =>
      let body :=
        mkUserModel (signup_username body) (signup_email body)
          (get_password_hash (signup_password body)) in
      let* created := create_user new_id body in
      match created with
      | inl e => ret (inl e)
      | inr new_user =>
          let* _ := record (EvSendEmail (email new_user) (username new_user) base_url) in
          ret (inr (new_user, "User successfully created"))
      end
  end.

End accounts.
End accounts.

(** What sign-up and login rely on from passlib: a password verifies
    against its own hash. *)
Definition passlib_roundtrip `{Sv : Services} `{En : Enrolment} : Prop :=
  forall plain, pwd_context_verify plain (pwd_context_hash plain) = true.

(** ** Listing and creating contacts ([src/repository/contacts.py]
    get_contacts, create_contact) *)

Module contacts_listing.
Section contacts_listing.
Context `{Sv : Services}.

(** [if name: queries.append(Contact.name == name)]: a filter that is
    absent or the empty string adds no condition. *)
Definition name_query (filter : option string) : list (Contact -> bool) :=
  match filter with
  | Some n => if negb (n =? "")%string then [fun c => (name c =? n)%string] else []
  | None => []
  end.

Definition last_name_query (filter : option string) : list (Contact -> bool) :=
  match filter with
  | Some n => if negb (n =? "")%string then [fun c => (last_name c =? n)%string] else []
  | None => []
  end.

Definition email_query (filter : option string) : list (Contact -> bool) :=
  match filter with
  | Some e =>
      if negb (e =? "")%string
      then [fun c => sql_holds (fun x => (x =? e)%string) (contact_email c)]
      else []
  | None => []
  end.

(** [db.query(Contact).filter(and_( *queries, Contact.user_id == user.id)).all()] *)
Definition get_contacts (user : User) (by_name by_last_name by_email : option string)
  : M (list Contact) :=
  let queries :=
    (name_query by_name ++ last_name_query by_last_name ++ email_query by_email)%list in
  let owned := fun c => sql_holds (Z.eqb (id user)) (user_id c) in
  fun w =>
    (Returned (List.filter (fun c => forallb (fun q => q c) (queries ++ [owned])%list) (contacts w)),
     w).

(** The INSERT of a contact is refused when its primary key, its phone or
    its e-mail (if it has one) is already in the table. *)
Definition contact_insert_refused (c : Contact) (rows : list Contact) : bool :=
  existsb (fun r => (contact_id r =? contact_id c)
                    || (phone r =? phone c)%string
                    || sql_holds (fun e => sql_holds (fun x => (x =? e)%string) (contact_email r))
                         (contact_email c)) rows.

(** [contact = Contact(name=.., .., user=user); db.add(contact); db.commit();
     db.refresh(contact)], [new_id] being the primary key the database
    assigns. *)
Definition create_contact (new_id : Z) (body : ContactModel) (user : User)
  : M (IntegrityError + Contact) :=
  let contact :=
    mkContact new_id (body_name body) (body_last_name body) (body_email body)
      (body_phone body) (Some (body_born_date body)) (Some (id user)) in
  fun w =>
    if contact_insert_refused contact (contacts w)
    then (Returned (inl UniqueViolation), w)
    else (Returned (inr contact), with_contacts (contacts w ++ [contact])%list w).

End contacts_listing.
End contacts_listing.

(** ** The routes as a client meets them

    A protected route resolves its caller from the bearer token
    ([Depends(auth_service.get_current_user)]) before its handler runs. *)

Module api.
Section api.
Context `{Sv : Services} `{En : Enrolment}.

Definition protected {A} (bearer : token) (handler : User -> M A) : M A :=
  let* user := auth_service.get_current_user bearer in
  handler user.

(** The thirteen endpoints with what a request carries. *)
Inductive request :=
| Signup (new_id : Z) (body : UserModel) (base_url : string)
| Login (form_username form_password : string)
| RefreshToken (credentials : token)
| ConfirmedEmail (tok : token)
| RequestEmail (body_email base_url : string)
| Me (bearer : token)
| Avatar (bearer : token) (file : string)
| ReadContacts (bearer : token) (by_name by_last_name by_email : option string)
| ReadContactsBirthdays (bearer : token)
| ReadContact (bearer : token) (cid : Z)
| CreateContact (bearer : token) (new_id : Z) (body : ContactModel)
| UpdateContact (bearer : token) (cid : Z) (body : ContactModel)
| RemoveContact (bearer : token) (cid : Z).

(** The world a request leaves, whatever it answers. *)
Definition serve (r : request) (w : World) : World :=
  match r with
  | Signup new_id body base_url => snd (accounts.signup new_id body base_url w)
  | Login u p => snd (routes_auth.login u p w)
  | RefreshToken t => snd (routes_auth.refresh_token t w)
  | ConfirmedEmail t => snd (routes_auth.confirmed_email t w)
  | RequestEmail e b => snd (routes_auth.request_email e b w)
  | Me t => snd (protected t ret w)
  | Avatar t file => snd (protected t (routes_users.update_avatar_user file) w)
  | ReadContacts t n l e =>
      snd (protected t (fun user => contacts_listing.get_contacts user n l e) w)
  | ReadContactsBirthdays t => snd (protected t repository_contacts.get_contacts_birthdays w)
  | ReadContact t cid => snd (protected t (routes_contacts.read_contact cid) w)
  | CreateContact t new_id body =>
      snd (protected t (contacts_listing.create_contact new_id body) w)
  | UpdateContact t cid body => snd (protected t (routes_contacts.update_contact body cid) w)
  | RemoveContact t cid => snd (protected t (routes_contacts.remove_contact cid) w)
  end.

(** Requests served one after the other. *)
Fixpoint serve_all (rs : list request) (w : World) : World :=
  match rs with
  | [] => w
  | r :: rs => serve_all rs (serve r w)
  end.

(** What stays of an account: its id, username, e-mail and password
    hash, and its confirmation once given. *)
Definition keeps (r r' : User) : Prop :=
  id r' = id r /\ username r' = username r /\ email r' = email r /\
  password r' = password r /\ (confirmed r = true -> confirmed r' = true).

(** The table [rows'] holds every account of [rows], kept, in the same
    order, followed by the accounts created since. *)
Definition grown (rows rows' : list User) : Prop :=
  exists kept created, rows' = (kept ++ created)%list /\ Forall2 keeps rows kept.

(** Every cache entry is keyed by the e-mail of the user it holds. *)
Definition cache_keyed (c : gmap string CacheEntry) : Prop :=
  forall k e, c !! k = Some e -> email (pickled e) = k.

End api.
End api.

(** The reference enrolment: the hash the reference verifier expects. *)
Module ReferenceEnrolment.

Definition enrolment : Enrolment := {|
  pwd_context_hash := fun plain => "hash:" +:+ plain;
  gravatar_image := fun addr => Some ("https://www.gravatar.com/avatar/" +:+ addr)
|}.

End ReferenceEnrolment.

(** ** More of the deployment: tokens in hand, cached users, requests *)

Module Walkthrough.
Import Scenario.
#[local] Existing Instance Reference.services.
#[local] Existing Instance ReferenceEnrolment.enrolment.

(** An access token issued to [addr] at the clock's start. *)
Definition access_issued (addr : string) : token :=
  jwt_encode
    (auth_service.access_claims (routes_auth.sub_only addr)
       (Reference.start + timedelta_minutes 15) Reference.start)
    SECRET_KEY ALGORITHM.

(** What that token decodes to. *)
Definition access_payload (addr : string) : claims :=
  jose_claims
    (auth_service.access_claims (routes_auth.sub_only addr)
       (Reference.start + timedelta_minutes 15) Reference.start).

(** Ann's row as it was before she last changed her password hash. *)
Definition ann_before : User :=
  mkUser 1 "ann" ann_mail "hash:old" None None true.

(** The deployment with that earlier snapshot of Ann in the cache, to
    expire five minutes after the clock starts. *)
Definition world_ann_cached : World :=
  with_cache
    {[ ann_mail := mkEntry ann_before (Some (Reference.start + timedelta_seconds 300)) ]}
    world0.

(** The deployment after Ann's row has been removed by hand. *)
Definition world_without_ann : World := with_users [bob] world0.

(** Ann presents her current refresh token. *)
Definition rotated : outcome routes_auth.TokenModel * World :=
  routes_auth.refresh_token current_refresh world0.

Definition pair_of (r : outcome routes_auth.TokenModel * World) : routes_auth.TokenModel :=
  match fst r with
  | Returned tokens => tokens
  | Raised _ => routes_auth.mkTokenModel current_refresh current_refresh ""
  end.

(** Ann logs in. *)
Definition logged_in : outcome routes_auth.TokenModel * World :=
  routes_auth.login ann_mail "pw1234" world0.

(** Carol signs up. *)
Definition carol_mail : string := "carol@example.com".
Definition carol_body : UserModel := mkUserModel "carol" carol_mail "s3cret".
Definition carol : User :=
  mkUser 3 "carol" carol_mail "hash:s3cret"
    (Some "https://www.gravatar.com/avatar/carol@example.com") None false.
Definition world_carol : World :=
  snd (accounts.signup 3 carol_body "http://localhost/" world0).

(** A contact body with the phone number of Bob's contact. *)
Definition clashing_contact : ContactModel :=
  mkContactModel "Carol" "Roe" None "+100Carol" (Date 1970 6 1).

(** Contacts seen from 28 December 2023: born on 2 January, on 30
    December and on 6 January. *)
Definition new_year : Contact := born 11 "Jan" (Date 1991 1 2) 1.
Definition year_end : Contact := born 12 "Dec" (Date 1979 12 30) 1.
Definition epiphany : Contact := born 13 "Late" (Date 1983 1 6) 1.

(** A morning of requests: Bob confirms, Ann logs in, rotates her stale
    token, asks for her contacts and changes her avatar. *)
Definition morning : list api.request :=
  [ api.ConfirmedEmail (confirmation_issued bob_mail (timedelta_days 1));
    api.Login ann_mail "pw1234";
    api.RefreshToken stale_refresh;
    api.ReadContacts (access_issued ann_mail) None None None;
    api.Avatar (access_issued ann_mail) "png" ].

End Walkthrough.

(** ** Issued tokens *)

Section Issuing.
Context `{Sv : Services}.

(** The call [run] on [data] in [w] returns the signed claim set [c]: the
    clock has been read twice, and [c] has the given [scope], the second
    reading as [iat], and the caller's [data] at every other key but
    [exp]. *)
Definition issues (scope : string) (run : M token) (data : claims) (w : World)
  (c : claims) : Prop :=
  run w = (Returned (jwt_encode c SECRET_KEY ALGORITHM), with_ticks (S (S (ticks w))) w) /\
  c !! "scope" = Some (JStr scope) /\
  c !! "iat" = Some (JDatetime (clock (S (ticks w)))) /\
  (forall k, k <> "scope" -> k <> "exp" -> k <> "iat" -> c !! k = data !! k).

End Issuing.

(** * Properties *)

(** ** Running the monad *)

Section Running.
Context `{Sv : Services}.

Lemma bind_returned {A B} (m : M A) (f : A -> M B) w a w1 :
  m w = (Returned a, w1) -> bind m f w = f a w1.
Proof. intros H. unfold bind. now rewrite H. Qed.

(** An UPDATE by primary key of the row found by e-mail is what the next
    lookup by that e-mail returns. *)
Lemma first_by_email_commit (rows : list User) addr u u' :
  repository_users.first_by_email addr rows = Some u ->
  email u' = addr ->
  repository_users.first_by_email addr
    (map (fun r => if bool_decide (id r = id u) then u' else r) rows) = Some u'.
Proof.
  intros Hfind Hmail. unfold repository_users.first_by_email in *.
  induction rows as [|r rows IH]; simpl in *; [discriminate|].
  destruct (bool_decide (id r = id u)) eqn:Er.
  - now rewrite bool_decide_true.
  - destruct (bool_decide (email r = addr)) eqn:Em.
    + injection Hfind as ->. now rewrite bool_decide_true in Er.
    + auto.
Qed.

Lemma first_by_email_email (rows : list User) addr u :
  repository_users.first_by_email addr rows = Some u -> email u = addr.
Proof.
  intros Hrow. unfold repository_users.first_by_email in Hrow.
  apply find_some in Hrow as [_ Hb]. now apply bool_decide_eq_true in Hb.
Qed.

(** Decoding reads the clock once and writes nothing. *)
Lemma decode_refresh_token_world tok w r w1 :
  auth_service.decode_refresh_token tok w = (r, w1) ->
  w1 = with_ticks (S (ticks w)) w.
Proof.
  unfold auth_service.decode_refresh_token, auth_service.subject, bind, utcnow, raise, ret.
  repeat case_match; congruence.
Qed.

Lemma get_email_from_token_world tok w r w1 :
  auth_service.get_email_from_token tok w = (r, w1) ->
  w1 = with_ticks (S (ticks w)) w.
Proof.
  unfold auth_service.get_email_from_token, auth_service.subject, bind, utcnow, raise, ret.
  repeat case_match; congruence.
Qed.

End Running.

(** ** Refresh *)

Section Refresh.
Context `{Sv : Services}.

(** C1. A refresh call whose token decodes with scope [refresh_token] to
    the e-mail of a stored user, but differs from the refresh token
    stored on that user's row, ends with 401 "Invalid refresh token",
    and in the world it leaves the row's refresh token is NULL. *)
Theorem refresh_token_mismatch_clears (tok : token) (w w1 : World) (addr : string) (u : User) :
  auth_service.decode_refresh_token tok w = (Returned addr, w1) ->
  repository_users.first_by_email addr (users w) = Some u ->
  models.refresh_token u <> Some tok ->
  exists w',
    routes_auth.refresh_token tok w
    = (Raised (HTTPException HTTP_401_UNAUTHORIZED "Invalid refresh token"), w') /\
    repository_users.first_by_email addr (users w') = Some (set_refresh_token None u) /\
    models.refresh_token (set_refresh_token None u) = None.
Proof.
  intros Hdec Hrow Hne.
  pose proof (decode_refresh_token_world _ _ _ _ Hdec) as ->.
  unfold routes_auth.refresh_token.
  rewrite (bind_returned _ _ _ _ _ Hdec).
  unfold bind at 1, repository_users.get_user_by_email. cbn [users with_ticks].
  rewrite Hrow. rewrite bool_decide_true by exact Hne.
  eexists. split; [reflexivity|]. split; [|reflexivity].
  cbn [users with_users with_ticks].
  apply (first_by_email_commit _ _ u); [exact Hrow|].
  cbn. now apply first_by_email_email in Hrow.
Qed.

(** C9. A refresh call whose token decodes with scope [refresh_token] to
    an e-mail that no stored user has ends with Python's AttributeError
    on the absent user, which is not an HTTP error response. *)
Theorem refresh_token_absent_user (tok : token) (w w1 : World) (addr : string) :
  auth_service.decode_refresh_token tok w = (Returned addr, w1) ->
  repository_users.first_by_email addr (users w) = None ->
  routes_auth.refresh_token tok w = (Raised (AttributeError "refresh_token"), w1) /\
  (forall status detail,
      fst (routes_auth.refresh_token tok w) <> Raised (HTTPException status detail)).
Proof.
  intros Hdec Hrow.
  assert (routes_auth.refresh_token tok w = (Raised (AttributeError "refresh_token"), w1)) as E.
  { pose proof (decode_refresh_token_world _ _ _ _ Hdec) as ->.
    unfold routes_auth.refresh_token.
    rewrite (bind_returned _ _ _ _ _ Hdec).
    unfold bind at 1, repository_users.get_user_by_email. cbn [users with_ticks].
    now rewrite Hrow. }
  split; [exact E|]. intros status detail. rewrite E. discriminate.
Qed.

End Refresh.

(** ** Login *)

Section Login.
Context `{Sv : Services}.

(** C4. Login checks, in this order, that the user exists, that the user
    is confirmed and that the password verifies.  Each failure is a 401
    with a detail of its own, and the first two leave the world as it
    was: no password verification has been performed. *)
Theorem login_checks_in_order (form_username form_password : string) (w : World) :
  (repository_users.first_by_email form_username (users w) = None ->
   routes_auth.login form_username form_password w
   = (Raised (HTTPException HTTP_401_UNAUTHORIZED "Invalid email"), w)) /\
  (forall u,
      repository_users.first_by_email form_username (users w) = Some u ->
      confirmed u = false ->
      routes_auth.login form_username form_password w
      = (Raised (HTTPException HTTP_401_UNAUTHORIZED "Email is not confirmed"), w)) /\
  (forall u,
      repository_users.first_by_email form_username (users w) = Some u ->
      confirmed u = true ->
      pwd_context_verify form_password (password u) = false ->
      routes_auth.login form_username form_password w
      = (Raised (HTTPException HTTP_401_UNAUTHORIZED "Invalid password"),
         with_events (events w ++ [EvVerifyPassword form_password (password u)]) w)) /\
  "Invalid email" <> "Email is not confirmed" /\
  "Invalid email" <> "Invalid password" /\
  "Email is not confirmed" <> "Invalid password".
Proof.
  unfold routes_auth.login, repository_users.get_user_by_email.
  repeat split; try discriminate.
  - intros Hrow. unfold bind at 1. now rewrite Hrow.
  - intros u Hrow Hc. unfold bind at 1. now rewrite Hrow, Hc.
  - intros u Hrow Hc Hv. unfold bind at 1. rewrite Hrow, Hc. cbn [negb].
    unfold bind at 1, auth_service.verify_password, bind, record, ret.
    now rewrite Hv.
Qed.

End Login.

(** ** E-mail confirmation *)

Section Confirmation.
Context `{Sv : Services}.

(** C6. For a confirmation token that decodes to an e-mail: if the user
    with that e-mail is already confirmed the call returns the
    already-confirmed message, no table, cache entry or task changes and
    the row found by the e-mail is the same, confirmed, row; if the user
    is not yet confirmed the call writes that row and nothing else, and
    the row then found by the e-mail has [confirmed] true and every other
    column as before; if no user has that e-mail the call ends with 400
    "Verification error" and changes nothing. *)
Theorem confirmed_email_cases (tok : token) (w w1 : World) (addr : string) :
  auth_service.get_email_from_token tok w = (Returned addr, w1) ->
  (users w1 = users w /\ contacts w1 = contacts w /\ cache w1 = cache w
   /\ events w1 = events w) /\
  (forall u,
      repository_users.first_by_email addr (users w) = Some u ->
      confirmed u = true ->
      routes_auth.confirmed_email tok w
      = (Returned "Your email is already confirmed", w1)
      /\ repository_users.first_by_email addr (users w1) = Some u) /\
  (forall u,
      repository_users.first_by_email addr (users w) = Some u ->
      confirmed u = false ->
      routes_auth.confirmed_email tok w
      = (Returned "Email confirmed",
         with_users (map (fun r => if bool_decide (id r = id u)
                                   then set_confirmed true u else r) (users w)) w1)
      /\ repository_users.first_by_email addr
           (map (fun r => if bool_decide (id r = id u)
                          then set_confirmed true u else r) (users w))
         = Some (set_confirmed true u)
      /\ confirmed (set_confirmed true u) = true
      /\ set_confirmed true u
         = mkUser (id u) (username u) (email u) (password u) (avatar u)
             (models.refresh_token u) true) /\
  (repository_users.first_by_email addr (users w) = None ->
   routes_auth.confirmed_email tok w
   = (Raised (HTTPException HTTP_400_BAD_REQUEST "Verification error"), w1)).
Proof.
  intros Hdec.
  pose proof (get_email_from_token_world _ _ _ _ Hdec) as ->.
  unfold routes_auth.confirmed_email.
  rewrite (bind_returned _ _ _ _ _ Hdec).
  unfold repository_users.get_user_by_email.
  split; [now repeat split|]. split; [|split].
  - intros u Hrow Hc. unfold bind at 1. cbn [users with_ticks].
    now rewrite Hrow, Hc.
  - intros u Hrow Hc. unfold bind at 1. cbn [users with_ticks].
    rewrite Hrow, Hc. split; [|split; [|split]].
    + unfold bind at 1, repository_users.confirmed_email,
        repository_users.get_user_by_email.
      unfold bind at 1. cbn [users with_ticks]. now rewrite Hrow.
    + apply (first_by_email_commit _ _ u); [exact Hrow|].
      cbn. now apply first_by_email_email in Hrow.
    + reflexivity.
    + reflexivity.
  - intros Hrow. unfold bind at 1. cbn [users with_ticks]. now rewrite Hrow.
Qed.

(** C10. Resending the confirmation reads [user.confirmed] before it
    tests the user: when no user has the e-mail the call ends with
    AttributeError, nothing scheduled; and whenever the call returns,
    the user exists, so the test that follows never fails. *)
Theorem request_email_reads_before_guard (body_email base_url : string) (w : World) :
  (repository_users.first_by_email body_email (users w) = None ->
   routes_auth.request_email body_email base_url w
   = (Raised (AttributeError "confirmed"), w)) /\
  (forall msg w',
      routes_auth.request_email body_email base_url w = (Returned msg, w') ->
      exists u,
        repository_users.first_by_email body_email (users w) = Some u /\
        (confirmed u = true ->
         msg = "Your email is already confirmed" /\ w' = w) /\
        (confirmed u = false ->
         msg = "Check your email for confirmation." /\
         w' = with_events (events w ++ [EvSendEmail (email u) (username u) base_url]) w)).
Proof.
  unfold routes_auth.request_email, repository_users.get_user_by_email.
  split.
  - intros Hrow. unfold bind at 1. now rewrite Hrow.
  - intros msg w'. unfold bind at 1.
    destruct (repository_users.first_by_email body_email (users w)) as [u|]; [|discriminate].
    unfold bind at 1. cbn [routes_auth.getattr_confirmed ret].
    intros H. exists u. split; [reflexivity|].
    destruct (confirmed u); unfold bind, record, ret in H; cbn in H;
      injection H as <- <-; split; intros; try discriminate; now split.
Qed.

End Confirmation.

(** ** Contacts *)

Section Contacts.
Context `{Sv : Services}.

Lemma find_owned_none (cid : Z) (user : User) (rows : list Contact) :
  (forall c, In c rows -> contact_id c = cid -> user_id c <> Some (id user)) ->
  List.find (repository_contacts.owned_with_id cid user) rows = None.
Proof.
  induction rows as [|r rows IH]; intros Hforeign; [reflexivity|].
  simpl. unfold repository_contacts.owned_with_id at 1.
  destruct (contact_id r =? cid) eqn:Eid; simpl.
  - apply Z.eqb_eq in Eid.
    assert (user_id r <> Some (id user)) as Hne by (apply Hforeign; [now left|exact Eid]).
    destruct (user_id r) as [o|]; simpl.
    + destruct (id user =? o) eqn:Eo.
      * apply Z.eqb_eq in Eo. congruence.
      * apply IH. intros c Hc. apply Hforeign. now right.
    + apply IH. intros c Hc. apply Hforeign. now right.
  - apply IH. intros c Hc. apply Hforeign. now right.
Qed.

(** C7. When every row with the requested id belongs to another user, the
    get, update and delete routes each end with 404 "Contact not found"
    and leave the world, the other owner's row included, exactly as it
    was. *)
Theorem foreign_contact_not_found (cid : Z) (user : User) (body : ContactModel) (w : World) :
  (forall c, In c (contacts w) -> contact_id c = cid -> user_id c <> Some (id user)) ->
  routes_contacts.read_contact cid user w = (Raised routes_contacts.not_found, w) /\
  routes_contacts.update_contact body cid user w = (Raised routes_contacts.not_found, w) /\
  routes_contacts.remove_contact cid user w = (Raised routes_contacts.not_found, w).
Proof.
  intros Hforeign. apply find_owned_none in Hforeign.
  unfold routes_contacts.read_contact, routes_contacts.update_contact,
    routes_contacts.remove_contact, repository_contacts.update_contact,
    repository_contacts.remove_contact, repository_contacts.get_contact, bind.
  now rewrite Hforeign.
Qed.

(** When today and the day a week later fall in the same month, the
    birthday filter accepts every contact of the owner born in that month,
    whatever the day. *)
Lemma birthday_filter_same_month (today : date) (uid : Z) (c : Contact) (d : date) :
  month (add_days 7 today) = month today ->
  day today <= day (add_days 7 today) ->
  born_date c = Some d -> month d = month today -> user_id c = Some uid ->
  birthday_filter today (add_days 7 today) uid c = true.
Proof.
  intros Hsame Hdays Hborn Hmonth Howner. unfold birthday_filter, sql_extract.
  rewrite Hborn, Howner. cbn [fmap option_fmap option_map sql_holds].
  rewrite Hsame, Hmonth, !Z.eqb_refl, !andb_true_r. cbn [andb].
  destruct (day d <=? day (add_days 7 today)) eqn:E1; [reflexivity|].
  cbn [orb]. apply Z.leb_gt in E1. apply Z.geb_le. lia.
Qed.

(** C2 (the code departs from the claim). On 2023-11-14 the birthday query
    for Ann returns, besides the contacts born on 14 and 21 November, the
    one whose birthday is eight days out and the one whose birthday was
    twelve days before. *)
Theorem birthdays_beyond_window :
  fst (@repository_contacts.get_contacts_birthdays Reference.services
         Scenario.ann Scenario.world0)
  = Returned [Scenario.on_the_day; Scenario.in_seven_days;
              Scenario.in_eight_days; Scenario.twelve_days_ago].
Proof. vm_compute. reflexivity. Qed.

End Contacts.

(** ** Access tokens *)

Section AccessTokens.
Context `{Sv : Services}.

Lemma create_access_token_run (data : claims) (w : World) :
  auth_service.create_access_token data None w
  = (Returned
       (jwt_encode
          (auth_service.access_claims data
             (clock (ticks w) + timedelta_minutes 15) (clock (S (ticks w))))
          SECRET_KEY ALGORITHM),
     with_ticks (S (S (ticks w))) w).
Proof. reflexivity. Qed.

Lemma create_refresh_token_run (data : claims) (w : World) :
  auth_service.create_refresh_token data None w
  = (Returned
       (jwt_encode
          (auth_service.refresh_claims data
             (clock (ticks w) + timedelta_days 7) (clock (S (ticks w))))
          SECRET_KEY ALGORITHM),
     with_ticks (S (S (ticks w))) w).
Proof. reflexivity. Qed.

(** The expiry of a token, by the kind of override. *)
Lemma expiry_without_override (default : Z) (expires_delta : option number) (now : datetime) :
  auth_service.truthy expires_delta = false ->
  auth_service.expiry default expires_delta now = inr (now + default).
Proof.
  unfold auth_service.expiry. destruct expires_delta as [x|]; [|reflexivity].
  intros ->. reflexivity.
Qed.

Lemma expiry_with_override (default : Z) (x : number) (delta : Z) (now : datetime) :
  number_truth x = true ->
  timedelta_of_seconds x = inr delta ->
  datetime_in_range (now + delta) = true ->
  auth_service.expiry default (Some x) now = inr (now + delta).
Proof.
  intros Hx Hdelta Hrange. unfold auth_service.expiry, auth_service.truthy, datetime_add.
  now rewrite Hx, Hdelta, Hrange.
Qed.

Lemma expiry_of_refused_number (default : Z) (x : number) (e : exn) (now : datetime) :
  number_truth x = true ->
  timedelta_of_seconds x = inl e ->
  auth_service.expiry default (Some x) now = inl e.
Proof.
  intros Hx Hdelta. unfold auth_service.expiry, auth_service.truthy.
  now rewrite Hx, Hdelta.
Qed.

Lemma expiry_out_of_range (default : Z) (x : number) (delta : Z) (now : datetime) :
  number_truth x = true ->
  timedelta_of_seconds x = inr delta ->
  datetime_in_range (now + delta) = false ->
  auth_service.expiry default (Some x) now = inl OverflowError.
Proof.
  intros Hx Hdelta Hrange. unfold auth_service.expiry, auth_service.truthy, datetime_add.
  now rewrite Hx, Hdelta, Hrange.
Qed.

Lemma timedelta_of_whole_seconds (d : Z) :
  timedelta_in_range (timedelta_seconds d) = true ->
  timedelta_of_seconds (PyInt d) = inr (timedelta_seconds d).
Proof. intros H. unfold timedelta_of_seconds. now rewrite H. Qed.

Lemma access_token_of_expiry (data : claims) (expires_delta : option number)
  (expire : datetime) (w : World) :
  auth_service.expiry (timedelta_minutes 15) expires_delta (clock (ticks w)) = inr expire ->
  exists c,
    issues "access_token" (auth_service.create_access_token data expires_delta) data w c /\
    c !! "exp" = Some (JDatetime expire).
Proof.
  intros Hexpire. eexists. split; [split; [|split; [|split]]|].
  - unfold auth_service.create_access_token, bind, utcnow.
    rewrite Hexpire. reflexivity.
  - apply lookup_insert_eq.
  - unfold auth_service.access_claims.
    now rewrite lookup_insert_ne, lookup_insert_ne, lookup_insert_eq.
  - intros k H1 H2 H3. unfold auth_service.access_claims. now rewrite !lookup_insert_ne.
  - unfold auth_service.access_claims. now rewrite lookup_insert_ne, lookup_insert_eq.
Qed.

Lemma access_token_of_error (data : claims) (expires_delta : option number)
  (e : exn) (w : World) :
  auth_service.expiry (timedelta_minutes 15) expires_delta (clock (ticks w)) = inl e ->
  auth_service.create_access_token data expires_delta w
  = (Raised e, with_ticks (S (ticks w)) w).
Proof.
  intros Hexpire. unfold auth_service.create_access_token, bind, utcnow.
  rewrite Hexpire. reflexivity.
Qed.

(** C8, as the code has it. The access token signs the caller's claims
    with [iat], [exp] and [scope] replaced: [scope] is [access_token] and
    [iat] the second clock reading.  With no override, or with one that
    Python takes for false (zero of either kind), [exp] is the first clock
    reading plus 15 minutes.  With any other override [exp] is the first
    clock reading plus [timedelta(seconds=override)], which for a whole
    number of seconds is exactly that many seconds, as long as the
    duration and the sum are within the range of [timedelta] and
    [datetime]; outside of it, and for a NaN, the call raises the
    exception of that arithmetic after one clock reading and issues no
    token. *)
Theorem access_token_expiry (data : claims) (expires_delta : option number) (w : World) :
  let now := clock (ticks w) in
  let run := auth_service.create_access_token data expires_delta in
  (auth_service.truthy expires_delta = false ->
   exists c,
     issues "access_token" run data w c /\
     c !! "exp" = Some (JDatetime (now + timedelta_minutes 15))) /\
  (forall d,
      expires_delta = Some (PyInt d) -> d <> 0 ->
      timedelta_in_range (timedelta_seconds d) = true ->
      datetime_in_range (now + timedelta_seconds d) = true ->
      exists c,
        issues "access_token" run data w c /\
        c !! "exp" = Some (JDatetime (now + timedelta_seconds d))) /\
  (forall x delta,
      expires_delta = Some x -> number_truth x = true ->
      timedelta_of_seconds x = inr delta ->
      datetime_in_range (now + delta) = true ->
      exists c,
        issues "access_token" run data w c /\
        c !! "exp" = Some (JDatetime (now + delta))) /\
  (forall x e,
      expires_delta = Some x -> number_truth x = true ->
      timedelta_of_seconds x = inl e ->
      run w = (Raised e, with_ticks (S (ticks w)) w)) /\
  (forall x delta,
      expires_delta = Some x -> number_truth x = true ->
      timedelta_of_seconds x = inr delta ->
      datetime_in_range (now + delta) = false ->
      run w = (Raised OverflowError, with_ticks (S (ticks w)) w)).
Proof.
  intros now run. subst now run.
  split; [|split; [|split; [|split]]].
  - intros Hfalse. apply access_token_of_expiry.
    now apply expiry_without_override.
  - intros d -> Hd Hdelta Hrange. apply access_token_of_expiry.
    apply expiry_with_override; [|now apply timedelta_of_whole_seconds|exact Hrange].
    cbn. now apply negb_true_iff, Z.eqb_neq.
  - intros x delta -> Hx Hdelta Hrange. apply access_token_of_expiry.
    now apply expiry_with_override.
  - intros x e -> Hx Hdelta. apply access_token_of_error.
    now apply expiry_of_refused_number.
  - intros x delta -> Hx Hdelta Hrange. apply access_token_of_error.
    now apply (expiry_out_of_range _ _ delta).
Qed.

End AccessTokens.

(** ** Session cache *)

Section SessionCache.
Context `{Sv : Services}.

(** The two handlers the specification names for the cache.  An avatar
    change overwrites the cache entry keyed by the user's e-mail with the
    mutated row and gives it 300 seconds to live, so a cache read before
    that expiry returns the mutated user; e-mail confirmation, whatever
    its outcome, leaves the cache as it was. *)
Lemma avatar_overwrites_cache_confirmation_keeps_it :
  (forall (file : string) (user u : User) (w : World),
      repository_users.first_by_email (email user) (users w) = Some u ->
      exists w',
        routes_users.update_avatar_user file user w
        = (Returned (set_avatar (Some (cloudinary_url file ("FastApiApp/" +:+ email user))) u), w') /\
        repository_users.first_by_email (email user) (users w')
        = Some (set_avatar (Some (cloudinary_url file ("FastApiApp/" +:+ email user))) u) /\
        (forall now, now < clock (ticks w) + timedelta_seconds 300 ->
           cache_lookup (email user) now (cache w')
           = Some (set_avatar (Some (cloudinary_url file ("FastApiApp/" +:+ email user))) u))) /\
  (forall (tok : token) (w w' : World) (r : outcome string),
      routes_auth.confirmed_email tok w = (r, w') -> cache w' = cache w).
Proof.
  split.
  - intros file user u w Hrow.
    pose proof (first_by_email_email _ _ _ Hrow) as Hmail.
    unfold routes_users.update_avatar_user, repository_users.update_avatar_url,
      repository_users.get_user_by_email, cache_expire, cache_set, commit_user,
      bind, utcnow, ret.
    rewrite Hrow. cbn [ticks with_cache with_users with_ticks users cache email set_avatar].
    eexists. split; [reflexivity|]. cbn [users cache]. split.
    + now apply (first_by_email_commit _ _ u).
    + intros now Hnow. unfold cache_lookup. rewrite Hmail.
      cbn [cache with_cache]. rewrite lookup_alter_eq, lookup_insert_eq.
      cbn [fmap option_fmap option_map expires_at pickled].
      destruct (clock (ticks w) + timedelta_seconds 300 <=? now) eqn:E; [|reflexivity].
      apply Z.leb_le in E. lia.
  - intros tok w w' r.
    unfold routes_auth.confirmed_email, auth_service.get_email_from_token,
      auth_service.subject, repository_users.confirmed_email,
      repository_users.get_user_by_email, commit_user, bind, utcnow, raise, ret.
    repeat case_match; intros [= <- <-]; simplify_eq; reflexivity.
Qed.

End SessionCache.

(** ** Issue, then decode *)

Section RoundTrip.
Context `{Sv : Services}.

Lemma jose_claims_other (c : claims) (k : string) :
  k <> "exp" -> k <> "iat" -> k <> "nbf" -> jose_claims c !! k = c !! k.
Proof.
  intros H1 H2 H3. unfold jose_claims. now rewrite !lookup_alter_ne.
Qed.

Lemma jose_claims_exp (c : claims) (t : datetime) :
  c !! "exp" = Some (JDatetime t) ->
  jose_claims c !! "exp" = Some (JNum (epoch_seconds t)).
Proof.
  intros H. unfold jose_claims.
  rewrite lookup_alter_eq, !lookup_alter_ne, H by done. reflexivity.
Qed.

(** The claims of a token issued for [{'sub': addr}] have the issued
    shape, whatever the scope and expiry put in. *)
Lemma issued_shape_insert (addr scope : string) (exp iat : datetime) :
  issued_shape
    (<["scope" := JStr scope]>
       (<["exp" := JDatetime exp]> (<["iat" := JDatetime iat]> (routes_auth.sub_only addr))))
    addr exp.
Proof.
  unfold issued_shape, routes_auth.sub_only.
  split; [|split; [|split; [|split]]].
  - rewrite !lookup_insert_ne by done. apply lookup_singleton_eq.
  - exists iat. rewrite !lookup_insert_ne by done. apply lookup_insert_eq.
  - rewrite lookup_insert_ne by done. apply lookup_insert_eq.
  - rewrite lookup_insert_eq. intros v [= <-]. now exists scope.
  - intros k [v Hk]. unfold token_keys.
    destruct (decide (k = "scope")) as [->|?]; [set_solver|].
    destruct (decide (k = "exp")) as [->|?]; [set_solver|].
    destruct (decide (k = "iat")) as [->|?]; [set_solver|].
    destruct (decide (k = "sub")) as [->|?]; [set_solver|].
    rewrite !lookup_insert_ne, lookup_singleton_ne in Hk by done. discriminate.
Qed.

(** C5. Under python-jose's round trip, the access token issued for a
    subject e-mail decodes, at any instant whose second is not past its
    expiry's, to a payload whose [sub] is that e-mail and whose [scope] is
    [access_token]; the refresh token issued for it decodes likewise with
    scope [refresh_token], and [decode_refresh_token] returns the e-mail. *)
Theorem issued_tokens_round_trip (addr : string) (w : World) :
  jose_roundtrip ->
  (forall now,
      epoch_seconds now <= epoch_seconds (clock (ticks w) + timedelta_minutes 15) ->
      exists tok w1 payload,
        auth_service.create_access_token (routes_auth.sub_only addr) None w
        = (Returned tok, w1) /\
        jwt_decode tok SECRET_KEY [ALGORITHM] now = Some payload /\
        payload !! "sub" = Some (JStr addr) /\
        payload !! "scope" = Some (JStr "access_token")) /\
  (forall now,
      epoch_seconds now <= epoch_seconds (clock (ticks w) + timedelta_days 7) ->
      exists tok w1 payload,
        auth_service.create_refresh_token (routes_auth.sub_only addr) None w
        = (Returned tok, w1) /\
        jwt_decode tok SECRET_KEY [ALGORITHM] now = Some payload /\
        payload !! "sub" = Some (JStr addr) /\
        payload !! "scope" = Some (JStr "refresh_token") /\
        (forall w2, clock (ticks w2) = now ->
           fst (auth_service.decode_refresh_token tok w2) = Returned addr)).
Proof.
  intros Hjose. split; intros now Hnow.
  - rewrite create_access_token_run. do 3 eexists. split; [reflexivity|].
    unfold auth_service.access_claims.
    rewrite (Hjose _ addr _ now (issued_shape_insert _ _ _ _) Hnow).
    split; [reflexivity|]. rewrite !jose_claims_other by done.
    split.
    + rewrite !lookup_insert_ne by done. apply lookup_singleton_eq.
    + apply lookup_insert_eq.
  - rewrite create_refresh_token_run. do 3 eexists. split; [reflexivity|].
    unfold auth_service.refresh_claims.
    pose proof (Hjose _ addr _ now
                  (issued_shape_insert addr "refresh_token"
                     (clock (ticks w) + timedelta_days 7) (clock (S (ticks w))))
                  Hnow) as Hdec.
    match type of Hdec with _ = Some (jose_claims ?c) =>
      assert (jose_claims c !! "sub" = Some (JStr addr)) as Hsub;
      [|assert (jose_claims c !! "scope" = Some (JStr "refresh_token")) as Hscope]
    end.
    { rewrite jose_claims_other by done.
      rewrite !lookup_insert_ne by done. apply lookup_singleton_eq. }
    { rewrite jose_claims_other by done. apply lookup_insert_eq. }
    rewrite Hdec. split; [reflexivity|]. split; [exact Hsub|]. split; [exact Hscope|].
    intros w2 Hw2.
    unfold auth_service.decode_refresh_token, auth_service.subject, bind, utcnow.
    rewrite Hw2, Hdec, Hscope, Hsub. now rewrite bool_decide_true.
Qed.

End RoundTrip.

(** ** The reference services meet what is asked of python-jose *)

Lemma reference_roundtrip : @jose_roundtrip Reference.services.
Proof.
  intros c addr exp now (_ & _ & Hexp & _) Hnow.
  cbn [jwt_decode jwt_encode SECRET_KEY ALGORITHM Reference.services].
  unfold Reference.decode, Reference.encode, Reference.not_expired.
  rewrite (jose_claims_exp _ _ Hexp).
  rewrite !bool_decide_true by set_solver. cbn [andb].
  apply Z.leb_le in Hnow. now rewrite Hnow.
Qed.


(** ** The properties on the deployment *)

Section Deployment.
Import Scenario.
#[local] Existing Instance Reference.services.

(** Ann's rotated-out refresh token is refused and her stored token
    cleared. *)
Lemma stale_refresh_refused :
  exists w',
    routes_auth.refresh_token stale_refresh world0
    = (Raised (HTTPException HTTP_401_UNAUTHORIZED "Invalid refresh token"), w') /\
    repository_users.first_by_email ann_mail (users w') = Some (set_refresh_token None ann) /\
    models.refresh_token (set_refresh_token None ann) = None.
Proof.
  apply (refresh_token_mismatch_clears stale_refresh world0 (with_ticks 1 world0) ann_mail ann).
  - reflexivity.
  - reflexivity.
  - assert (bool_decide (models.refresh_token ann = Some stale_refresh) = false) as Hne
      by reflexivity.
    now apply bool_decide_eq_false in Hne.
Defined.

(** A refresh token whose subject has no row ends in AttributeError. *)
Lemma ghost_refresh_attribute_error :
  routes_auth.refresh_token ghost_refresh world0
  = (Raised (AttributeError "refresh_token"), with_ticks 1 world0) /\
  (forall status detail,
      fst (routes_auth.refresh_token ghost_refresh world0)
      <> Raised (HTTPException status detail)).
Proof.
  apply (refresh_token_absent_user ghost_refresh world0 (with_ticks 1 world0) ghost_mail).
  - reflexivity.
  - reflexivity.
Defined.

(** The three refusals of login: no such user, Bob unconfirmed, Ann with
    a wrong password. *)
Lemma login_refusals :
  routes_auth.login ghost_mail "pw1234" world0
  = (Raised (HTTPException HTTP_401_UNAUTHORIZED "Invalid email"), world0) /\
  routes_auth.login bob_mail "secret" world0
  = (Raised (HTTPException HTTP_401_UNAUTHORIZED "Email is not confirmed"), world0) /\
  routes_auth.login ann_mail "guess" world0
  = (Raised (HTTPException HTTP_401_UNAUTHORIZED "Invalid password"),
     with_events [EvVerifyPassword "guess" "hash:pw1234"] world0).
Proof.
  split; [|split].
  - apply (proj1 (login_checks_in_order ghost_mail "pw1234" world0)).
    reflexivity.
  - apply (proj1 (proj2 (login_checks_in_order bob_mail "secret" world0)) bob).
    + reflexivity.
    + reflexivity.
  - apply (proj1 (proj2 (proj2 (login_checks_in_order ann_mail "guess" world0))) ann).
    + reflexivity.
    + reflexivity.
    + reflexivity.
Defined.

(** Confirming Bob writes his row, which is then confirmed; confirming
    Ann again changes nothing; a token for an unknown e-mail is refused. *)
Lemma confirmation_of_bob_and_ann :
  (routes_auth.confirmed_email (confirmation_issued bob_mail (timedelta_days 1)) world0
   = (Returned "Email confirmed",
      with_users [ann; mkUser 2 "bob" bob_mail "hash:secret" None None true]
        (with_ticks 1 world0))
   /\ confirmed <$> repository_users.first_by_email bob_mail
                      (users (snd (routes_auth.confirmed_email
                                     (confirmation_issued bob_mail (timedelta_days 1))
                                     world0)))
      = Some true
   /\ confirmed <$> repository_users.first_by_email bob_mail (users world0) = Some false) /\
  (routes_auth.confirmed_email (confirmation_issued ann_mail (timedelta_days 1)) world0
   = (Returned "Your email is already confirmed", with_ticks 1 world0)
   /\ confirmed <$> repository_users.first_by_email ann_mail (users (with_ticks 1 world0))
      = Some true) /\
  (routes_auth.confirmed_email (confirmation_issued ghost_mail (timedelta_days 1)) world0
   = (Raised (HTTPException HTTP_400_BAD_REQUEST "Verification error"),
      with_ticks 1 world0)).
Proof.
  split; [|split].
  - destruct (proj1 (proj2 (proj2
      (confirmed_email_cases (confirmation_issued bob_mail (timedelta_days 1))
         world0 (with_ticks 1 world0) bob_mail eq_refl))) bob eq_refl eq_refl)
      as (Hrun & Hrow & Hflag & Hcolumns).
    split; [|split].
    + rewrite Hrun. reflexivity.
    + rewrite Hrun. cbn [snd users with_users].
      rewrite Hrow. cbn [fmap option_fmap option_map]. now rewrite Hflag.
    + reflexivity.
  - destruct (proj1 (proj2
      (confirmed_email_cases (confirmation_issued ann_mail (timedelta_days 1))
         world0 (with_ticks 1 world0) ann_mail eq_refl)) ann eq_refl eq_refl)
      as (Hrun & Hrow).
    split; [exact Hrun|]. now rewrite Hrow.
  - refine (proj2 (proj2 (proj2
      (confirmed_email_cases (confirmation_issued ghost_mail (timedelta_days 1))
         world0 (with_ticks 1 world0) ghost_mail _))) _).
    + reflexivity.
    + reflexivity.
Defined.

(** Asking to resend the confirmation for an unknown e-mail ends in
    AttributeError. *)
Lemma resend_for_unknown_email :
  routes_auth.request_email ghost_mail "http://localhost/" world0
  = (Raised (AttributeError "confirmed"), world0).
Proof.
  apply (proj1 (request_email_reads_before_guard ghost_mail "http://localhost/" world0)).
  reflexivity.
Defined.

(** Ann cannot read, replace or delete Bob's contact. *)
Lemma ann_cannot_reach_bobs_contact :
  routes_contacts.read_contact 7 ann world0 = (Raised routes_contacts.not_found, world0) /\
  routes_contacts.update_contact new_contact 7 ann world0
  = (Raised routes_contacts.not_found, world0) /\
  routes_contacts.remove_contact 7 ann world0 = (Raised routes_contacts.not_found, world0).
Proof.
  apply (foreign_contact_not_found 7 ann new_contact world0).
  intros c Hc Hid. cbn in Hc.
  repeat (destruct Hc as [<- | Hc]; [try discriminate Hid|]); [|contradiction].
  discriminate.
Defined.

(** After Ann changes her avatar the cache holds her new row, and a read
    a second later returns it; confirming Bob leaves the cache as it
    was. *)
Lemma ann_avatar_cached_bob_confirmation_not :
  (exists w',
      routes_users.update_avatar_user "png" ann world0
      = (Returned (set_avatar (Some (cloudinary_url "png" ("FastApiApp/" +:+ email ann))) ann), w') /\
      cache_lookup (email ann) (clock 1) (cache w')
      = Some (set_avatar (Some (cloudinary_url "png" ("FastApiApp/" +:+ email ann))) ann)) /\
  cache (snd (routes_auth.confirmed_email
                (confirmation_issued bob_mail (timedelta_days 1)) world_cached))
  = cache world_cached.
Proof.
  destruct avatar_overwrites_cache_confirmation_keeps_it as [Havatar Hconfirm].
  split.
  - destruct (Havatar "png" ann ann world0) as (w' & Hrun & _ & Hread).
    + reflexivity.
    + exists w'. split; [exact Hrun|]. apply Hread. reflexivity.
  - apply (Hconfirm (confirmation_issued bob_mail (timedelta_days 1)) world_cached _
             (fst (routes_auth.confirmed_email
                     (confirmation_issued bob_mail (timedelta_days 1)) world_cached))).
    apply surjective_pairing.
Defined.

(** C3, on a run the service serves.  Ann logs in, calls a protected
    endpoint (her row is cached for 300 seconds), has her tokens rotated
    (her row is written with the new refresh token), and calls a protected
    endpoint again.  That last call reads the cache 13 seconds after the
    clock's start, the entry expiring 306 seconds after it; the user it
    resolves comes from the cache and carries the refresh token of the
    login, expiring at 1700604802, while her row carries the rotated one,
    expiring at 1700604810.  The write of the row was followed by no write
    of the cache entry, and a cache read within the entry's lifetime
    observes the value from before the mutation. *)
Theorem rotation_keeps_cached_refresh_token :
  rotation_run = Some (Some (JNum 1700604802), Some (JNum 1700604810)) /\
  rotation_cache_read
  = Some (Some (Reference.start + timedelta_seconds 306),
          Reference.start + timedelta_seconds 13).
Proof. split; reflexivity. Qed.

(** A token issued to Ann and decoded at the next clock reading. *)
Lemma ann_tokens_round_trip :
  (exists tok w1 payload,
      auth_service.create_access_token (routes_auth.sub_only ann_mail) None world0
      = (Returned tok, w1) /\
      jwt_decode tok SECRET_KEY [ALGORITHM] (clock 2) = Some payload /\
      payload !! "sub" = Some (JStr ann_mail) /\
      payload !! "scope" = Some (JStr "access_token")) /\
  (exists tok w1 payload,
      auth_service.create_refresh_token (routes_auth.sub_only ann_mail) None world0
      = (Returned tok, w1) /\
      jwt_decode tok SECRET_KEY [ALGORITHM] (clock 2) = Some payload /\
      payload !! "sub" = Some (JStr ann_mail) /\
      payload !! "scope" = Some (JStr "refresh_token") /\
      (forall w2, clock (ticks w2) = clock 2 ->
         fst (auth_service.decode_refresh_token tok w2) = Returned ann_mail)).
Proof.
  destruct (issued_tokens_round_trip ann_mail world0 reference_roundtrip) as [Haccess Hrefresh].
  split.
  - apply Haccess. apply Z.leb_le. reflexivity.
  - apply Hrefresh. apply Z.leb_le. reflexivity.
Defined.

(** No override, and a zero; overrides of two minutes given as an [int]
    and as a [float], of half a second, of a tenth of a microsecond (true,
    and rounded to no microsecond at all) and of 1.1, 1.7, 2.5 and
    3.5 microseconds (rounded to 1, 2, 2 and 4); and the overrides that are
    refused: 10**12 seconds, which leads past the year 9999, an infinity
    and a NaN. *)
#[warnings="-inexact-float"] Lemma access_token_expiry_of_ann :
  (exists c,
      issues "access_token"
        (auth_service.create_access_token (routes_auth.sub_only ann_mail) None)
        (routes_auth.sub_only ann_mail) world0 c /\
      c !! "exp" = Some (JDatetime (clock 0 + timedelta_minutes 15))) /\
  (exists c,
      issues "access_token"
        (auth_service.create_access_token (routes_auth.sub_only ann_mail)
           (Some (PyFloat PrimFloat.neg_zero)))
        (routes_auth.sub_only ann_mail) world0 c /\
      c !! "exp" = Some (JDatetime (clock 0 + timedelta_minutes 15))) /\
  (exists c,
      issues "access_token"
        (auth_service.create_access_token (routes_auth.sub_only ann_mail) (Some (PyInt 120)))
        (routes_auth.sub_only ann_mail) world0 c /\
      c !! "exp" = Some (JDatetime (clock 0 + timedelta_seconds 120))) /\
  (exists c,
      issues "access_token"
        (auth_service.create_access_token (routes_auth.sub_only ann_mail)
           (Some (PyFloat 120%float)))
        (routes_auth.sub_only ann_mail) world0 c /\
      c !! "exp" = Some (JDatetime (clock 0 + 120000000))) /\
  (exists c,
      issues "access_token"
        (auth_service.create_access_token (routes_auth.sub_only ann_mail)
           (Some (PyFloat 0.5%float)))
        (routes_auth.sub_only ann_mail) world0 c /\
      c !! "exp" = Some (JDatetime (clock 0 + 500000))) /\
  (exists c,
      issues "access_token"
        (auth_service.create_access_token (routes_auth.sub_only ann_mail)
           (Some (PyFloat 1e-7%float)))
        (routes_auth.sub_only ann_mail) world0 c /\
      c !! "exp" = Some (JDatetime (clock 0 + 0))) /\
  (exists c,
      issues "access_token"
        (auth_service.create_access_token (routes_auth.sub_only ann_mail)
           (Some (PyFloat 1.1e-6%float)))
        (routes_auth.sub_only ann_mail) world0 c /\
      c !! "exp" = Some (JDatetime (clock 0 + 1))) /\
  (exists c,
      issues "access_token"
        (auth_service.create_access_token (routes_auth.sub_only ann_mail)
           (Some (PyFloat 1.7e-6%float)))
        (routes_auth.sub_only ann_mail) world0 c /\
      c !! "exp" = Some (JDatetime (clock 0 + 2))) /\
  (exists c,
      issues "access_token"
        (auth_service.create_access_token (routes_auth.sub_only ann_mail)
           (Some (PyFloat 2.5e-6%float)))
        (routes_auth.sub_only ann_mail) world0 c /\
      c !! "exp" = Some (JDatetime (clock 0 + 2))) /\
  (exists c,
      issues "access_token"
        (auth_service.create_access_token (routes_auth.sub_only ann_mail)
           (Some (PyFloat 3.5e-6%float)))
        (routes_auth.sub_only ann_mail) world0 c /\
      c !! "exp" = Some (JDatetime (clock 0 + 4))) /\
  auth_service.create_access_token (routes_auth.sub_only ann_mail)
    (Some (PyInt (10 ^ 12))) world0
  = (Raised OverflowError, with_ticks 1 world0) /\
  auth_service.create_access_token (routes_auth.sub_only ann_mail)
    (Some (PyFloat PrimFloat.infinity)) world0
  = (Raised OverflowError, with_ticks 1 world0) /\
  auth_service.create_access_token (routes_auth.sub_only ann_mail)
    (Some (PyFloat PrimFloat.nan)) world0
  = (Raised ValueError, with_ticks 1 world0).
Proof.
  split; [|split; [|split; [|split; [|split; [|split;
    [|split; [|split; [|split; [|split; [|split; [|split]]]]]]]]]]].
  - apply (proj1 (access_token_expiry (routes_auth.sub_only ann_mail) None world0)).
    reflexivity.
  - apply (proj1 (access_token_expiry (routes_auth.sub_only ann_mail)
                    (Some (PyFloat PrimFloat.neg_zero)) world0)).
    reflexivity.
  - apply (proj1 (proj2 (access_token_expiry (routes_auth.sub_only ann_mail)
                           (Some (PyInt 120)) world0)) 120);
      [reflexivity|discriminate|reflexivity|reflexivity].
  - apply (proj1 (proj2 (proj2 (access_token_expiry (routes_auth.sub_only ann_mail)
                                  (Some (PyFloat 120%float)) world0)))
             (PyFloat 120%float) 120000000);
      reflexivity.
  - apply (proj1 (proj2 (proj2 (access_token_expiry (routes_auth.sub_only ann_mail)
                                  (Some (PyFloat 0.5%float)) world0)))
             (PyFloat 0.5%float) 500000);
      reflexivity.
  - refine (proj1 (proj2 (proj2 (access_token_expiry (routes_auth.sub_only ann_mail)
                                   _ world0))) _ 0 _ _ _ _);
      reflexivity.
  - refine (proj1 (proj2 (proj2 (access_token_expiry (routes_auth.sub_only ann_mail)
                                   _ world0))) _ 1 _ _ _ _);
      reflexivity.
  - refine (proj1 (proj2 (proj2 (access_token_expiry (routes_auth.sub_only ann_mail)
                                   _ world0))) _ 2 _ _ _ _);
      reflexivity.
  - refine (proj1 (proj2 (proj2 (access_token_expiry (routes_auth.sub_only ann_mail)
                                   _ world0))) _ 2 _ _ _ _);
      reflexivity.
  - refine (proj1 (proj2 (proj2 (access_token_expiry (routes_auth.sub_only ann_mail)
                                   _ world0))) _ 4 _ _ _ _);
      reflexivity.
  - apply (proj2 (proj2 (proj2 (proj2 (access_token_expiry (routes_auth.sub_only ann_mail)
                                         (Some (PyInt (10 ^ 12))) world0))))
             (PyInt (10 ^ 12)) (timedelta_seconds (10 ^ 12)));
      reflexivity.
  - apply (proj1 (proj2 (proj2 (proj2 (access_token_expiry (routes_auth.sub_only ann_mail)
                                         (Some (PyFloat PrimFloat.infinity)) world0))))
             (PyFloat PrimFloat.infinity) OverflowError);
      reflexivity.
  - apply (proj1 (proj2 (proj2 (proj2 (access_token_expiry (routes_auth.sub_only ann_mail)
                                         (Some (PyFloat PrimFloat.nan)) world0))))
             (PyFloat PrimFloat.nan) ValueError);
      reflexivity.
Defined.

(** Against C8 as stated: an explicit override of 0 seconds is not
    honoured; the token expires 15 minutes after the first clock reading,
    not 0 seconds after it. *)
Lemma zero_override_is_ignored :
  auth_service.create_access_token (routes_auth.sub_only ann_mail) (Some (PyInt 0)) world0
  = (Returned
       (jwt_encode
          (auth_service.access_claims (routes_auth.sub_only ann_mail)
             (clock 0 + timedelta_minutes 15) (clock 1))
          SECRET_KEY ALGORITHM),
     with_ticks 2 world0) /\
  auth_service.access_claims (routes_auth.sub_only ann_mail)
    (clock 0 + timedelta_minutes 15) (clock 1) !! "exp"
  = Some (JDatetime (clock 0 + timedelta_minutes 15)) /\
  clock 0 + timedelta_minutes 15 <> clock 0 + timedelta_seconds 0.
Proof.
  split; [reflexivity|]. split; [reflexivity|].
  vm_compute. discriminate.
Qed.

End Deployment.

(** * Further properties of the handlers *)

(** ** Scopes and the three kinds of token *)

Section Scopes.
Context `{Sv : Services}.

Lemma create_email_token_run (data : claims) (w : World) :
  auth_service.create_email_token data w
  = (Returned
       (jwt_encode
          (auth_service.email_claims data (clock (ticks w)) (clock (S (ticks w))))
          SECRET_KEY ALGORITHM),
     with_ticks (S (S (ticks w))) w).
Proof. reflexivity. Qed.

(** The claims of a confirmation token for [{'sub': addr}] have the issued
    shape, with no scope. *)
Lemma issued_shape_email (addr : string) (exp iat : datetime) :
  issued_shape
    (<["exp" := JDatetime exp]> (<["iat" := JDatetime iat]> (routes_auth.sub_only addr)))
    addr exp.
Proof.
  unfold issued_shape, routes_auth.sub_only.
  split; [|split; [|split; [|split]]].
  - rewrite !lookup_insert_ne by done. apply lookup_singleton_eq.
  - exists iat. rewrite !lookup_insert_ne by done. apply lookup_insert_eq.
  - apply lookup_insert_eq.
  - rewrite !lookup_insert_ne, lookup_singleton_ne by done. discriminate.
  - intros k [v Hk]. unfold token_keys.
    destruct (decide (k = "exp")) as [->|?]; [set_solver|].
    destruct (decide (k = "iat")) as [->|?]; [set_solver|].
    destruct (decide (k = "sub")) as [->|?]; [set_solver|].
    rewrite !lookup_insert_ne, lookup_singleton_ne in Hk by done. discriminate.
Qed.

(** What decoding an issued token gives, claim by claim. *)
Lemma decode_issued (addr scope : string) (exp iat now : datetime) :
  jose_roundtrip ->
  epoch_seconds now <= epoch_seconds exp ->
  exists payload,
    jwt_decode
      (jwt_encode
         (<["scope" := JStr scope]>
            (<["exp" := JDatetime exp]>
               (<["iat" := JDatetime iat]> (routes_auth.sub_only addr))))
         SECRET_KEY ALGORITHM)
      SECRET_KEY [ALGORITHM] now = Some payload /\
    payload !! "sub" = Some (JStr addr) /\
    payload !! "scope" = Some (JStr scope).
Proof.
  intros Hjose Hnow. eexists. split.
  - apply (Hjose _ addr exp now (issued_shape_insert addr scope exp iat) Hnow).
  - rewrite !jose_claims_other by done. split.
    + rewrite !lookup_insert_ne by done. apply lookup_singleton_eq.
    + apply lookup_insert_eq.
Qed.

Lemma decode_issued_email (addr : string) (exp iat now : datetime) :
  jose_roundtrip ->
  epoch_seconds now <= epoch_seconds exp ->
  exists payload,
    jwt_decode
      (jwt_encode
         (<["exp" := JDatetime exp]>
            (<["iat" := JDatetime iat]> (routes_auth.sub_only addr)))
         SECRET_KEY ALGORITHM)
      SECRET_KEY [ALGORITHM] now = Some payload /\
    payload !! "sub" = Some (JStr addr) /\
    payload !! "scope" = None.
Proof.
  intros Hjose Hnow. eexists. split.
  - apply (Hjose _ addr exp now (issued_shape_email addr exp iat) Hnow).
  - rewrite !jose_claims_other by done. split.
    + rewrite !lookup_insert_ne by done. apply lookup_singleton_eq.
    + rewrite !lookup_insert_ne by done. apply lookup_singleton_ne. done.
Qed.

(** X1. Tokens do not cross scopes: an access token presented to the
    refresh decoder ends with 401 "Invalid scope for token", and a refresh
    token presented as a bearer credential to [get_current_user] ends with
    401 "Could not validate credentials"; neither reads the store or the
    cache. *)
Theorem scopes_do_not_cross (addr : string) (w w2 : World) :
  jose_roundtrip ->
  epoch_seconds (clock (ticks w2))
  <= epoch_seconds (clock (ticks w) + timedelta_minutes 15) ->
  (exists tok w1,
      auth_service.create_access_token (routes_auth.sub_only addr) None w
      = (Returned tok, w1) /\
      auth_service.decode_refresh_token tok w2
      = (Raised (HTTPException HTTP_401_UNAUTHORIZED "Invalid scope for token"),
         with_ticks (S (ticks w2)) w2)) /\
  (exists tok w1,
      auth_service.create_refresh_token (routes_auth.sub_only addr) None w
      = (Returned tok, w1) /\
      auth_service.get_current_user tok w2
      = (Raised auth_service.credentials_exception, with_ticks (S (ticks w2)) w2)).
Proof.
  intros Hjose Hnow. split.
  - rewrite create_access_token_run. do 2 eexists. split; [reflexivity|].
    destruct (decode_issued addr "access_token"
                (clock (ticks w) + timedelta_minutes 15) (clock (S (ticks w)))
                (clock (ticks w2)) Hjose Hnow) as (payload & Hdec & Hsub & Hscope).
    unfold auth_service.decode_refresh_token, bind, utcnow.
    unfold auth_service.access_claims.
    rewrite Hdec, Hscope. reflexivity.
  - rewrite create_refresh_token_run. do 2 eexists. split; [reflexivity|].
    assert (epoch_seconds (clock (ticks w2))
            <= epoch_seconds (clock (ticks w) + timedelta_days 7)) as Hnow7.
    { etransitivity; [exact Hnow|].
      unfold epoch_seconds, timedelta_minutes, timedelta_days, timedelta_seconds,
        microseconds_per_second.
      apply Z.div_le_mono; lia. }
    destruct (decode_issued addr "refresh_token"
                (clock (ticks w) + timedelta_days 7) (clock (S (ticks w)))
                (clock (ticks w2)) Hjose Hnow7) as (payload & Hdec & Hsub & Hscope).
    unfold auth_service.get_current_user, bind, utcnow.
    unfold auth_service.refresh_claims.
    rewrite Hdec, Hscope. reflexivity.
Qed.

(** X2. A confirmation token carries no scope: presented to the refresh
    decoder or to [get_current_user] it ends with Python's KeyError on
    ['scope'], which neither handler catches. *)
Theorem confirmation_token_as_bearer (addr : string) (w w2 : World) :
  jose_roundtrip ->
  epoch_seconds (clock (ticks w2))
  <= epoch_seconds (clock (ticks w) + timedelta_days 7) ->
  exists tok w1,
    auth_service.create_email_token (routes_auth.sub_only addr) w = (Returned tok, w1) /\
    auth_service.decode_refresh_token tok w2
    = (Raised (KeyError "scope"), with_ticks (S (ticks w2)) w2) /\
    auth_service.get_current_user tok w2
    = (Raised (KeyError "scope"), with_ticks (S (ticks w2)) w2).
Proof.
  intros Hjose Hnow.
  rewrite create_email_token_run. do 2 eexists. split; [reflexivity|].
  destruct (decode_issued_email addr
              (clock (ticks w) + timedelta_days 7) (clock (S (ticks w)))
              (clock (ticks w2)) Hjose Hnow) as (payload & Hdec & Hsub & Hscope).
  unfold auth_service.decode_refresh_token, auth_service.get_current_user, bind, utcnow.
  unfold auth_service.email_claims.
  rewrite Hdec, Hscope. split; reflexivity.
Qed.

(** X3. [get_email_from_token] checks no scope: it returns the subject of
    a confirmation token, and equally of an access token or a refresh
    token issued for the same address. *)
Theorem any_issued_token_names_its_email (addr : string) (w w2 : World) :
  jose_roundtrip ->
  epoch_seconds (clock (ticks w2))
  <= epoch_seconds (clock (ticks w) + timedelta_minutes 15) ->
  (exists tok w1,
      auth_service.create_email_token (routes_auth.sub_only addr) w = (Returned tok, w1) /\
      auth_service.get_email_from_token tok w2
      = (Returned addr, with_ticks (S (ticks w2)) w2)) /\
  (exists tok w1,
      auth_service.create_access_token (routes_auth.sub_only addr) None w
      = (Returned tok, w1) /\
      auth_service.get_email_from_token tok w2
      = (Returned addr, with_ticks (S (ticks w2)) w2)) /\
  (exists tok w1,
      auth_service.create_refresh_token (routes_auth.sub_only addr) None w
      = (Returned tok, w1) /\
      auth_service.get_email_from_token tok w2
      = (Returned addr, with_ticks (S (ticks w2)) w2)).
Proof.
  intros Hjose Hnow.
  assert (epoch_seconds (clock (ticks w2))
          <= epoch_seconds (clock (ticks w) + timedelta_days 7)) as Hnow7.
  { etransitivity; [exact Hnow|].
    unfold epoch_seconds, timedelta_minutes, timedelta_days, timedelta_seconds,
      microseconds_per_second.
    apply Z.div_le_mono; lia. }
  split; [|split].
  - rewrite create_email_token_run. do 2 eexists. split; [reflexivity|].
    destruct (decode_issued_email addr
                (clock (ticks w) + timedelta_days 7) (clock (S (ticks w)))
                (clock (ticks w2)) Hjose Hnow7) as (payload & Hdec & Hsub & _).
    unfold auth_service.get_email_from_token, auth_service.subject, bind, utcnow.
    unfold auth_service.email_claims. rewrite Hdec, Hsub. reflexivity.
  - rewrite create_access_token_run. do 2 eexists. split; [reflexivity|].
    destruct (decode_issued addr "access_token"
                (clock (ticks w) + timedelta_minutes 15) (clock (S (ticks w)))
                (clock (ticks w2)) Hjose Hnow) as (payload & Hdec & Hsub & _).
    unfold auth_service.get_email_from_token, auth_service.subject, bind, utcnow.
    unfold auth_service.access_claims. rewrite Hdec, Hsub. reflexivity.
  - rewrite create_refresh_token_run. do 2 eexists. split; [reflexivity|].
    destruct (decode_issued addr "refresh_token"
                (clock (ticks w) + timedelta_days 7) (clock (S (ticks w)))
                (clock (ticks w2)) Hjose Hnow7) as (payload & Hdec & Hsub & _).
    unfold auth_service.get_email_from_token, auth_service.subject, bind, utcnow.
    unfold auth_service.refresh_claims. rewrite Hdec, Hsub. reflexivity.
Qed.

End Scopes.

(** ** Resolving the current user *)

Section CurrentUser.
Context `{Sv : Services}.

(** X4. With a valid access token, a live cache entry for its subject is
    what [get_current_user] returns, whatever the users table holds (the
    table appears in no hypothesis), and nothing is written. *)
Theorem current_user_from_cache (tok : token) (payload : claims) (addr : string)
  (u : User) (w : World) :
  jwt_decode tok SECRET_KEY [ALGORITHM] (clock (ticks w)) = Some payload ->
  payload !! "scope" = Some (JStr "access_token") ->
  payload !! "sub" = Some (JStr addr) ->
  cache_lookup addr (clock (S (ticks w))) (cache w) = Some u ->
  auth_service.get_current_user tok w = (Returned u, with_ticks (S (S (ticks w))) w).
Proof.
  intros Hdec Hscope Hsub Hhit.
  unfold auth_service.get_current_user, auth_service.subject, cache_get, bind, utcnow, ret.
  cbn [ticks cache with_ticks].
  rewrite Hdec, Hscope, Hsub, bool_decide_true by done.
  cbn [ticks cache with_ticks]. now rewrite Hhit.
Qed.


(** X6. Changing the avatar of a user whose row is gone (the caller having
    been resolved from the cache) ends with AttributeError, and neither
    the tables nor the cache change. *)
Theorem avatar_of_missing_row (file : string) (user : User) (w : World) :
  repository_users.first_by_email (email user) (users w) = None ->
  routes_users.update_avatar_user file user w = (Raised (AttributeError "avatar"), w).
Proof.
  intros Hrow.
  unfold routes_users.update_avatar_user, repository_users.update_avatar_url,
    repository_users.get_user_by_email, bind.
  now rewrite Hrow.
Qed.

End CurrentUser.

(** ** Successful login and rotation *)

Section Rotation.
Context `{Sv : Services}.

(** What a login does once the row is found, confirmed, and the password
    verifies. *)
Lemma login_of_verified (form_username form_password : string) (u : User) (w : World) :
  repository_users.first_by_email form_username (users w) = Some u ->
  confirmed u = true ->
  pwd_context_verify form_password (password u) = true ->
  exists pair w',
    routes_auth.login form_username form_password w = (Returned pair, w') /\
    routes_auth.token_type pair = "bearer" /\
    routes_auth.access_token pair
    = jwt_encode
        (auth_service.access_claims (routes_auth.sub_only form_username)
           (clock (ticks w) + timedelta_minutes 15) (clock (S (ticks w))))
        SECRET_KEY ALGORITHM /\
    routes_auth.refresh_token_ pair
    = jwt_encode
        (auth_service.refresh_claims (routes_auth.sub_only form_username)
           (clock (S (S (ticks w))) + timedelta_days 7) (clock (S (S (S (ticks w))))))
        SECRET_KEY ALGORITHM /\
    repository_users.first_by_email form_username (users w')
    = Some (set_refresh_token (Some (routes_auth.refresh_token_ pair)) u) /\
    events w' = (events w ++ [EvVerifyPassword form_password (password u)])%list /\
    cache w' = cache w /\ contacts w' = contacts w.
Proof.
  intros Hrow Hc Hv.
  pose proof (first_by_email_email _ _ _ Hrow) as Hmail.
  unfold routes_auth.login, repository_users.get_user_by_email,
    auth_service.verify_password, auth_service.create_access_token,
    auth_service.create_refresh_token, auth_service.expiry, attempt,
    repository_users.update_token,
    commit_user, record, bind, utcnow, ret.
  rewrite Hrow, Hc, Hv. cbn [negb ticks users events with_events with_ticks with_users].
  do 2 eexists. split; [reflexivity|].
  cbn [routes_auth.token_type routes_auth.access_token routes_auth.refresh_token_
       users events cache contacts with_users with_ticks with_events id set_refresh_token].
  rewrite Hmail. repeat split.
  apply (first_by_email_commit _ _ u); [exact Hrow|exact Hmail].
Qed.


(** What a refresh call does once its token has decoded and the row of
    its subject has been found. *)
Lemma refresh_token_after_decode (tok : token) (w w1 : World) (addr : string) (u : User) :
  auth_service.decode_refresh_token tok w = (Returned addr, w1) ->
  repository_users.first_by_email addr (users w) = Some u ->
  routes_auth.refresh_token tok w
  = (if bool_decide (models.refresh_token u <> Some tok)
     then
       (Raised (HTTPException HTTP_401_UNAUTHORIZED "Invalid refresh token"),
        with_users (map (fun r => if bool_decide (id r = id u)
                                  then set_refresh_token None u else r) (users w)) w1)
     else
       let refresh :=
         jwt_encode
           (auth_service.refresh_claims (routes_auth.sub_only addr)
              (clock (S (S (ticks w1))) + timedelta_days 7) (clock (S (S (S (ticks w1))))))
           SECRET_KEY ALGORITHM in
       (Returned
          (routes_auth.mkTokenModel
             (jwt_encode
                (auth_service.access_claims (routes_auth.sub_only addr)
                   (clock (ticks w1) + timedelta_minutes 15) (clock (S (ticks w1))))
                SECRET_KEY ALGORITHM)
             refresh "bearer"),
        with_users (map (fun r => if bool_decide (id r = id u)
                                  then set_refresh_token (Some refresh) u else r) (users w))
          (with_ticks (S (S (S (S (ticks w1))))) w1))).
Proof.
  intros Hdec Hrow.
  pose proof (decode_refresh_token_world _ _ _ _ Hdec) as ->.
  unfold routes_auth.refresh_token.
  rewrite (bind_returned _ _ _ _ _ Hdec).
  unfold bind at 1, repository_users.get_user_by_email. cbn [users with_ticks].
  rewrite Hrow. destruct (bool_decide (models.refresh_token u <> Some tok)); reflexivity.
Qed.

(** What a refresh call does when the presented token is the stored
    one. *)
Lemma refresh_token_of_stored (tok : token) (w w1 : World) (addr : string) (u : User) :
  auth_service.decode_refresh_token tok w = (Returned addr, w1) ->
  repository_users.first_by_email addr (users w) = Some u ->
  models.refresh_token u = Some tok ->
  exists pair w',
    routes_auth.refresh_token tok w = (Returned pair, w') /\
    routes_auth.token_type pair = "bearer" /\
    routes_auth.refresh_token_ pair
    = jwt_encode
        (auth_service.refresh_claims (routes_auth.sub_only addr)
           (clock (S (S (S (ticks w)))) + timedelta_days 7)
           (clock (S (S (S (S (ticks w)))))))
        SECRET_KEY ALGORITHM /\
    repository_users.first_by_email addr (users w')
    = Some (set_refresh_token (Some (routes_auth.refresh_token_ pair)) u) /\
    cache w' = cache w /\ contacts w' = contacts w /\ events w' = events w.
Proof.
  intros Hdec Hrow Hsame.
  rewrite (refresh_token_after_decode _ _ _ _ _ Hdec Hrow).
  pose proof (decode_refresh_token_world _ _ _ _ Hdec) as ->.
  rewrite bool_decide_false by (intros H; now apply H).
  do 2 eexists. split; [reflexivity|].
  cbn [routes_auth.token_type routes_auth.refresh_token_ users cache contacts events
       with_users with_ticks ticks].
  repeat split.
  apply (first_by_email_commit _ _ u); [exact Hrow|].
  cbn. now apply first_by_email_email in Hrow.
Qed.


(** X9. Reuse after rotation: once a refresh call has replaced the stored
    token by a different one, presenting the first token again (while it
    still decodes) ends with 401 "Invalid refresh token" and clears the
    stored token, so the new token is revoked as well. *)
Theorem rotated_out_token_is_refused (tok : token) (w w1 : World) (addr : string)
  (u : User) (pair : routes_auth.TokenModel) (w' w1' : World) :
  auth_service.decode_refresh_token tok w = (Returned addr, w1) ->
  repository_users.first_by_email addr (users w) = Some u ->
  models.refresh_token u = Some tok ->
  routes_auth.refresh_token tok w = (Returned pair, w') ->
  routes_auth.refresh_token_ pair <> tok ->
  auth_service.decode_refresh_token tok w' = (Returned addr, w1') ->
  exists w'',
    routes_auth.refresh_token tok w'
    = (Raised (HTTPException HTTP_401_UNAUTHORIZED "Invalid refresh token"), w'') /\
    repository_users.first_by_email addr (users w'')
    = Some (set_refresh_token None u) /\
    (forall w2,
        auth_service.decode_refresh_token (routes_auth.refresh_token_ pair) w''
        = (Returned addr, w2) ->
        exists w3,
          routes_auth.refresh_token (routes_auth.refresh_token_ pair) w''
          = (Raised (HTTPException HTTP_401_UNAUTHORIZED "Invalid refresh token"), w3)).
Proof.
  intros Hdec Hrow Hsame Hrun Hnew Hdec'.
  destruct (refresh_token_of_stored _ _ _ _ _ Hdec Hrow Hsame)
    as (pair0 & w0 & Hrun0 & _ & _ & Hrow' & _).
  rewrite Hrun in Hrun0. injection Hrun0 as <- <-.
  rewrite (refresh_token_after_decode _ _ _ _ _ Hdec' Hrow').
  cbn [models.refresh_token set_refresh_token].
  rewrite bool_decide_true by congruence.
  eexists. split; [reflexivity|]. cbn [users with_users].
  pose proof (decode_refresh_token_world _ _ _ _ Hdec') as ->.
  cbn [users with_users with_ticks id set_refresh_token].
  assert (repository_users.first_by_email addr
            (map (fun r => if bool_decide (id r = id u) then set_refresh_token None u else r)
               (users w')) = Some (set_refresh_token None u)) as Hcleared.
  { pose proof (first_by_email_commit (users w') addr
                  (set_refresh_token (Some (routes_auth.refresh_token_ pair)) u)
                  (set_refresh_token None u) Hrow') as H.
    cbn [id set_refresh_token email] in H. apply H.
    now apply first_by_email_email in Hrow. }
  split; [exact Hcleared|].
  intros w2 Hdec2.
  rewrite (refresh_token_after_decode _ _ _ _ _ Hdec2 Hcleared).
  cbn [models.refresh_token set_refresh_token].
  rewrite bool_decide_true by discriminate.
  eexists. reflexivity.
Qed.

End Rotation.

(** ** From login to refresh *)

Section LoginThenRefresh.
Context `{Sv : Services}.

Lemma decode_refresh_issued (addr : string) (exp iat : datetime) (w : World) :
  jose_roundtrip ->
  epoch_seconds (clock (ticks w)) <= epoch_seconds exp ->
  auth_service.decode_refresh_token
    (jwt_encode
       (<["scope" := JStr "refresh_token"]>
          (<["exp" := JDatetime exp]>
             (<["iat" := JDatetime iat]> (routes_auth.sub_only addr))))
       SECRET_KEY ALGORITHM) w
  = (Returned addr, with_ticks (S (ticks w)) w).
Proof.
  intros Hjose Hnow.
  destruct (decode_issued addr "refresh_token" exp iat (clock (ticks w)) Hjose Hnow)
    as (payload & Hdec & Hsub & Hscope).
  unfold auth_service.decode_refresh_token, auth_service.subject, bind, utcnow.
  rewrite Hdec, Hscope, bool_decide_true by done. now rewrite Hsub.
Qed.

(** X10. The refresh token a login returns is accepted by the refresh
    route: presented while its expiry has not passed, it is exchanged for a
    new pair, whose refresh token is the one the row then holds. *)
Theorem login_then_refresh (form_username form_password : string) (u : User)
  (w w' : World) (pair : routes_auth.TokenModel) :
  jose_roundtrip ->
  repository_users.first_by_email form_username (users w) = Some u ->
  confirmed u = true ->
  pwd_context_verify form_password (password u) = true ->
  routes_auth.login form_username form_password w = (Returned pair, w') ->
  epoch_seconds (clock (ticks w'))
  <= epoch_seconds (clock (S (S (ticks w))) + timedelta_days 7) ->
  exists pair2 w'',
    routes_auth.refresh_token (routes_auth.refresh_token_ pair) w' = (Returned pair2, w'') /\
    repository_users.first_by_email form_username (users w'')
    = Some (set_refresh_token (Some (routes_auth.refresh_token_ pair2)) u).
Proof.
  intros Hjose Hrow Hc Hv Hrun Hnow.
  destruct (login_of_verified _ _ _ _ Hrow Hc Hv)
    as (pair0 & w0 & Hrun0 & _ & _ & Hrefresh & Hrow' & _).
  rewrite Hrun in Hrun0. injection Hrun0 as <- <-.
  assert (auth_service.decode_refresh_token (routes_auth.refresh_token_ pair) w'
          = (Returned form_username, with_ticks (S (ticks w')) w')) as Hdec.
  { rewrite Hrefresh. unfold auth_service.refresh_claims.
    now apply decode_refresh_issued. }
  destruct (refresh_token_of_stored _ _ _ _ _ Hdec Hrow' eq_refl)
    as (pair2 & w'' & Hrun2 & _ & _ & Hrow'' & _).
  exists pair2, w''. split; [exact Hrun2|exact Hrow''].
Qed.

End LoginThenRefresh.

(** ** A caller's own contacts *)

Section OwnContacts.
Context `{Sv : Services}.

(** The row a lookup by id and owner finds has that id and that owner. *)
Lemma find_owned_some (cid : Z) (user : User) (rows : list Contact) (c : Contact) :
  List.find (repository_contacts.owned_with_id cid user) rows = Some c ->
  In c rows /\ contact_id c = cid /\ user_id c = Some (id user).
Proof.
  intros Hfind. apply find_some in Hfind as [Hin Hb].
  unfold repository_contacts.owned_with_id in Hb.
  apply andb_true_iff in Hb as [Hid Howner]. apply Z.eqb_eq in Hid.
  destruct (user_id c) as [o|]; [|discriminate]. cbn in Howner.
  apply Z.eqb_eq in Howner. now subst.
Qed.

(** After the rows with id [cid] have been removed, none is found. *)
Lemma find_after_delete (cid : Z) (user : User) (rows : list Contact) :
  List.find (repository_contacts.owned_with_id cid user)
    (List.filter (fun r => negb (contact_id r =? cid)) rows) = None.
Proof.
  induction rows as [|r rows IH]; [reflexivity|]. cbn [List.filter].
  destruct (contact_id r =? cid) eqn:E; cbn [negb]; [exact IH|].
  cbn [List.find]. unfold repository_contacts.owned_with_id at 1. now rewrite E.
Qed.

(** After the rows with the id of a found row have been replaced by a row
    of the same id and owner, that row is the one found. *)
Lemma find_after_update (cid : Z) (user : User) (rows : list Contact) (c c' : Contact) :
  List.find (repository_contacts.owned_with_id cid user) rows = Some c ->
  contact_id c' = cid -> user_id c' = Some (id user) ->
  List.find (repository_contacts.owned_with_id cid user)
    (map (fun r => if contact_id r =? cid then c' else r) rows) = Some c'.
Proof.
  intros Hfind Hid Howner.
  assert (repository_contacts.owned_with_id cid user c' = true) as Hc'.
  { unfold repository_contacts.owned_with_id. rewrite Hid, Howner, Z.eqb_refl. cbn.
    apply Z.eqb_refl. }
  induction rows as [|r rows IH]; [discriminate|]. cbn [map List.find] in *.
  destruct (contact_id r =? cid) eqn:E.
  - now rewrite Hc'.
  - unfold repository_contacts.owned_with_id at 1 in Hfind.
    unfold repository_contacts.owned_with_id at 1.
    rewrite E in *. cbn [andb] in *. auto.
Qed.

(** X11. Deleting one's own contact returns the row as it was and removes
    it: a later read, update or delete of that id by the same user ends
    with 404. *)
Theorem remove_contact_then_gone (cid : Z) (user : User) (c : Contact)
  (body : ContactModel) (w : World) :
  List.find (repository_contacts.owned_with_id cid user) (contacts w) = Some c ->
  exists w',
    routes_contacts.remove_contact cid user w = (Returned c, w') /\
    contacts w' = List.filter (fun r => negb (contact_id r =? cid)) (contacts w) /\
    users w' = users w /\ cache w' = cache w /\
    routes_contacts.read_contact cid user w' = (Raised routes_contacts.not_found, w') /\
    routes_contacts.update_contact body cid user w' = (Raised routes_contacts.not_found, w') /\
    routes_contacts.remove_contact cid user w' = (Raised routes_contacts.not_found, w').
Proof.
  intros Hfind. destruct (find_owned_some _ _ _ _ Hfind) as (_ & Hid & _).
  unfold routes_contacts.remove_contact, routes_contacts.read_contact,
    routes_contacts.update_contact, repository_contacts.remove_contact,
    repository_contacts.update_contact, repository_contacts.get_contact,
    repository_contacts.delete_contact, bind, ret.
  rewrite Hfind, Hid. eexists. split; [reflexivity|].
  cbn [contacts users cache with_contacts].
  rewrite find_after_delete. now repeat split.
Qed.

(** X12. Updating one's own contact, when the new phone and e-mail collide
    with no other row, replaces its five body fields and keeps its id and
    owner; the updated row is returned, and it is what a later read of
    that id by the same user returns. *)
Theorem update_contact_then_read (cid : Z) (user : User) (c : Contact)
  (body : ContactModel) (w : World) :
  List.find (repository_contacts.owned_with_id cid user) (contacts w) = Some c ->
  update_keeps_unique cid body (contacts w) ->
  exists w',
    routes_contacts.update_contact body cid user w
    = (Returned (mkContact cid (body_name body) (body_last_name body) (body_email body)
                   (body_phone body) (Some (body_born_date body)) (Some (id user))), w') /\
    users w' = users w /\ cache w' = cache w /\
    routes_contacts.read_contact cid user w'
    = (Returned (mkContact cid (body_name body) (body_last_name body) (body_email body)
                   (body_phone body) (Some (body_born_date body)) (Some (id user))), w').
Proof.
  intros Hfind _. destruct (find_owned_some _ _ _ _ Hfind) as (_ & <- & Howner).
  unfold routes_contacts.update_contact, routes_contacts.read_contact,
    repository_contacts.update_contact, repository_contacts.get_contact,
    repository_contacts.commit_contact, repository_contacts.apply_body, bind, ret.
  rewrite Hfind. cbn [contacts users cache with_contacts contact_id].
  rewrite !Howner. eexists. split; [reflexivity|].
  cbn [contacts users cache with_contacts contact_id].
  erewrite find_after_update; [|exact Hfind|reflexivity|reflexivity].
  now repeat split.
Qed.

(** Under the primary key, the rows with the id of a row are that row. *)
Lemma contact_id_unique (rows : list Contact) (c r : Contact) :
  NoDup (map contact_id rows) -> In c rows -> In r rows ->
  contact_id r = contact_id c -> r = c.
Proof.
  induction rows as [|x rows IH]; intros Hnd Hc Hr Hid; [contradiction|].
  cbn [map] in Hnd. apply NoDup_cons in Hnd as [Hx Hnd].
  destruct Hc as [<-|Hc], Hr as [<-|Hr]; auto.
  - exfalso. apply Hx. rewrite <- Hid. apply list_elem_of_In, in_map, Hr.
  - exfalso. apply Hx. rewrite Hid. apply list_elem_of_In, in_map, Hc.
Qed.

(** X13. Whatever a user reads, updates or deletes by id, the rows owned by
    other users (or by none) stay exactly as they were, the primary key
    being unique. *)
Theorem contact_writes_stay_with_owner (cid : Z) (user : User) (body : ContactModel)
  (w : World) :
  NoDup (map contact_id (contacts w)) ->
  of_others user (contacts (snd (routes_contacts.read_contact cid user w)))
  = of_others user (contacts w) /\
  of_others user (contacts (snd (routes_contacts.update_contact body cid user w)))
  = of_others user (contacts w) /\
  of_others user (contacts (snd (routes_contacts.remove_contact cid user w)))
  = of_others user (contacts w).
Proof.
  intros Hnd.
  unfold routes_contacts.read_contact, routes_contacts.update_contact,
    routes_contacts.remove_contact, repository_contacts.update_contact,
    repository_contacts.remove_contact, repository_contacts.get_contact,
    repository_contacts.commit_contact, repository_contacts.delete_contact,
    routes_contacts.or_404, bind, ret, raise.
  destruct (List.find (repository_contacts.owned_with_id cid user) (contacts w))
    as [c|] eqn:Hfind; cbn [snd contacts with_contacts]; [|now repeat split].
  destruct (find_owned_some _ _ _ _ Hfind) as (Hin & Hid & Howner).
  split; [reflexivity|]. unfold of_others.
  assert (forall r, In r (contacts w) -> contact_id r = contact_id c -> r = c) as Huniq
    by (intros r Hr; now apply (contact_id_unique (contacts w))).
  clear Hnd Hfind. revert Huniq Hin. generalize (contacts w) as rows.
  intros rows Huniq _. split.
  - induction rows as [|r rows IH]; [reflexivity|]. cbn [map List.filter].
    rewrite IH by (intros x Hx; apply Huniq; now right).
    cbn [contact_id repository_contacts.apply_body].
    destruct (contact_id r =? contact_id c) eqn:E; [|reflexivity].
    apply Z.eqb_eq in E. rewrite (Huniq r (or_introl eq_refl) E).
    cbn [user_id repository_contacts.apply_body]. rewrite Howner. cbn.
    now rewrite Z.eqb_refl.
  - induction rows as [|r rows IH]; [reflexivity|]. cbn [List.filter].
    destruct (contact_id r =? contact_id c) eqn:E; cbn [negb List.filter].
    + apply Z.eqb_eq in E. rewrite (Huniq r (or_introl eq_refl) E), Howner. cbn.
      rewrite Z.eqb_refl. cbn. apply IH. intros x Hx; apply Huniq; now right.
    + rewrite IH by (intros x Hx; apply Huniq; now right). reflexivity.
Qed.

End OwnContacts.

(** ** The birthday window *)

Section BirthdayWindow.

Lemma days_in_month_bounds (y m : Z) : 28 <= days_in_month y m <= 31.
Proof.
  unfold days_in_month.
  repeat match goal with |- context [if ?b then _ else _] => destruct b end; lia.
Qed.

Lemma next_day_valid (d : date) : valid_date d -> valid_date (next_day d).
Proof.
  intros [Hm Hd]. unfold next_day, valid_date.
  destruct (day d <? days_in_month (year d) (month d)) eqn:E1; cbn [year month day].
  - apply Z.ltb_lt in E1. lia.
  - destruct (month d <? 12) eqn:E2; cbn [year month day].
    + apply Z.ltb_lt in E2.
      pose proof (days_in_month_bounds (year d) (month d + 1)). lia.
    + pose proof (days_in_month_bounds (year d + 1) 1). lia.
Qed.

(** [d + timedelta(days=k)] in closed form, for up to four weeks. *)
Lemma add_days_days_later (k : nat) (d : date) :
  valid_date d -> Z.of_nat k <= 28 -> add_days k d = days_later (Z.of_nat k) d.
Proof.
  revert d. induction k as [|k IH]; intros d Hv Hk.
  - destruct Hv as [Hm Hd]. unfold days_later. cbn [add_days Z.of_nat].
    rewrite Z.add_0_r. destruct (day d <=? _) eqn:E.
    + now destruct d.
    + apply Z.leb_gt in E. lia.
  - cbn [add_days]. rewrite IH by (auto using next_day_valid; lia).
    destruct Hv as [Hm Hd]. unfold next_day, days_later.
    pose proof (days_in_month_bounds (year d) (month d)) as Hb.
    destruct (day d <? days_in_month (year d) (month d)) eqn:E1; cbn [year month day].
    + apply Z.ltb_lt in E1.
      replace (day d + 1 + Z.of_nat k) with (day d + Z.of_nat (S k)) by lia.
      destruct (day d + Z.of_nat (S k) <=? _); [reflexivity|].
      destruct (month d <? 12); reflexivity.
    + apply Z.ltb_ge in E1.
      assert ((day d + Z.of_nat (S k) <=? days_in_month (year d) (month d)) = false) as ->
        by (apply Z.leb_gt; lia).
      destruct (month d <? 12) eqn:E2; cbn [year month day].
      * pose proof (days_in_month_bounds (year d) (month d + 1)) as Hb'.
        assert ((1 + Z.of_nat k <=? days_in_month (year d) (month d + 1)) = true) as ->
          by (apply Z.leb_le; lia).
        f_equal. lia.
      * pose proof (days_in_month_bounds (year d + 1) 1) as Hb'.
        assert ((1 + Z.of_nat k <=? days_in_month (year d + 1) 1) = true) as ->
          by (apply Z.leb_le; lia).
        f_equal. lia.
Qed.

(** When the day a week after today falls in another month, the filter
    accepts a contact of the owner exactly when the month and day of its
    birth date are those of a day of the window. *)
Lemma birthday_filter_across_months (today b : date) (uid : Z) (c : Contact) :
  valid_date today ->
  month (add_days 7 today) <> month today ->
  born_date c = Some b ->
  user_id c = Some uid ->
  1 <= day b ->
  (month b = month today -> day b <= days_in_month (year today) (month today)) ->
  birthday_filter today (add_days 7 today) uid c = true <-> in_birthday_window today b.
Proof.
  intros Hv Hcross Hborn Howner Hday Hexists.
  pose proof (days_in_month_bounds (year today) (month today)) as Hb.
  assert (Hlast : add_days 7 today = days_later 7 today)
    by (apply (add_days_days_later 7); [exact Hv|lia]).
  assert (Hover : days_in_month (year today) (month today) < day today + 7).
  { rewrite Hlast in Hcross. unfold days_later in Hcross.
    destruct (day today + 7 <=? _) eqn:E; [now cbn in Hcross|]. now apply Z.leb_gt in E. }
  pose proof Hv as [Hm Hd].
  unfold birthday_filter, sql_extract. rewrite Hborn, Howner.
  cbn [fmap option_fmap option_map sql_holds]. rewrite Z.eqb_refl, !andb_true_r.
  rewrite orb_true_iff, !andb_true_iff, !Z.eqb_eq, Z.leb_le, Z.geb_le.
  split.
  - intros [[Hmonth Hle] | [Hmonth Hge]].
    + exists (Z.to_nat (day b + days_in_month (year today) (month today) - day today)).
      rewrite Hlast in Hmonth, Hle. unfold days_later in Hmonth, Hle.
      assert ((day today + 7 <=? days_in_month (year today) (month today)) = false) as E
        by (apply Z.leb_gt; lia).
      rewrite E in Hmonth, Hle.
      assert (day b <= day today + 7 - days_in_month (year today) (month today)) as Hle'
        by (destruct (month today <? 12); cbn [day] in Hle; lia).
      split; [lia|rewrite add_days_days_later by (first [exact Hv | lia])].
      rewrite Z2Nat.id by lia. unfold days_later.
      {
        assert ((day today + (day b + days_in_month (year today) (month today) - day today)
                <=? days_in_month (year today) (month today)) = false) as ->
          by (apply Z.leb_gt; lia).
        destruct (month today <? 12); cbn [month day] in *; split; lia. }
    + exists (Z.to_nat (day b - day today)). specialize (Hexists (eq_sym Hmonth)).
      split; [lia|]. rewrite add_days_days_later by (first [exact Hv | lia]).
      rewrite Z2Nat.id by lia. unfold days_later.
      assert ((day today + (day b - day today)
              <=? days_in_month (year today) (month today)) = true) as ->
        by (apply Z.leb_le; lia).
      cbn [month day]. split; [congruence|lia].
  - intros (k & Hk & Hmonth & Hdayk).
    rewrite add_days_days_later in Hmonth, Hdayk by (first [exact Hv | lia]).
    rewrite Hlast. unfold days_later in *.
    assert ((day today + 7 <=? days_in_month (year today) (month today)) = false) as ->
      by (apply Z.leb_gt; lia).
    destruct (day today + Z.of_nat k <=? days_in_month (year today) (month today)) eqn:E.
    + right. cbn [month day] in *. apply Z.leb_le in E. split; [congruence|lia].
    + left. apply Z.leb_gt in E.
      destruct (month today <? 12); cbn [month day] in *; split; lia.
Qed.

(** X14. When the day a week after today falls in another month (December
    to January included), the birthday query returns a contact of the
    owner exactly when the month and day of its birth date are those of
    one of the eight days from today to a week later.  The birth day is
    taken to exist in today's month when it is of that month (a 29 February
    in a year that has none is returned although no day of the window
    matches it). *)
Theorem birthdays_across_months (today b : date) (uid : Z) (rows : list Contact)
  (c : Contact) :
  valid_date today ->
  month (add_days 7 today) <> month today ->
  born_date c = Some b ->
  user_id c = Some uid ->
  1 <= day b ->
  (month b = month today -> day b <= days_in_month (year today) (month today)) ->
  In c (birthdays_on today uid rows) <-> In c rows /\ in_birthday_window today b.
Proof.
  intros Hv Hcross Hborn Howner Hday Hexists.
  unfold birthdays_on. rewrite filter_In.
  now rewrite (birthday_filter_across_months today b uid c).
Qed.

Lemma birthday_filter_scoped (today last_day : date) (uid : Z) (c : Contact) :
  birthday_filter today last_day uid c = true ->
  user_id c = Some uid /\
  exists b, born_date c = Some b /\ (month b = month today \/ month b = month last_day).
Proof.
  unfold birthday_filter, sql_extract. intros Hf.
  destruct (born_date c) as [b|]; [|discriminate Hf].
  destruct (user_id c) as [o|]; cbn [fmap option_fmap option_map sql_holds] in Hf;
    [|now rewrite !andb_false_r in Hf].
  apply orb_true_iff in Hf.
  rewrite !andb_true_iff, !Z.eqb_eq in Hf.
  split; [destruct Hf as [(_ & ->)|(_ & ->)]; reflexivity|].
  exists b. split; [reflexivity|].
  destruct Hf as [((-> & _) & _)|((-> & _) & _)]; auto.
Qed.

(** X23. The birthday query never returns a contact of another owner, a
    contact without birth date, or a contact born in a month other than
    today's and that of the day a week later. *)
Theorem birthdays_are_scoped (today : date) (uid : Z) (rows : list Contact) (c : Contact) :
  In c (birthdays_on today uid rows) ->
  In c rows /\ user_id c = Some uid /\
  exists b, born_date c = Some b /\
            (month b = month today \/ month b = month (add_days 7 today)).
Proof.
  unfold birthdays_on. rewrite filter_In. intros [Hin Hf]. split; [exact Hin|].
  now apply birthday_filter_scoped in Hf.
Qed.

(** X26. When today and the day a week later fall in the same month, the
    birthday query returns every contact of the owner born in that month,
    whatever the day: birthdays already past this month and birthdays
    more than seven days ahead are returned too. *)
Theorem birthdays_of_the_whole_month (today : date) (uid : Z) (rows : list Contact)
  (c : Contact) (b : date) :
  month (add_days 7 today) = month today ->
  day today <= day (add_days 7 today) ->
  In c rows ->
  born_date c = Some b -> month b = month today -> user_id c = Some uid ->
  In c (birthdays_on today uid rows).
Proof.
  intros Hsame Hdays Hin Hborn Hmonth Howner.
  unfold birthdays_on. rewrite filter_In. split; [exact Hin|].
  now apply (birthday_filter_same_month today uid c b).
Qed.

End BirthdayWindow.

(** ** Listing and creating contacts *)

Section Listing.
Context `{Sv : Services}.

Lemma name_query_holds (filter : option string) (c : Contact) :
  forallb (fun q => q c) (contacts_listing.name_query filter) = true
  <-> (forall x, filter = Some x -> x <> "" -> name c = x).
Proof.
  unfold contacts_listing.name_query. destruct filter as [n|]; [|now split].
  destruct (String.eqb_spec n ""); cbn [negb forallb].
  - split; [|reflexivity]. intros _ x [= <-] Hx. contradiction.
  - rewrite andb_true_r, String.eqb_eq. split.
    + now intros H x [= <-] _.
    + intros H. now apply H.
Qed.

Lemma last_name_query_holds (filter : option string) (c : Contact) :
  forallb (fun q => q c) (contacts_listing.last_name_query filter) = true
  <-> (forall x, filter = Some x -> x <> "" -> last_name c = x).
Proof.
  unfold contacts_listing.last_name_query. destruct filter as [n|]; [|now split].
  destruct (String.eqb_spec n ""); cbn [negb forallb].
  - split; [|reflexivity]. intros _ x [= <-] Hx. contradiction.
  - rewrite andb_true_r, String.eqb_eq. split.
    + now intros H x [= <-] _.
    + intros H. now apply H.
Qed.

Lemma email_query_holds (filter : option string) (c : Contact) :
  forallb (fun q => q c) (contacts_listing.email_query filter) = true
  <-> (forall x, filter = Some x -> x <> "" -> contact_email c = Some x).
Proof.
  unfold contacts_listing.email_query. destruct filter as [e|]; [|now split].
  destruct (String.eqb_spec e ""); cbn [negb forallb].
  - split; [|reflexivity]. intros _ x [= <-] Hx. contradiction.
  - rewrite andb_true_r. destruct (contact_email c) as [x|]; cbn [sql_holds].
    + rewrite String.eqb_eq. split.
      * intros -> y [= <-] _. reflexivity.
      * intros H. specialize (H e eq_refl n). congruence.
    + split; [discriminate|]. intros H. specialize (H e eq_refl n). discriminate.
Qed.

Lemma owned_holds (user : User) (c : Contact) :
  sql_holds (Z.eqb (id user)) (user_id c) = true <-> user_id c = Some (id user).
Proof.
  destruct (user_id c) as [o|]; cbn [sql_holds].
  - rewrite Z.eqb_eq. split; congruence.
  - split; discriminate.
Qed.

(** X15. The listing returns, in table order, exactly the caller's own
    contacts that match every filter given; a filter that is absent or
    the empty string restricts nothing, and a contact without e-mail
    matches no e-mail filter. *)
Theorem get_contacts_characterised (user : User) (by_name by_last_name by_email : option string)
  (w : World) :
  exists found,
    contacts_listing.get_contacts user by_name by_last_name by_email w = (Returned found, w) /\
    (exists keep, found = List.filter keep (contacts w)) /\
    (forall c,
        In c found <->
        In c (contacts w) /\
        user_id c = Some (id user) /\
        (forall x, by_name = Some x -> x <> "" -> name c = x) /\
        (forall x, by_last_name = Some x -> x <> "" -> last_name c = x) /\
        (forall x, by_email = Some x -> x <> "" -> contact_email c = Some x)).
Proof.
  eexists. split; [reflexivity|]. split; [now eexists|].
  intros c. rewrite filter_In, !forallb_app. cbn [forallb].
  rewrite andb_true_r, !andb_true_iff, name_query_holds, last_name_query_holds,
    email_query_holds, owned_holds.
  tauto.
Qed.

Lemma contact_insert_refused_false (c : Contact) (rows : list Contact) :
  contacts_listing.contact_insert_refused c rows = false ->
  forall r, In r rows -> contact_id r <> contact_id c /\ phone r <> phone c.
Proof.
  intros Hfree r Hr. unfold contacts_listing.contact_insert_refused in Hfree.
  destruct (contact_id r =? contact_id c) eqn:E1.
  { assert (existsb (fun r => (contact_id r =? contact_id c)
                     || (phone r =? phone c)%string
                     || sql_holds (fun e => sql_holds (fun x => (x =? e)%string) (contact_email r))
                          (contact_email c)) rows = true) as H
      by (apply existsb_exists; exists r; now rewrite E1).
    congruence. }
  destruct (phone r =? phone c)%string eqn:E2.
  { assert (existsb (fun r => (contact_id r =? contact_id c)
                     || (phone r =? phone c)%string
                     || sql_holds (fun e => sql_holds (fun x => (x =? e)%string) (contact_email r))
                          (contact_email c)) rows = true) as H
      by (apply existsb_exists; exists r; now rewrite E1, E2).
    congruence. }
  apply Z.eqb_neq in E1. apply String.eqb_neq in E2. now split.
Qed.

Lemma find_owned_app_new (cid : Z) (user : User) (rows : list Contact) (c : Contact) :
  (forall r, In r rows -> contact_id r <> cid) ->
  List.find (repository_contacts.owned_with_id cid user) (rows ++ [c])
  = if repository_contacts.owned_with_id cid user c then Some c else None.
Proof.
  intros Hfresh. induction rows as [|r rows IH]; [reflexivity|].
  cbn [app List.find]. unfold repository_contacts.owned_with_id at 1.
  assert ((contact_id r =? cid) = false) as -> by (apply Z.eqb_neq, Hfresh; now left).
  cbn [andb]. apply IH. intros x Hx. apply Hfresh. now right.
Qed.

(** X16. A contact created with an id, a phone and an e-mail that the
    table does not hold yet is appended to the table with the body's
    fields and the caller as owner; the caller then reads it back by its
    id, and any user with another id gets 404 for it. *)
Theorem create_contact_then_read (new_id : Z) (body : ContactModel) (user other : User)
  (w : World) :
  contacts_listing.contact_insert_refused
    (mkContact new_id (body_name body) (body_last_name body) (body_email body)
       (body_phone body) (Some (body_born_date body)) (Some (id user)))
    (contacts w) = false ->
  id other <> id user ->
  exists w',
    contacts_listing.create_contact new_id body user w
    = (Returned (inr (mkContact new_id (body_name body) (body_last_name body)
                        (body_email body) (body_phone body)
                        (Some (body_born_date body)) (Some (id user)))), w') /\
    contacts w'
    = (contacts w ++ [mkContact new_id (body_name body) (body_last_name body)
                        (body_email body) (body_phone body)
                        (Some (body_born_date body)) (Some (id user))])%list /\
    users w' = users w /\ cache w' = cache w /\
    routes_contacts.read_contact new_id user w'
    = (Returned (mkContact new_id (body_name body) (body_last_name body)
                   (body_email body) (body_phone body)
                   (Some (body_born_date body)) (Some (id user))), w') /\
    routes_contacts.read_contact new_id other w' = (Raised routes_contacts.not_found, w').
Proof.
  intros Hfree Hother.
  pose proof (contact_insert_refused_false _ _ Hfree) as Hrows.
  unfold contacts_listing.create_contact. rewrite Hfree.
  eexists. split; [reflexivity|]. cbn [contacts users cache with_contacts].
  repeat split.
  - unfold routes_contacts.read_contact, repository_contacts.get_contact, bind.
    cbn [contacts with_contacts].
    rewrite find_owned_app_new by (intros r Hr; now apply Hrows in Hr).
    unfold repository_contacts.owned_with_id. cbn [contact_id user_id sql_holds].
    now rewrite !Z.eqb_refl.
  - unfold routes_contacts.read_contact, repository_contacts.get_contact, bind.
    cbn [contacts with_contacts].
    rewrite find_owned_app_new by (intros r Hr; now apply Hrows in Hr).
    unfold repository_contacts.owned_with_id. cbn [contact_id user_id sql_holds].
    rewrite Z.eqb_refl. cbn [andb].
    now apply Z.eqb_neq in Hother as ->.
Qed.

(** X17. A contact whose phone number some row already has is not
    created: the call ends with the database's IntegrityError and the
    table is left as it was. *)
Theorem create_contact_with_taken_phone (new_id : Z) (body : ContactModel) (user : User)
  (w : World) (r : Contact) :
  In r (contacts w) -> phone r = body_phone body ->
  contacts_listing.create_contact new_id body user w = (Returned (inl UniqueViolation), w).
Proof.
  intros Hr Hphone. unfold contacts_listing.create_contact.
  assert (contacts_listing.contact_insert_refused
            (mkContact new_id (body_name body) (body_last_name body) (body_email body)
               (body_phone body) (Some (body_born_date body)) (Some (id user)))
            (contacts w) = true) as ->; [|reflexivity].
  unfold contacts_listing.contact_insert_refused. apply existsb_exists. exists r.
  split; [exact Hr|]. cbn [phone]. rewrite Hphone, String.eqb_refl.
  now rewrite orb_true_r.
Qed.

End Listing.

(** ** Sign-up and the life of an account *)

Section SignUp.
Context `{Sv : Services} `{En : Enrolment}.

Lemma first_by_email_none (addr : string) (rows : list User) :
  repository_users.first_by_email addr rows = None <->
  (forall r, In r rows -> email r <> addr).
Proof.
  unfold repository_users.first_by_email. split.
  - intros Hnone r Hr Hmail.
    pose proof (find_none _ _ Hnone r Hr) as Hb. cbn in Hb.
    now rewrite bool_decide_true in Hb.
  - intros Hall. induction rows as [|r rows IH]; [reflexivity|]. cbn [List.find].
    rewrite bool_decide_false by (apply Hall; now left).
    apply IH. intros x Hx. apply Hall. now right.
Qed.

Lemma first_by_email_app_new (addr : string) (rows : list User) (u : User) :
  repository_users.first_by_email addr rows = None -> email u = addr ->
  repository_users.first_by_email addr (rows ++ [u]) = Some u.
Proof.
  intros Hnone Hmail. unfold repository_users.first_by_email in *.
  induction rows as [|r rows IH]; cbn [app List.find] in *.
  - now rewrite bool_decide_true.
  - destruct (bool_decide (email r = addr)); [discriminate|]. now apply IH.
Qed.

Lemma user_insert_accepted (new_user : User) (rows : list User) :
  (forall r, In r rows -> id r <> id new_user) ->
  repository_users.first_by_email (email new_user) rows = None ->
  accounts.user_insert_refused new_user rows = false.
Proof.
  intros Hid Hmail. rewrite first_by_email_none in Hmail.
  unfold accounts.user_insert_refused.
  induction rows as [|r rows IH]; [reflexivity|]. cbn [existsb].
  rewrite bool_decide_false by (apply Hid; now left).
  rewrite bool_decide_false by (apply Hmail; now left).
  cbn [orb]. apply IH; intros x Hx; [apply Hid|apply Hmail]; now right.
Qed.

(** X18. Signing up with an e-mail that a row already has ends with 409
    "Account already exists"; no row is created, no password is hashed
    into the table and no e-mail is scheduled. *)
Theorem signup_of_registered_email (new_id : Z) (body : UserModel) (base_url : string)
  (u : User) (w : World) :
  repository_users.first_by_email (signup_email body) (users w) = Some u ->
  accounts.signup new_id body base_url w
  = (Raised (HTTPException HTTP_409_CONFLICT "Account already exists"), w).
Proof.
  intros Hrow. unfold accounts.signup, repository_users.get_user_by_email, bind.
  now rewrite Hrow.
Qed.

(** What signing up does when the e-mail is new and the id unused. *)
Lemma signup_of_new_email (new_id : Z) (body : UserModel) (base_url : string)
  (w : World) :
  repository_users.first_by_email (signup_email body) (users w) = None ->
  (forall r, In r (users w) -> id r <> new_id) ->
  exists w',
    accounts.signup new_id body base_url w
    = (Returned (inr (mkUser new_id (signup_username body) (signup_email body)
                        (pwd_context_hash (signup_password body))
                        (gravatar_image (signup_email body)) None false,
                      "User successfully created")), w') /\
    users w'
    = (users w ++ [mkUser new_id (signup_username body) (signup_email body)
                     (pwd_context_hash (signup_password body))
                     (gravatar_image (signup_email body)) None false])%list /\
    events w'
    = (events w ++ [EvSendEmail (signup_email body) (signup_username body) base_url])%list /\
    contacts w' = contacts w /\ cache w' = cache w /\ ticks w' = ticks w /\
    repository_users.first_by_email (signup_email body) (users w')
    = Some (mkUser new_id (signup_username body) (signup_email body)
              (pwd_context_hash (signup_password body))
              (gravatar_image (signup_email body)) None false).
Proof.
  intros Hnone Hfresh.
  unfold accounts.signup, accounts.create_user, accounts.get_password_hash,
    repository_users.get_user_by_email, record, bind, ret.
  rewrite Hnone. cbn [signup_username signup_email signup_password].
  rewrite user_insert_accepted by (assumption || exact Hnone).
  eexists. split; [reflexivity|].
  cbn [users events contacts cache ticks with_users with_events email username].
  repeat split. now apply first_by_email_app_new.
Qed.

(** X19. Signing up with an e-mail that no row has (the database
    assigning an unused id) appends one row: unconfirmed, without refresh
    token, holding the hash of the password and never the password
    itself, with the Gravatar image as avatar.  One confirmation e-mail is
    scheduled for it, the call answers with the new user, and the
    database's IntegrityError is not met. *)
Theorem signup_creates_unconfirmed (new_id : Z) (body : UserModel) (base_url : string)
  (w : World) :
  repository_users.first_by_email (signup_email body) (users w) = None ->
  (forall r, In r (users w) -> id r <> new_id) ->
  exists w',
    accounts.signup new_id body base_url w
    = (Returned (inr (mkUser new_id (signup_username body) (signup_email body)
                        (pwd_context_hash (signup_password body))
                        (gravatar_image (signup_email body)) None false,
                      "User successfully created")), w') /\
    users w'
    = (users w ++ [mkUser new_id (signup_username body) (signup_email body)
                     (pwd_context_hash (signup_password body))
                     (gravatar_image (signup_email body)) None false])%list /\
    events w'
    = (events w ++ [EvSendEmail (signup_email body) (signup_username body) base_url])%list /\
    contacts w' = contacts w /\ cache w' = cache w /\ ticks w' = ticks w /\
    repository_users.first_by_email (signup_email body) (users w')
    = Some (mkUser new_id (signup_username body) (signup_email body)
              (pwd_context_hash (signup_password body))
              (gravatar_image (signup_email body)) None false).
Proof.
  intros Hnone Hfresh.
  unfold accounts.signup, accounts.create_user, accounts.get_password_hash,
    repository_users.get_user_by_email, record, bind, ret.
  rewrite Hnone. cbn [signup_username signup_email signup_password].
  rewrite user_insert_accepted by (assumption || exact Hnone).
  eexists. split; [reflexivity|].
  cbn [users events contacts cache ticks with_users with_events email username].
  repeat split. now apply first_by_email_app_new.
Qed.

(** What a login does once the row of the user name has been found. *)
Lemma login_of_unconfirmed (form_username form_password : string) (u : User) (w : World) :
  repository_users.first_by_email form_username (users w) = Some u ->
  confirmed u = false ->
  routes_auth.login form_username form_password w
  = (Raised (HTTPException HTTP_401_UNAUTHORIZED "Email is not confirmed"), w).
Proof.
  intros Hrow Hc. unfold routes_auth.login, repository_users.get_user_by_email, bind.
  now rewrite Hrow, Hc.
Qed.

(** X20. Right after signing up, logging in with the same e-mail and
    password is refused with 401 "Email is not confirmed", and refused
    without the password being verified. *)
Theorem signup_then_login_refused (new_id : Z) (body : UserModel) (base_url : string)
  (w : World) :
  repository_users.first_by_email (signup_email body) (users w) = None ->
  (forall r, In r (users w) -> id r <> new_id) ->
  exists w',
    snd (accounts.signup new_id body base_url w) = w' /\
    routes_auth.login (signup_email body) (signup_password body) w'
    = (Raised (HTTPException HTTP_401_UNAUTHORIZED "Email is not confirmed"), w').
Proof.
  intros Hnone Hfresh.
  destruct (signup_of_new_email new_id body base_url w Hnone Hfresh)
    as (w' & Hrun & _ & _ & _ & _ & _ & Hrow).
  exists w'. rewrite Hrun. split; [reflexivity|].
  now apply (login_of_unconfirmed _ _ _ _ Hrow).
Qed.

(** What a confirmation does once its token has decoded and the row of
    its subject has been found unconfirmed. *)
Lemma confirmed_email_of_unconfirmed (tok : token) (w w1 : World) (addr : string) (u : User) :
  auth_service.get_email_from_token tok w = (Returned addr, w1) ->
  repository_users.first_by_email addr (users w) = Some u ->
  confirmed u = false ->
  routes_auth.confirmed_email tok w
  = (Returned "Email confirmed",
     with_users (map (fun r => if bool_decide (id r = id u)
                               then set_confirmed true u else r) (users w)) w1).
Proof.
  intros Hdec Hrow Hc.
  pose proof (get_email_from_token_world _ _ _ _ Hdec) as ->.
  unfold routes_auth.confirmed_email.
  rewrite (bind_returned _ _ _ _ _ Hdec).
  unfold repository_users.get_user_by_email. unfold bind at 1. cbn [users with_ticks].
  rewrite Hrow, Hc.
  unfold bind at 1, repository_users.confirmed_email, repository_users.get_user_by_email.
  unfold bind at 1. cbn [users with_ticks]. now rewrite Hrow.
Qed.

(** X21. The life of an account: after a sign-up, a confirmation with any
    token that decodes to the account's e-mail succeeds, and from then on
    a login with the e-mail and password of the sign-up returns a bearer
    pair, passlib verifying a password against its own hash. *)
Theorem signup_confirm_login (new_id : Z) (body : UserModel) (base_url : string)
  (tok : token) (w w1 w2 : World) :
  passlib_roundtrip ->
  repository_users.first_by_email (signup_email body) (users w) = None ->
  (forall r, In r (users w) -> id r <> new_id) ->
  snd (accounts.signup new_id body base_url w) = w1 ->
  auth_service.get_email_from_token tok w1 = (Returned (signup_email body), w2) ->
  exists w3 pair w4,
    routes_auth.confirmed_email tok w1 = (Returned "Email confirmed", w3) /\
    routes_auth.login (signup_email body) (signup_password body) w3 = (Returned pair, w4) /\
    routes_auth.token_type pair = "bearer" /\
    (exists u,
        repository_users.first_by_email (signup_email body) (users w4) = Some u /\
        confirmed u = true /\
        models.refresh_token u = Some (routes_auth.refresh_token_ pair)).
Proof.
  intros Hpass Hnone Hfresh Hw1 Hdec.
  destruct (signup_of_new_email new_id body base_url w Hnone Hfresh)
    as (w' & Hrun & _ & _ & _ & _ & _ & Hrow).
  rewrite Hrun in Hw1. cbn [snd] in Hw1. subst w'.
  rewrite (confirmed_email_of_unconfirmed _ _ _ _ _ Hdec Hrow eq_refl).
  eexists. 
  match goal with |- context [with_users ?rows w2] =>
    assert (repository_users.first_by_email (signup_email body) rows
            = Some (set_confirmed true
                      (mkUser new_id (signup_username body) (signup_email body)
                         (pwd_context_hash (signup_password body))
                         (gravatar_image (signup_email body)) None false))) as Hrow'
      by (apply (first_by_email_commit _ _ _ _ Hrow); reflexivity)
  end.
  destruct (login_of_verified (signup_email body) (signup_password body) _
              (with_users _ w2) Hrow' eq_refl (Hpass _))
    as (pair & w4 & Hlogin & Hbearer & _ & _ & Hrow'' & _).
  exists pair, w4. split; [reflexivity|]. split; [exact Hlogin|]. split; [exact Hbearer|].
  eexists. split; [exact Hrow''|]. split; reflexivity.
Qed.

End SignUp.

(** ** What every request keeps of the accounts *)

Section Accounts.
Context `{Sv : Services} `{En : Enrolment}.

Lemma keeps_refl (r : User) : api.keeps r r.
Proof. now repeat split. Qed.

Lemma keeps_trans (a b c : User) : api.keeps a b -> api.keeps b c -> api.keeps a c.
Proof.
  intros (H1 & H2 & H3 & H4 & H5) (K1 & K2 & K3 & K4 & K5).
  repeat split; try congruence. auto.
Qed.

Lemma grown_refl (rows : list User) : api.grown rows rows.
Proof.
  exists rows, []. split; [now rewrite app_nil_r|].
  induction rows; constructor; auto using keeps_refl.
Qed.

Lemma Forall2_keeps_trans (a b c : list User) :
  Forall2 api.keeps a b -> Forall2 api.keeps b c -> Forall2 api.keeps a c.
Proof.
  intros Hab. revert c. induction Hab as [|x y a b Hxy Hab IH]; intros c Hbc.
  - inversion Hbc. constructor.
  - inversion Hbc as [|? z ? c' Hyz Hbc']; subst. constructor; eauto using keeps_trans.
Qed.

Lemma grown_trans (a b c : list User) : api.grown a b -> api.grown b c -> api.grown a c.
Proof.
  intros (kept1 & new1 & -> & H1) (kept2 & new2 & -> & H2).
  apply Forall2_app_inv_l in H2 as (k & n & Hk & Hn & ->).
  exists k, (n ++ new2)%list. split; [now rewrite app_assoc|].
  eauto using Forall2_keeps_trans.
Qed.

Lemma grown_insert (rows : list User) (new_user : User) :
  api.grown rows (rows ++ [new_user]).
Proof.
  exists rows, [new_user]. split; [reflexivity|].
  induction rows; constructor; auto using keeps_refl.
Qed.

Lemma user_id_unique (rows : list User) (u r : User) :
  NoDup (map id rows) -> In u rows -> In r rows -> id r = id u -> r = u.
Proof.
  induction rows as [|x rows IH]; intros Hnd Hu Hr Hid; [contradiction|].
  cbn [map] in Hnd. apply NoDup_cons in Hnd as [Hx Hnd].
  destruct Hu as [<-|Hu], Hr as [<-|Hr]; auto.
  - exfalso. apply Hx. rewrite <- Hid. apply list_elem_of_In, in_map, Hr.
  - exfalso. apply Hx. rewrite Hid. apply list_elem_of_In, in_map, Hu.
Qed.

(** The UPDATE of the row found by e-mail, to a row that keeps the
    account, keeps the primary key unique and the accounts as they were. *)
Lemma commit_keeps_accounts (rows : list User) (addr : string) (u u' : User) :
  repository_users.first_by_email addr rows = Some u ->
  api.keeps u u' ->
  NoDup (map id rows) ->
  NoDup (map id (map (fun r => if bool_decide (id r = id u) then u' else r) rows)) /\
  api.grown rows (map (fun r => if bool_decide (id r = id u) then u' else r) rows).
Proof.
  intros Hrow Hkeeps Hnd.
  assert (In u rows) as Hin
    by (unfold repository_users.first_by_email in Hrow; now apply find_some in Hrow).
  assert (forall r, In r rows ->
            api.keeps r (if bool_decide (id r = id u) then u' else r)) as Hall.
  { intros r Hr. case_bool_decide as E; [|apply keeps_refl].
    now rewrite (user_id_unique rows u r Hnd Hin Hr E). }
  split.
  - rewrite map_map.
    replace (map (fun r => id (if bool_decide (id r = id u) then u' else r)) rows)
      with (map id rows); [exact Hnd|].
    apply map_ext_in. intros r Hr. now destruct (Hall r Hr) as (-> & _).
  - exists (map (fun r => if bool_decide (id r = id u) then u' else r) rows), [].
    split; [now rewrite app_nil_r|].
    clear Hnd Hin Hrow. induction rows as [|r rows IH]; cbn [map]; constructor.
    + apply Hall. now left.
    + apply IH. intros x Hx. apply Hall. now right.
Qed.

Lemma keeps_set_refresh_token (tok : option token) (u : User) :
  api.keeps u (set_refresh_token tok u).
Proof. now repeat split. Qed.

Lemma keeps_set_avatar (url : option string) (u : User) : api.keeps u (set_avatar url u).
Proof. now repeat split. Qed.

Lemma keeps_set_confirmed (u : User) : api.keeps u (set_confirmed true u).
Proof. now repeat split. Qed.

(** Resolving the caller writes the cache only. *)
Lemma get_current_user_tables (tok : token) (w w' : World) (r : outcome User) :
  auth_service.get_current_user tok w = (r, w') ->
  users w' = users w /\ contacts w' = contacts w /\ events w' = events w.
Proof.
  unfold auth_service.get_current_user, auth_service.subject, cache_get, cache_set,
    cache_expire, repository_users.get_user_by_email, bind, utcnow, raise, ret.
  repeat case_match; intros [= <- <-]; simplify_eq; now repeat split.
Qed.

(** A protected route whose handler leaves the users table alone leaves
    it alone. *)
Lemma protected_users {A} (tok : token) (handler : User -> M A) (w : World) :
  (forall user w1, users (snd (handler user w1)) = users w1) ->
  users (snd (api.protected tok handler w)) = users w.
Proof.
  intros Hh. unfold api.protected, bind.
  destruct (auth_service.get_current_user tok w) as [[user|e] w1] eqn:E;
    apply get_current_user_tables in E as (E & _); cbn [snd]; [|exact E].
  now rewrite Hh.
Qed.

Lemma account_step_same (rows rows' : list User) :
  rows' = rows -> NoDup (map id rows) -> NoDup (map id rows') /\ api.grown rows rows'.
Proof. intros -> Hnd. split; [exact Hnd|apply grown_refl]. Qed.

Lemma user_insert_refused_false (new_user : User) (rows : list User) :
  accounts.user_insert_refused new_user rows = false ->
  ~ In (id new_user) (map id rows).
Proof.
  unfold accounts.user_insert_refused. intros Hfree Hin.
  apply in_map_iff in Hin as (r & Hid & Hr).
  assert (existsb (fun r => bool_decide (id r = id new_user)
                            || bool_decide (email r = email new_user)) rows = true) as H.
  { apply existsb_exists. exists r. split; [exact Hr|].
    now rewrite bool_decide_true. }
  congruence.
Qed.

(** One request, whatever it is and whatever it answers, keeps the
    primary key of [users] unique and every account of the table. *)
Lemma serve_keeps_accounts (r : api.request) (w : World) :
  NoDup (map id (users w)) ->
  NoDup (map id (users (api.serve r w))) /\ api.grown (users w) (users (api.serve r w)).
Proof.
  intros Hnd. destruct r; cbn [api.serve].
  - (* signup *)
    unfold accounts.signup, accounts.create_user, repository_users.get_user_by_email,
      record, bind, raise, ret.
    repeat case_match; simplify_eq; cbn [snd users with_users with_events];
      try (now apply account_step_same).
    split; [|apply grown_insert].
    rewrite map_app. cbn [map]. apply NoDup_app. split; [exact Hnd|].
    split; [|apply NoDup_singleton].
    intros x Hx [= ->]%list_elem_of_singleton.
    match goal with H : accounts.user_insert_refused _ _ = false |- _ =>
      apply user_insert_refused_false in H; apply H end.
    now apply list_elem_of_In.
  - (* login *)
    unfold routes_auth.login, repository_users.get_user_by_email,
      auth_service.verify_password, auth_service.create_access_token,
      auth_service.create_refresh_token, auth_service.expiry, attempt,
      repository_users.update_token,
      commit_user, record, bind, utcnow, raise, ret.
    repeat case_match; simplify_eq;
      cbn [snd users with_users with_events with_ticks id set_refresh_token];
      try (now apply account_step_same).
    eapply commit_keeps_accounts; eauto using keeps_set_refresh_token.
  - (* refresh_token *)
    unfold routes_auth.refresh_token, auth_service.decode_refresh_token,
      auth_service.subject, repository_users.get_user_by_email,
      auth_service.create_access_token, auth_service.create_refresh_token,
      auth_service.expiry, attempt,
      repository_users.update_token, commit_user, bind, utcnow, raise, ret.
    repeat case_match; simplify_eq;
      cbn [snd users with_users with_events with_ticks id set_refresh_token] in *;
      try (now apply account_step_same);
      eapply commit_keeps_accounts; eauto using keeps_set_refresh_token.
  - (* confirmed_email *)
    unfold routes_auth.confirmed_email, auth_service.get_email_from_token,
      auth_service.subject, repository_users.confirmed_email,
      repository_users.get_user_by_email, commit_user, bind, utcnow, raise, ret.
    repeat case_match; simplify_eq;
      cbn [snd users with_users with_events with_ticks id set_confirmed] in *;
      try (now apply account_step_same);
      eapply commit_keeps_accounts; eauto using keeps_set_confirmed.
  - (* request_email *)
    apply account_step_same; [|exact Hnd].
    unfold routes_auth.request_email, routes_auth.getattr_confirmed,
      repository_users.get_user_by_email, record, bind, raise, ret.
    repeat case_match; simplify_eq; reflexivity.
  - (* me *)
    apply account_step_same; [|exact Hnd]. now apply protected_users.
  - (* avatar *)
    unfold api.protected, bind.
    destruct (auth_service.get_current_user bearer w) as [[user|e] w1] eqn:E;
      apply get_current_user_tables in E as (E & _); cbn [snd];
      [|now apply account_step_same].
    rewrite <- E in *. clear E.
    unfold routes_users.update_avatar_user, repository_users.update_avatar_url,
      repository_users.get_user_by_email, cache_set, cache_expire, commit_user,
      bind, utcnow, raise, ret.
    repeat case_match; simplify_eq;
      cbn [snd users with_users with_cache with_ticks id set_avatar] in *;
      try (now apply account_step_same);
      eapply commit_keeps_accounts; eauto using keeps_set_avatar.
  - apply account_step_same; [|exact Hnd]. now apply protected_users.
  - apply account_step_same; [|exact Hnd]. apply protected_users. intros user w1.
    reflexivity.
  - apply account_step_same; [|exact Hnd]. apply protected_users. intros user w1.
    unfold routes_contacts.read_contact, routes_contacts.or_404,
      repository_contacts.get_contact, bind, raise, ret.
    repeat case_match; simplify_eq; reflexivity.
  - apply account_step_same; [|exact Hnd]. apply protected_users. intros user w1.
    unfold contacts_listing.create_contact. now case_match.
  - apply account_step_same; [|exact Hnd]. apply protected_users. intros user w1.
    unfold routes_contacts.update_contact, routes_contacts.or_404,
      repository_contacts.update_contact, repository_contacts.get_contact,
      repository_contacts.commit_contact, bind, raise, ret.
    repeat case_match; simplify_eq; reflexivity.
  - apply account_step_same; [|exact Hnd]. apply protected_users. intros user w1.
    unfold routes_contacts.remove_contact, routes_contacts.or_404,
      repository_contacts.remove_contact, repository_contacts.get_contact,
      repository_contacts.delete_contact, bind, raise, ret.
    repeat case_match; simplify_eq; reflexivity.
Qed.

Lemma serve_all_keeps_accounts (rs : list api.request) (w : World) :
  NoDup (map id (users w)) ->
  NoDup (map id (users (api.serve_all rs w))) /\
  api.grown (users w) (users (api.serve_all rs w)).
Proof.
  revert w. induction rs as [|r rs IH]; intros w Hnd; cbn [api.serve_all].
  - split; [exact Hnd|apply grown_refl].
  - destruct (serve_keeps_accounts r w Hnd) as [Hnd1 Hg1].
    destruct (IH _ Hnd1) as [Hnd2 Hg2].
    split; [exact Hnd2|]. eauto using grown_trans.
Qed.

Lemma Forall2_keeps_In (rows kept : list User) (u : User) :
  Forall2 api.keeps rows kept -> In u rows -> exists u', In u' kept /\ api.keeps u u'.
Proof.
  induction 1 as [|x y rows kept Hxy _ IH]; intros Hu; [contradiction|].
  destruct Hu as [<-|Hu].
  - exists y. split; [now left|exact Hxy].
  - destruct (IH Hu) as (u' & Hin & Hk). exists u'. split; [now right|exact Hk].
Qed.

(** X22. No sequence of requests to the thirteen endpoints removes an
    account or changes its id, username, e-mail or password hash, and
    none takes a confirmation back: every row of [users] is still there
    afterwards with these fields, confirmed if it was, and the primary
    key is still unique. *)
Theorem accounts_are_kept (rs : list api.request) (w : World) (u : User) :
  NoDup (map id (users w)) ->
  In u (users w) ->
  NoDup (map id (users (api.serve_all rs w))) /\
  exists u',
    In u' (users (api.serve_all rs w)) /\
    id u' = id u /\ username u' = username u /\ email u' = email u /\
    password u' = password u /\ (confirmed u = true -> confirmed u' = true).
Proof.
  intros Hnd Hu.
  destruct (serve_all_keeps_accounts rs w Hnd) as [Hnd' (kept & created & Heq & Hkept)].
  split; [exact Hnd'|].
  destruct (Forall2_keeps_In _ _ _ Hkept Hu) as (u' & Hin & Hk).
  exists u'. split; [|exact Hk].
  rewrite Heq. apply in_or_app. now left.
Qed.

End Accounts.

(** ** What every request keeps of the cache *)

Section CacheKeys.
Context `{Sv : Services} `{En : Enrolment}.

Lemma cache_keyed_insert (c : gmap string CacheEntry) (u : User) (deadline : option datetime) :
  api.cache_keyed c -> api.cache_keyed (<[email u := mkEntry u deadline]> c).
Proof.
  intros Hc k e. destruct (decide (email u = k)) as [<-|Hne].
  - rewrite lookup_insert_eq. now intros [= <-].
  - rewrite lookup_insert_ne by done. apply Hc.
Qed.

Lemma cache_keyed_alter (c : gmap string CacheEntry) (key : string) (deadline : option datetime) :
  api.cache_keyed c ->
  api.cache_keyed (alter (fun e => mkEntry (pickled e) deadline) key c).
Proof.
  intros Hc k e. destruct (decide (key = k)) as [<-|Hne].
  - rewrite lookup_alter_eq. destruct (c !! key) as [e0|] eqn:E; [|discriminate].
    cbn. intros [= <-]. cbn. now apply Hc.
  - rewrite lookup_alter_ne by done. apply Hc.
Qed.

(** Resolving the caller keeps the cache keyed by e-mail. *)
Lemma get_current_user_cache (tok : token) (w w' : World) (r : outcome User) :
  auth_service.get_current_user tok w = (r, w') ->
  api.cache_keyed (cache w) -> api.cache_keyed (cache w').
Proof.
  unfold auth_service.get_current_user, auth_service.subject, cache_get, cache_set,
    cache_expire, repository_users.get_user_by_email, bind, utcnow, raise, ret.
  repeat case_match; intros [= <- <-]; simplify_eq;
    cbn [cache with_cache with_ticks]; try easy.
  intros Hc. apply cache_keyed_alter.
  match goal with H : repository_users.first_by_email _ _ = Some _ |- _ =>
    apply first_by_email_email in H as <- end.
  now apply cache_keyed_insert.
Qed.

Lemma protected_cache {A} (tok : token) (handler : User -> M A) (w : World) :
  (forall user w1, cache (snd (handler user w1)) = cache w1) ->
  api.cache_keyed (cache w) ->
  api.cache_keyed (cache (snd (api.protected tok handler w))).
Proof.
  intros Hh Hc. unfold api.protected, bind.
  destruct (auth_service.get_current_user tok w) as [[user|e] w1] eqn:E;
    pose proof (get_current_user_cache _ _ _ _ E Hc) as Hc1; cbn [snd];
    [rewrite Hh|]; exact Hc1.
Qed.

Lemma serve_keeps_cache_keyed (r : api.request) (w : World) :
  api.cache_keyed (cache w) -> api.cache_keyed (cache (api.serve r w)).
Proof.
  intros Hc. destruct r; cbn [api.serve].
  - unfold accounts.signup, accounts.create_user, repository_users.get_user_by_email,
      record, bind, raise, ret.
    repeat case_match; simplify_eq; exact Hc.
  - unfold routes_auth.login, repository_users.get_user_by_email,
      auth_service.verify_password, auth_service.create_access_token,
      auth_service.create_refresh_token, auth_service.expiry, attempt,
      repository_users.update_token,
      commit_user, record, bind, utcnow, raise, ret.
    repeat case_match; simplify_eq; exact Hc.
  - unfold routes_auth.refresh_token, auth_service.decode_refresh_token,
      auth_service.subject, repository_users.get_user_by_email,
      auth_service.create_access_token, auth_service.create_refresh_token,
      auth_service.expiry, attempt,
      repository_users.update_token, commit_user, bind, utcnow, raise, ret.
    repeat case_match; simplify_eq; exact Hc.
  - unfold routes_auth.confirmed_email, auth_service.get_email_from_token,
      auth_service.subject, repository_users.confirmed_email,
      repository_users.get_user_by_email, commit_user, bind, utcnow, raise, ret.
    repeat case_match; simplify_eq; exact Hc.
  - unfold routes_auth.request_email, routes_auth.getattr_confirmed,
      repository_users.get_user_by_email, record, bind, raise, ret.
    repeat case_match; simplify_eq; exact Hc.
  - now apply protected_cache.
  - unfold api.protected, bind.
    destruct (auth_service.get_current_user bearer w) as [[user|e] w1] eqn:E0;
      pose proof (get_current_user_cache _ _ _ _ E0 Hc) as E; cbn [snd]; [|exact E].
    unfold routes_users.update_avatar_user, repository_users.update_avatar_url,
      repository_users.get_user_by_email, cache_set, cache_expire, commit_user,
      bind, utcnow, raise, ret.
    repeat case_match; simplify_eq; cbn [snd cache with_cache with_users with_ticks];
      try exact E.
    apply cache_keyed_alter.
    now apply (cache_keyed_insert _ (set_avatar _ _)).
  - now apply protected_cache.
  - now apply protected_cache.
  - apply protected_cache; [|exact Hc]. intros user w1.
    unfold routes_contacts.read_contact, routes_contacts.or_404,
      repository_contacts.get_contact, bind, raise, ret.
    repeat case_match; simplify_eq; reflexivity.
  - apply protected_cache; [|exact Hc]. intros user w1.
    unfold contacts_listing.create_contact. now case_match.
  - apply protected_cache; [|exact Hc]. intros user w1.
    unfold routes_contacts.update_contact, routes_contacts.or_404,
      repository_contacts.update_contact, repository_contacts.get_contact,
      repository_contacts.commit_contact, bind, raise, ret.
    repeat case_match; simplify_eq; reflexivity.
  - apply protected_cache; [|exact Hc]. intros user w1.
    unfold routes_contacts.remove_contact, routes_contacts.or_404,
      repository_contacts.remove_contact, repository_contacts.get_contact,
      repository_contacts.delete_contact, bind, raise, ret.
    repeat case_match; simplify_eq; reflexivity.
Qed.

(** X24. The cache never holds a user under another user's key: if every
    entry is keyed by the e-mail of the user it holds, so it is after any
    sequence of requests to the thirteen endpoints. *)
Theorem cache_stays_keyed_by_email (rs : list api.request) (w : World) :
  api.cache_keyed (cache w) -> api.cache_keyed (cache (api.serve_all rs w)).
Proof.
  revert w. induction rs as [|r rs IH]; intros w Hc; cbn [api.serve_all]; [exact Hc|].
  apply IH. now apply serve_keeps_cache_keyed.
Qed.

End CacheKeys.

(** ** Refresh and confirmation tokens: expiry *)

Section OtherTokens.
Context `{Sv : Services}.

Lemma refresh_token_of_expiry (data : claims) (expires_delta : option number)
  (expire : datetime) (w : World) :
  auth_service.expiry (timedelta_days 7) expires_delta (clock (ticks w)) = inr expire ->
  exists c,
    issues "refresh_token" (auth_service.create_refresh_token data expires_delta) data w c /\
    c !! "exp" = Some (JDatetime expire).
Proof.
  intros Hexpire. eexists. split; [split; [|split; [|split]]|].
  - unfold auth_service.create_refresh_token, bind, utcnow.
    rewrite Hexpire. reflexivity.
  - apply lookup_insert_eq.
  - unfold auth_service.refresh_claims.
    now rewrite lookup_insert_ne, lookup_insert_ne, lookup_insert_eq.
  - intros k H1 H2 H3. unfold auth_service.refresh_claims. now rewrite !lookup_insert_ne.
  - unfold auth_service.refresh_claims. now rewrite lookup_insert_ne, lookup_insert_eq.
Qed.

Lemma refresh_token_of_error (data : claims) (expires_delta : option number)
  (e : exn) (w : World) :
  auth_service.expiry (timedelta_days 7) expires_delta (clock (ticks w)) = inl e ->
  auth_service.create_refresh_token data expires_delta w
  = (Raised e, with_ticks (S (ticks w)) w).
Proof.
  intros Hexpire. unfold auth_service.create_refresh_token, bind, utcnow.
  rewrite Hexpire. reflexivity.
Qed.

(** X25. The refresh token signs the caller's claims with [scope] set to
    [refresh_token] and [iat] to the second clock reading.  Its [exp] is
    the first clock reading plus 7 days when no override is given or when
    it is one Python takes for false, and the first clock reading plus
    [timedelta(seconds=override)] otherwise, exactly the override for a
    whole number of seconds, as long as the duration and the sum are in
    the range of [timedelta] and [datetime]; outside of it, and for a NaN,
    the call raises the exception of that arithmetic after one clock
    reading.  The confirmation token signs the caller's claims with [iat]
    and [exp] alike (always 7 days) and leaves [scope] as the caller gave
    it, absent for [{'sub': email}]. *)
Theorem refresh_and_email_token_claims (data : claims) (expires_delta : option number)
  (w : World) :
  (auth_service.truthy expires_delta = false ->
   exists c,
     issues "refresh_token" (auth_service.create_refresh_token data expires_delta) data w c /\
     c !! "exp" = Some (JDatetime (clock (ticks w) + timedelta_days 7))) /\
  (forall d,
      expires_delta = Some (PyInt d) -> d <> 0 ->
      timedelta_in_range (timedelta_seconds d) = true ->
      datetime_in_range (clock (ticks w) + timedelta_seconds d) = true ->
      exists c,
        issues "refresh_token" (auth_service.create_refresh_token data expires_delta)
          data w c /\
        c !! "exp" = Some (JDatetime (clock (ticks w) + timedelta_seconds d))) /\
  (forall x delta,
      expires_delta = Some x -> number_truth x = true ->
      timedelta_of_seconds x = inr delta ->
      datetime_in_range (clock (ticks w) + delta) = true ->
      exists c,
        issues "refresh_token" (auth_service.create_refresh_token data expires_delta)
          data w c /\
        c !! "exp" = Some (JDatetime (clock (ticks w) + delta))) /\
  (forall x e,
      expires_delta = Some x -> number_truth x = true ->
      timedelta_of_seconds x = inl e ->
      auth_service.create_refresh_token data expires_delta w
      = (Raised e, with_ticks (S (ticks w)) w)) /\
  (forall x delta,
      expires_delta = Some x -> number_truth x = true ->
      timedelta_of_seconds x = inr delta ->
      datetime_in_range (clock (ticks w) + delta) = false ->
      auth_service.create_refresh_token data expires_delta w
      = (Raised OverflowError, with_ticks (S (ticks w)) w)) /\
  (exists c,
      auth_service.create_email_token data w
      = (Returned (jwt_encode c SECRET_KEY ALGORITHM), with_ticks (S (S (ticks w))) w) /\
      c !! "iat" = Some (JDatetime (clock (S (ticks w)))) /\
      c !! "exp" = Some (JDatetime (clock (ticks w) + timedelta_days 7)) /\
      c !! "scope" = data !! "scope" /\
      c !! "sub" = data !! "sub").
Proof.
  split; [|split; [|split; [|split; [|split]]]].
  - intros Hfalse. apply refresh_token_of_expiry.
    now apply expiry_without_override.
  - intros d -> Hd Hdelta Hrange. apply refresh_token_of_expiry.
    apply expiry_with_override; [|now apply timedelta_of_whole_seconds|exact Hrange].
    cbn. now apply negb_true_iff, Z.eqb_neq.
  - intros x delta -> Hx Hdelta Hrange. apply refresh_token_of_expiry.
    now apply expiry_with_override.
  - intros x e -> Hx Hdelta. apply refresh_token_of_error.
    now apply expiry_of_refused_number.
  - intros x delta -> Hx Hdelta Hrange. apply refresh_token_of_error.
    now apply (expiry_out_of_range _ _ delta).
  - eexists. split; [apply create_email_token_run|].
    unfold auth_service.email_claims.
    split; [rewrite !lookup_insert_ne by done; apply lookup_insert_eq|].
    split; [apply lookup_insert_eq|].
    split; now rewrite !lookup_insert_ne by done.
Qed.

End OtherTokens.

(** ** The reference enrolment meets what is asked of passlib *)

Lemma reference_passlib :
  @passlib_roundtrip Reference.services ReferenceEnrolment.enrolment.
Proof. intros plain. cbn. now apply bool_decide_eq_true. Qed.

(** ** The further properties on the deployment *)

Section Walk.
Import Scenario Walkthrough.
#[local] Existing Instance Reference.services.
#[local] Existing Instance ReferenceEnrolment.enrolment.

(** Ann's access token is no refresh token, and her refresh token no
    access token. *)
Lemma ann_scopes_do_not_cross :
  (exists tok w1,
      auth_service.create_access_token (routes_auth.sub_only ann_mail) None world0
      = (Returned tok, w1) /\
      auth_service.decode_refresh_token tok (with_ticks 2 world0)
      = (Raised (HTTPException HTTP_401_UNAUTHORIZED "Invalid scope for token"),
         with_ticks 3 world0)) /\
  (exists tok w1,
      auth_service.create_refresh_token (routes_auth.sub_only ann_mail) None world0
      = (Returned tok, w1) /\
      auth_service.get_current_user tok (with_ticks 2 world0)
      = (Raised auth_service.credentials_exception, with_ticks 3 world0)).
Proof.
  apply (scopes_do_not_cross ann_mail world0 (with_ticks 2 world0) reference_roundtrip).
  apply Z.leb_le. reflexivity.
Defined.

(** A confirmation token for Bob presented as a bearer credential. *)
Lemma bob_confirmation_token_as_bearer :
  exists tok w1,
    auth_service.create_email_token (routes_auth.sub_only bob_mail) world0 = (Returned tok, w1) /\
    auth_service.decode_refresh_token tok (with_ticks 2 world0)
    = (Raised (KeyError "scope"), with_ticks 3 world0) /\
    auth_service.get_current_user tok (with_ticks 2 world0)
    = (Raised (KeyError "scope"), with_ticks 3 world0).
Proof.
  apply (confirmation_token_as_bearer bob_mail world0 (with_ticks 2 world0)
           reference_roundtrip).
  apply Z.leb_le. reflexivity.
Defined.

(** Any token issued for Bob names his e-mail to the confirmation route. *)
Lemma bob_tokens_name_his_email :
  (exists tok w1,
      auth_service.create_email_token (routes_auth.sub_only bob_mail) world0
      = (Returned tok, w1) /\
      auth_service.get_email_from_token tok (with_ticks 2 world0)
      = (Returned bob_mail, with_ticks 3 world0)) /\
  (exists tok w1,
      auth_service.create_access_token (routes_auth.sub_only bob_mail) None world0
      = (Returned tok, w1) /\
      auth_service.get_email_from_token tok (with_ticks 2 world0)
      = (Returned bob_mail, with_ticks 3 world0)) /\
  (exists tok w1,
      auth_service.create_refresh_token (routes_auth.sub_only bob_mail) None world0
      = (Returned tok, w1) /\
      auth_service.get_email_from_token tok (with_ticks 2 world0)
      = (Returned bob_mail, with_ticks 3 world0)).
Proof.
  apply (any_issued_token_names_its_email bob_mail world0 (with_ticks 2 world0)
           reference_roundtrip).
  apply Z.leb_le. reflexivity.
Defined.

(** With an older snapshot of Ann in the cache, it is the snapshot that
    resolves her, not her row. *)
Lemma ann_resolved_from_cache :
  auth_service.get_current_user (access_issued ann_mail) world_ann_cached
  = (Returned ann_before, with_ticks 2 world_ann_cached).
Proof.
  apply (current_user_from_cache (access_issued ann_mail) (access_payload ann_mail)
           ann_mail ann_before world_ann_cached); reflexivity.
Defined.


(** Ann, resolved from the cache after her row was removed, changes her
    avatar. *)
Lemma avatar_after_removal :
  routes_users.update_avatar_user "png" ann world_without_ann
  = (Raised (AttributeError "avatar"), world_without_ann).
Proof. apply (avatar_of_missing_row "png" ann world_without_ann). reflexivity. Defined.



(** After the rotation, her previous token is refused and the new one
    revoked with it. *)
Lemma ann_reuses_rotated_out_token :
  exists w'',
    routes_auth.refresh_token current_refresh (snd rotated)
    = (Raised (HTTPException HTTP_401_UNAUTHORIZED "Invalid refresh token"), w'') /\
    repository_users.first_by_email ann_mail (users w'')
    = Some (set_refresh_token None ann).
Proof.
  destruct (rotated_out_token_is_refused current_refresh world0 (with_ticks 1 world0)
              ann_mail ann (pair_of rotated) (snd rotated)
              (with_ticks 6 (snd rotated)))
    as (w'' & Hrun & Hrow & _).
  - reflexivity.
  - reflexivity.
  - reflexivity.
  - reflexivity.
  - assert (bool_decide (routes_auth.refresh_token_ (pair_of rotated) = current_refresh)
            = false) as Hne by reflexivity.
    now apply bool_decide_eq_false in Hne.
  - reflexivity.
  - exists w''. split; assumption.
Defined.

(** The refresh token of Ann's login is accepted right away. *)
Lemma ann_refreshes_after_login :
  exists pair2 w'',
    routes_auth.refresh_token (routes_auth.refresh_token_ (pair_of logged_in)) (snd logged_in)
    = (Returned pair2, w'') /\
    repository_users.first_by_email ann_mail (users w'')
    = Some (set_refresh_token (Some (routes_auth.refresh_token_ pair2)) ann).
Proof.
  apply (login_then_refresh ann_mail "pw1234" ann world0 (snd logged_in) (pair_of logged_in)
           reference_roundtrip); try reflexivity.
  apply Z.leb_le. reflexivity.
Defined.

(** Refresh tokens for Ann with no override and with a zero, with
    overrides of an hour and of two and a half seconds, and with the
    overrides that are refused: 10**11 seconds back, which leads before
    the year 1, and a NaN; and her confirmation token. *)
Lemma ann_refresh_and_confirmation_tokens :
  (exists c,
      issues "refresh_token"
        (auth_service.create_refresh_token (routes_auth.sub_only ann_mail) None)
        (routes_auth.sub_only ann_mail) world0 c /\
      c !! "exp" = Some (JDatetime (clock 0 + timedelta_days 7))) /\
  (exists c,
      issues "refresh_token"
        (auth_service.create_refresh_token (routes_auth.sub_only ann_mail)
           (Some (PyFloat 0%float)))
        (routes_auth.sub_only ann_mail) world0 c /\
      c !! "exp" = Some (JDatetime (clock 0 + timedelta_days 7))) /\
  (exists c,
      issues "refresh_token"
        (auth_service.create_refresh_token (routes_auth.sub_only ann_mail)
           (Some (PyInt 3600)))
        (routes_auth.sub_only ann_mail) world0 c /\
      c !! "exp" = Some (JDatetime (clock 0 + timedelta_seconds 3600))) /\
  (exists c,
      issues "refresh_token"
        (auth_service.create_refresh_token (routes_auth.sub_only ann_mail)
           (Some (PyFloat 2.5%float)))
        (routes_auth.sub_only ann_mail) world0 c /\
      c !! "exp" = Some (JDatetime (clock 0 + 2500000))) /\
  auth_service.create_refresh_token (routes_auth.sub_only ann_mail)
    (Some (PyInt (- 10 ^ 11))) world0
  = (Raised OverflowError, with_ticks 1 world0) /\
  auth_service.create_refresh_token (routes_auth.sub_only ann_mail)
    (Some (PyFloat PrimFloat.nan)) world0
  = (Raised ValueError, with_ticks 1 world0) /\
  (exists c,
      auth_service.create_email_token (routes_auth.sub_only ann_mail) world0
      = (Returned (jwt_encode c SECRET_KEY ALGORITHM), with_ticks 2 world0) /\
      c !! "exp" = Some (JDatetime (clock 0 + timedelta_days 7)) /\
      c !! "scope" = None).
Proof.
  split; [|split; [|split; [|split; [|split; [|split]]]]].
  - apply (proj1 (refresh_and_email_token_claims (routes_auth.sub_only ann_mail)
                    None world0)).
    reflexivity.
  - apply (proj1 (refresh_and_email_token_claims (routes_auth.sub_only ann_mail)
                    (Some (PyFloat 0%float)) world0)).
    reflexivity.
  - apply (proj1 (proj2 (refresh_and_email_token_claims (routes_auth.sub_only ann_mail)
                           (Some (PyInt 3600)) world0)) 3600);
      [reflexivity|discriminate|reflexivity|reflexivity].
  - apply (proj1 (proj2 (proj2 (refresh_and_email_token_claims
                                  (routes_auth.sub_only ann_mail)
                                  (Some (PyFloat 2.5%float)) world0)))
             (PyFloat 2.5%float) 2500000);
      reflexivity.
  - apply (proj1 (proj2 (proj2 (proj2 (proj2 (refresh_and_email_token_claims
                                                (routes_auth.sub_only ann_mail)
                                                (Some (PyInt (- 10 ^ 11))) world0)))))
             (PyInt (- 10 ^ 11)) (timedelta_seconds (- 10 ^ 11)));
      reflexivity.
  - apply (proj1 (proj2 (proj2 (proj2 (refresh_and_email_token_claims
                                         (routes_auth.sub_only ann_mail)
                                         (Some (PyFloat PrimFloat.nan)) world0))))
             (PyFloat PrimFloat.nan) ValueError);
      reflexivity.
  - destruct (proj2 (proj2 (proj2 (proj2 (proj2 (refresh_and_email_token_claims
                                                   (routes_auth.sub_only ann_mail)
                                                   None world0))))))
      as (c & Hrun & _ & Hexp & Hscope & _).
    exists c. split; [exact Hrun|]. split; [exact Hexp|].
    rewrite Hscope. reflexivity.
Defined.

End Walk.

Section Walk2.
Import Scenario Walkthrough.
#[local] Existing Instance Reference.services.
#[local] Existing Instance ReferenceEnrolment.enrolment.

(** Ann deletes her first contact and can no longer read it. *)
Lemma ann_removes_a_contact :
  exists w',
    routes_contacts.remove_contact 1 ann world0 = (Returned on_the_day, w') /\
    routes_contacts.read_contact 1 ann w' = (Raised routes_contacts.not_found, w').
Proof.
  destruct (remove_contact_then_gone 1 ann on_the_day new_contact world0)
    as (w' & Hrun & _ & _ & _ & Hread & _); [reflexivity|].
  exists w'. split; assumption.
Defined.

(** Ann replaces the fields of her first contact and reads them back. *)
Lemma ann_updates_a_contact :
  exists w',
    routes_contacts.update_contact new_contact 1 ann world0
    = (Returned (mkContact 1 "Jane" "Doe" None "+1000" (Some (Date 2000 1 1)) (Some 1)), w') /\
    routes_contacts.read_contact 1 ann w'
    = (Returned (mkContact 1 "Jane" "Doe" None "+1000" (Some (Date 2000 1 1)) (Some 1)), w').
Proof.
  destruct (update_contact_then_read 1 ann on_the_day new_contact world0)
    as (w' & Hrun & _ & _ & Hread).
  - reflexivity.
  - intros r Hr Hid. split; [|discriminate].
    cbn in Hr. repeat (destruct Hr as [<- | Hr]; [try discriminate; now elim Hid|]).
    contradiction.
  - exists w'. split; assumption.
Defined.

(** Whatever Ann does to contact 7 or to her own contact 1, Bob's contact
    stays. *)
Lemma bobs_contact_stays :
  of_others ann (contacts (snd (routes_contacts.update_contact new_contact 7 ann world0)))
  = [bobs_contact] /\
  of_others ann (contacts (snd (routes_contacts.update_contact new_contact 1 ann world0)))
  = [bobs_contact] /\
  of_others ann (contacts (snd (routes_contacts.remove_contact 1 ann world0)))
  = [bobs_contact].
Proof.
  assert (NoDup (map contact_id (contacts world0))) as Hnd
    by (apply (bool_decide_unpack _); reflexivity).
  destruct (contact_writes_stay_with_owner 7 ann new_contact world0 Hnd) as (_ & H7 & _).
  destruct (contact_writes_stay_with_owner 1 ann new_contact world0 Hnd) as (_ & H1 & H1').
  rewrite H7, H1, H1'. repeat split.
Defined.

(** On 28 December a contact born on 2 January is returned, being in the
    window. *)
Lemma new_year_birthday_is_returned :
  In new_year (birthdays_on (Date 2023 12 28) 1 [new_year; year_end; epiphany]) <->
  In new_year [new_year; year_end; epiphany] /\
  in_birthday_window (Date 2023 12 28) (Date 1991 1 2).
Proof.
  apply (birthdays_across_months (Date 2023 12 28) (Date 1991 1 2) 1
           [new_year; year_end; epiphany] new_year).
  - unfold valid_date. cbn. lia.
  - intros H. vm_compute in H. discriminate H.
  - reflexivity.
  - reflexivity.
  - cbn. lia.
  - cbn. discriminate.
Defined.

(** What the query returns for Ann on 14 November is hers, with a birth
    date in November. *)
Lemma ann_birthdays_are_scoped :
  In in_eight_days (contacts world0) /\ user_id in_eight_days = Some 1 /\
  exists b, born_date in_eight_days = Some b /\
            (month b = month (Date 2023 11 14) \/
             month b = month (add_days 7 (Date 2023 11 14))).
Proof.
  apply (birthdays_are_scoped (Date 2023 11 14) 1 (contacts world0) in_eight_days).
  assert (birthdays_on (Date 2023 11 14) 1 (contacts world0)
          = [on_the_day; in_seven_days; in_eight_days; twelve_days_ago]) as ->
    by reflexivity.
  right. right. now left.
Defined.

(** In the middle of November every November birthday of Ann's contacts
    is returned, the one twelve days past too. *)
Lemma november_birthdays_are_returned :
  In twelve_days_ago (birthdays_on (Date 2023 11 14) 1 (contacts world0)).
Proof.
  apply (birthdays_of_the_whole_month (Date 2023 11 14) 1 (contacts world0)
           twelve_days_ago (Date 1988 11 2)); try reflexivity.
  - apply Z.leb_le. reflexivity.
  - cbn. auto 10.
Defined.

(** Ann creates a contact and reads it back; Bob cannot. *)
Lemma ann_creates_a_contact :
  exists w',
    contacts_listing.create_contact 8 new_contact ann world0
    = (Returned (inr (mkContact 8 "Jane" "Doe" None "+1000" (Some (Date 2000 1 1)) (Some 1))),
       w') /\
    routes_contacts.read_contact 8 ann w'
    = (Returned (mkContact 8 "Jane" "Doe" None "+1000" (Some (Date 2000 1 1)) (Some 1)), w') /\
    routes_contacts.read_contact 8 bob w' = (Raised routes_contacts.not_found, w').
Proof.
  destruct (create_contact_then_read 8 new_contact ann bob world0)
    as (w' & Hrun & _ & _ & _ & Hmine & Htheirs); [reflexivity|discriminate|].
  exists w'. repeat split; assumption.
Defined.

(** Ann cannot create a contact with the phone number of Bob's contact. *)
Lemma ann_reuses_a_phone_number :
  contacts_listing.create_contact 8 clashing_contact ann world0
  = (Returned (inl UniqueViolation), world0).
Proof.
  apply (create_contact_with_taken_phone 8 clashing_contact ann world0 bobs_contact).
  - cbn. auto 10.
  - reflexivity.
Defined.

(** Signing up again with Ann's e-mail. *)
Lemma ann_signs_up_twice :
  accounts.signup 3 (mkUserModel "ann2" ann_mail "pw5678") "http://localhost/" world0
  = (Raised (HTTPException HTTP_409_CONFLICT "Account already exists"), world0).
Proof.
  apply (signup_of_registered_email 3 (mkUserModel "ann2" ann_mail "pw5678")
           "http://localhost/" ann world0).
  reflexivity.
Defined.

Lemma id_3_is_unused : forall r, In r (users world0) -> id r <> 3.
Proof. intros r [<-|[<-|[]]]; discriminate. Qed.

(** Carol signs up. *)
Lemma carol_signs_up :
  exists w',
    accounts.signup 3 carol_body "http://localhost/" world0
    = (Returned (inr (carol, "User successfully created")), w') /\
    users w' = [ann; bob; carol] /\
    events w' = [EvSendEmail carol_mail "carol" "http://localhost/"].
Proof.
  destruct (signup_creates_unconfirmed 3 carol_body "http://localhost/" world0)
    as (w' & Hrun & Husers & Hev & _); [reflexivity|exact id_3_is_unused|].
  exists w'. repeat split; assumption.
Defined.

(** Carol cannot log in before confirming. *)
Lemma carol_logs_in_too_early :
  exists w',
    snd (accounts.signup 3 carol_body "http://localhost/" world0) = w' /\
    routes_auth.login carol_mail "s3cret" w'
    = (Raised (HTTPException HTTP_401_UNAUTHORIZED "Email is not confirmed"), w').
Proof.
  apply (signup_then_login_refused 3 carol_body "http://localhost/" world0);
    [reflexivity|exact id_3_is_unused].
Defined.

(** Carol confirms her e-mail and logs in. *)
Lemma carol_confirms_and_logs_in :
  exists w3 pair w4,
    routes_auth.confirmed_email (confirmation_issued carol_mail (timedelta_days 1)) world_carol
    = (Returned "Email confirmed", w3) /\
    routes_auth.login carol_mail "s3cret" w3 = (Returned pair, w4) /\
    routes_auth.token_type pair = "bearer" /\
    (exists u,
        repository_users.first_by_email carol_mail (users w4) = Some u /\
        confirmed u = true /\
        models.refresh_token u = Some (routes_auth.refresh_token_ pair)).
Proof.
  apply (signup_confirm_login 3 carol_body "http://localhost/"
           (confirmation_issued carol_mail (timedelta_days 1))
           world0 world_carol (with_ticks 1 world_carol) reference_passlib);
    [reflexivity|exact id_3_is_unused|reflexivity|reflexivity].
Defined.

(** After the morning's requests Bob's account is still there. *)
Lemma bob_is_kept_through_the_morning :
  NoDup (map id (users (api.serve_all morning world0))) /\
  exists u',
    In u' (users (api.serve_all morning world0)) /\
    id u' = 2 /\ username u' = "bob" /\ email u' = bob_mail /\
    password u' = "hash:secret" /\ (confirmed bob = true -> confirmed u' = true).
Proof.
  apply (accounts_are_kept morning world0 bob).
  - apply (bool_decide_unpack _). reflexivity.
  - cbn. auto.
Defined.

(** After the morning's requests the cache is still keyed by e-mail. *)
Lemma cache_keyed_through_the_morning :
  exists c, c = cache (api.serve_all morning world_cached) /\ api.cache_keyed c.
Proof.
  eexists. split; [reflexivity|].
  apply (cache_stays_keyed_by_email morning world_cached).
  intros k e H. unfold world_cached in H. cbn [cache with_cache] in H.
  apply lookup_singleton_Some in H as [<- <-]. reflexivity.
Defined.

End Walk2.
